(** * NILA Products storefront (app.py): a shallow embedding and its properties

    The development follows [app.py]: the identifier generator
    [generate_unique_id], the checkout handler [place_order], the return
    handler [request_return], the restock dispatcher
    [handle_stock_notifications] and the e-mail validator [validate_email].

    Conventions of the embedding.
    - The realtime database is a record of finite maps ([gmap]); a read of a
      missing node is [None], as [Reference.get()] returns [None].
    - Python [str] values are modelled as [string]: the strings of
      characters up to U+00FF.
    - Python [int] values are [Z]; there is no overflow in Python.
    - A dictionary key read with [d.get(k, default)] is an [option] field;
      a key read with [d[k]] only is a plain field.  A key read both ways
      ([item['name']] and [item.get('name', ...)]) is an [option] field and
      the subscript raises [KeyError] on [None].
    - Handlers run in the monad [M] over the database, the values of the
      module [random], the log of mails and the log of write calls (one
      entry per [set] or [update] of a reference, holding the paths it
      writes); a run returns, raises, or is still in a
      [while True] loop when the supplied random values end.
    - A cart line holds a string ['id'] and an integer ['quantity']; an
      order id of a return form is a legal path segment, as the keys of
      [order_history] are.  Lines and ids of other shapes make the
      subscripts of validation and [Reference.child] raise, and are outside
      the embedding.
    - The clock, the server timestamp and the object store are inputs
      ([Env]). *)

From Stdlib Require Import ZArith NArith Ascii String List Lia Bool.
From stdpp Require Import base option list gmap strings.

Local Open Scope string_scope.
Local Open Scope Z_scope.

(** ** Strings *)

Module Str.

(** [s.replace(old, new)] for one-character [old] and [new]. *)
Fixpoint replace_char (old new : ascii) (s : string) : string :=
  match s with
  | EmptyString => EmptyString
  | String c s' =>
      String (if Ascii.eqb c old then new else c) (replace_char old new s')
  end.

(** [c in s] for a character [c]. *)
Fixpoint contains (c : ascii) (s : string) : bool :=
  match s with
  | EmptyString => false
  | String d s' => Ascii.eqb d c || contains c s'
  end.

(** [all(p(c) for c in s)]. *)
Fixpoint forallb (p : ascii -> bool) (s : string) : bool :=
  match s with
  | EmptyString => true
  | String c s' => p c && forallb p s'
  end.

(** [sep.join(parts)]. *)
Fixpoint join (sep : string) (parts : list string) : string :=
  match parts with
  | [] => ""
  | [p] => p
  | p :: rest => p ++ sep ++ join sep rest
  end.

(** ['0' * n]. *)
Fixpoint zeros (n : nat) : string :=
  match n with
  | O => ""
  | S k => String "0" (zeros k)
  end.

(** [s.zfill(width)] for a string without a sign. *)
Definition zfill (width : nat) (s : string) : string :=
  zeros (width - String.length s) ++ s.

Definition digit_of (d : N) : ascii := ascii_of_N (48 + d).

(** Decimal digits of [n], most significant first, prepended to [acc]. *)
Fixpoint digits (fuel : nat) (n : N) (acc : string) : string :=
  match fuel with
  | O => acc
  | S f =>
      let acc' := String (digit_of (n mod 10)) acc in
      if (n / 10 =? 0)%N then acc' else digits f (n / 10)%N acc'
  end.

(** [str(n)] for [n >= 0]. *)
Definition of_N (n : N) : string := digits (S (N.size_nat n)) n "".

(** [str(z)] for an [int]. *)
Definition of_Z (z : Z) : string :=
  match z with
  | Z0 => "0"
  | Zpos p => of_N (Npos p)
  | Zneg p => String "-" (of_N (Npos p))
  end.

Definition is_digit (c : ascii) : bool :=
  let n := N_of_ascii c in ((48 <=? n) && (n <=? 57))%N.

Definition is_upper (c : ascii) : bool :=
  let n := N_of_ascii c in ((65 <=? n) && (n <=? 90))%N.

Definition is_lower (c : ascii) : bool :=
  let n := N_of_ascii c in ((97 <=? n) && (n <=? 122))%N.

(** The letters and numbers of U+0080..U+00FF: the characters [c] of that
    range with [c.isalnum()]. *)
Definition is_latin1_alnum (c : ascii) : bool :=
  let n := N_of_ascii c in
  ((n =? 170) || ((178 <=? n) && (n <=? 179)) || (n =? 181)
   || ((185 <=? n) && (n <=? 186)) || ((188 <=? n) && (n <=? 190))
   || ((192 <=? n) && (n <=? 214)) || ((216 <=? n) && (n <=? 246))
   || (248 <=? n))%N.

(** The regex class [\w] of a [str] pattern, on the characters up to
    U+00FF: [[a-zA-Z0-9_]] and the letters and numbers of Latin-1. *)
Definition is_word (c : ascii) : bool :=
  is_digit c || is_upper c || is_lower c || Ascii.eqb c "_"
  || is_latin1_alnum c.

End Str.

(** ** Regular expressions, as [re.fullmatch] needs them *)

Module Re.

Inductive regex : Type :=
| Void : regex
| Eps : regex
| Class (p : ascii -> bool) : regex
| Seq (r1 r2 : regex) : regex
| Alt (r1 r2 : regex) : regex
| Star (r : regex) : regex.

(** [r+] and [r{2,}]. *)
Definition Plus (r : regex) : regex := Seq r (Star r).
Definition AtLeast2 (r : regex) : regex := Seq r (Seq r (Star r)).

Fixpoint nullable (r : regex) : bool :=
  match r with
  | Void => false
  | Eps => true
  | Class _ => false
  | Seq r1 r2 => nullable r1 && nullable r2
  | Alt r1 r2 => nullable r1 || nullable r2
  | Star _ => true
  end.

(** Brzozowski derivative of [r] by the character [c]. *)
Fixpoint deriv (c : ascii) (r : regex) : regex :=
  match r with
  | Void => Void
  | Eps => Void
  | Class p => if p c then Eps else Void
  | Seq r1 r2 =>
      if nullable r1
      then Alt (Seq (deriv c r1) r2) (deriv c r2)
      else Seq (deriv c r1) r2
  | Alt r1 r2 => Alt (deriv c r1) (deriv c r2)
  | Star r1 => Seq (deriv c r1) (Star r1)
  end.

(** [bool(re.fullmatch(r, s))]. *)
Fixpoint fullmatch (r : regex) (s : string) : bool :=
  match s with
  | EmptyString => nullable r
  | String c s' => fullmatch (deriv c r) s'
  end.

End Re.

(** ** User keys and e-mail validation *)

(** The class [[\w\.-]] of the e-mail pattern. *)
Definition email_char (c : ascii) : bool :=
  Str.is_word c || Ascii.eqb c "." || Ascii.eqb c "-".

(** The pattern [[\w\.-]+@[\w\.-]+\.\w{2,}]. *)
Definition email_pattern : Re.regex :=
  Re.Seq (Re.Plus (Re.Class email_char))
    (Re.Seq (Re.Class (Ascii.eqb "@"))
       (Re.Seq (Re.Plus (Re.Class email_char))
          (Re.Seq (Re.Class (Ascii.eqb "."))
             (Re.AtLeast2 (Re.Class Str.is_word))))).

Definition validate_email (email : string) : bool :=
  Re.fullmatch email_pattern email.

(** [user_email.replace('.', '_')], the key under [users/] and in the
    waitlists. *)
Definition safe_email_key (user_email : string) : string :=
  Str.replace_char "." "_" user_email.

(** [safe_email_key.replace('_', '.')], the address the dispatcher mails. *)
Definition email_of_key (safe_key : string) : string :=
  Str.replace_char "_" "." safe_key.

(** ** Data model: the documents under [users/], [stockitems/],
    [existing_ids/] and [stock_notifications/] *)

(** A shipping address: a flat JSON object.  The database stores no empty
    object, so the empty map also stands for a missing address. *)
Abbreviation Address := (gmap string string).

(** A cart line with the keys ['id'] and ['quantity'] that validation
    subscripts.  [item_extra] holds the keys the server never reads. *)
Record CartItem : Type := mkCartItem {
  item_id : string;
  item_name : option string;
  item_quantity : Z;
  item_extra : list (string * string)
}.

Record Product : Type := mkProduct {
  prod_name : string;
  prod_price : Z;
  prod_availableStock : option Z;
  prod_image : string;
  prod_description : option string
}.

(** A line of an order: the snapshot taken at checkout. *)
Record OrderItem : Type := mkOrderItem {
  oi_id : string;
  oi_name : string;
  oi_price : Z;
  oi_quantity : Z;
  oi_image : string;
  oi_description : string
}.

Record ReturnDetails : Type := mkReturnDetails {
  rd_reason : string;
  rd_videoUrl : string;
  rd_pickupAddress : Address;
  rd_pickupContact : string;
  rd_requestedAt : Z
}.

Record Order : Type := mkOrder {
  ord_orderId : string;
  ord_invoiceId : string;
  ord_orderDate : Z;
  ord_status : option string;
  ord_items : list OrderItem;
  ord_shippingAddress : Address;
  ord_totalAmount : Z;
  ord_deliveryDate : option string;
  ord_returnInvoiceId : option string;
  ord_returnDetails : option ReturnDetails
}.

Record User : Type := mkUser {
  user_name : option string;
  user_orders : option Z;
  user_cart_items : list CartItem;
  user_shipping_address : gmap string Address;
  user_order_history : gmap string Order
}.

Record DB : Type := mkDB {
  users : gmap string User;
  stockitems : gmap string Product;
  existing_ids : gmap string (gmap string bool);
  stock_notifications : gmap string (gmap string bool)
}.

(** A product of a restock list, as the dispatcher and its mail read it. *)
Record Restocked : Type := mkRestocked {
  rs_id : string;
  rs_name : string;
  rs_price : Z
}.

(** A call of one of the [send_*_email] helpers. *)
Inductive Email : Type :=
| OrderConfirmation (receiver_email name : string) (order_data : Order)
| ReturnRequestMail (receiver_email name : string) (order_data : Order)
| StockNotification (receiver_email name : string)
    (restocked_products : list Restocked).

(** ** Multi-path updates *)

(** One entry of the dictionary given to [Reference.update]: an absolute
    path and the value written there ([None] deletes the node). *)
Inductive Write : Type :=
| SetOrder (safe_key order_id : string) (order_data : Order)
| SetCart (safe_key : string) (cart : list CartItem)
| SetOrderCount (safe_key : string) (n : Z)
| SetExistingId (id_type new_id : string) (flag : bool)
| SetStock (product_id : string) (n : Z)
| SetReturn (safe_key order_id : string)
    (status return_invoice_id : string) (return_details : ReturnDetails)
| DeleteNotification (product_id safe_key : string).

(** The document at a path that holds nothing. *)
Definition empty_user : User :=
  mkUser None None [] ∅ ∅.

(** [users/{safe_key}], empty when the node is missing. *)
Definition user_at (db : DB) (safe_key : string) : User :=
  default empty_user (users db !! safe_key).

(** The database with another [users/] tree, or another user document. *)
Definition with_users (db : DB) (u : gmap string User) : DB :=
  mkDB u (stockitems db) (existing_ids db) (stock_notifications db).

Definition with_user (db : DB) (safe_key : string) (u : User) : DB :=
  with_users db (<[safe_key := u]> (users db)).

(** [availableStock] of a product document set to [n]. *)
Definition set_stock (n : Z) (p : Product) : Product :=
  mkProduct (prod_name p) (prod_price p) (Some n) (prod_image p)
    (prod_description p).

(** The keys [status], [returnInvoiceId] and [returnDetails] of an order
    document set. *)
Definition set_return (status return_invoice_id : string)
    (return_details : ReturnDetails) (o : Order) : Order :=
  mkOrder (ord_orderId o) (ord_invoiceId o) (ord_orderDate o) (Some status)
    (ord_items o) (ord_shippingAddress o) (ord_totalAmount o)
    (ord_deliveryDate o) (Some return_invoice_id) (Some return_details).

(** Deleting the last child of a node deletes the node. *)
Definition delete_child (child : string) (node : gmap string bool)
    : option (gmap string bool) :=
  let node' := delete child node in
  if decide (node' = ∅) then None else Some node'.

(** The database after one write.  A write below [users/] creates the
    nodes on its path.  A write to the stock of a product or to the return
    keys of an order changes the document that is there; the handlers write
    these paths only after they have read the document. *)
Definition apply_write (db : DB) (w : Write) : DB :=
  match w with
  | SetOrder k order_id o =>
      let u := user_at db k in
      with_user db k
        (mkUser (user_name u) (user_orders u) (user_cart_items u)
           (user_shipping_address u) (<[order_id := o]> (user_order_history u)))
  | SetCart k cart =>
      let u := user_at db k in
      with_user db k
        (mkUser (user_name u) (user_orders u) cart
           (user_shipping_address u) (user_order_history u))
  | SetOrderCount k n =>
      let u := user_at db k in
      with_user db k
        (mkUser (user_name u) (Some n) (user_cart_items u)
           (user_shipping_address u) (user_order_history u))
  | SetExistingId id_type new_id flag =>
      let ids := default ∅ (existing_ids db !! id_type) in
      mkDB (users db) (stockitems db)
        (<[id_type := <[new_id := flag]> ids]> (existing_ids db))
        (stock_notifications db)
  | SetStock product_id n =>
      mkDB (users db) (alter (set_stock n) product_id (stockitems db))
        (existing_ids db) (stock_notifications db)
  | SetReturn k order_id status return_invoice_id return_details =>
      let u := user_at db k in
      with_user db k
        (mkUser (user_name u) (user_orders u) (user_cart_items u)
           (user_shipping_address u)
           (alter (set_return status return_invoice_id return_details)
              order_id (user_order_history u)))
  | DeleteNotification product_id k =>
      mkDB (users db) (stockitems db) (existing_ids db)
        (partial_alter (fun node => node ≫= delete_child k) product_id
           (stock_notifications db))
  end.

(** [Reference.update(updates)]: every path of the dictionary is written in
    one call. *)
Definition apply_update (updates : list Write) (db : DB) : DB :=
  fold_left apply_write updates db.

(** ** The handler monad: database, random generator and mail log *)

Inductive exn : Type :=
| KeyError (key : string)
| TypeError
| AttributeError
| ValueError
| RecursionError.

(** What a handler can touch: the database, the stream of values the
    module [random] will deliver, the log of mail helper calls, and the log
    of the calls that write to the database ([update], [set]), each with
    the paths that the one call writes. *)
Record World : Type := mkWorld {
  w_db : DB;
  w_draws : list N;
  w_outbox : list Email;
  w_writes : list (list Write)
}.

(** A run returns, raises, or is still looping when the supplied random
    stream ends. *)
Inductive outcome (A : Type) : Type :=
| Ret (a : A) (w : World)
| Raise (e : exn) (w : World)
| Loops.
Arguments Ret {A} a w.
Arguments Raise {A} e w.
Arguments Loops {A}.

(** A handler, or a part of one. *)
Definition M (A : Type) : Type := World -> outcome A.

Definition ret {A} (a : A) : M A := fun w => Ret a w.

Definition bind {A B} (m : M A) (k : A -> M B) : M B :=
  fun w =>
    match m w with
    | Ret a w' => k a w'
    | Raise e w' => Raise e w'
    | Loops => Loops
    end.

Definition raise {A} (e : exn) : M A := fun w => Raise e w.

(** [try: body  except Exception as e: handler(e)]. *)
Definition try_except {A} (body : M A) (handler : exn -> M A) : M A :=
  fun w =>
    match body w with
    | Ret a w' => Ret a w'
    | Raise e w' => handler e w'
    | Loops => Loops
    end.

Declare Scope handler_scope.
Delimit Scope handler_scope with handler.
Notation "x <- m ;; k" := (bind m (fun x => k))
  (at level 100, m at next level, right associativity) : handler_scope.
Notation "m ;;; k" := (bind m (fun _ => k))
  (at level 100, right associativity) : handler_scope.

(** [db.reference().get()]. *)
Definition get_db : M DB := fun w => Ret (w_db w) w.

(** [db.reference().update(updates)]. *)
Definition update (updates : list Write) : M unit :=
  fun w =>
    Ret tt (mkWorld (apply_update updates (w_db w)) (w_draws w) (w_outbox w)
              (w_writes w ++ [updates])).

(** [ref.set(value)] at the one path of [write]. *)
Definition set_ref (write : Write) : M unit := update [write].

(** The next value of the random generator, if the stream has one. *)
Definition draw : M N :=
  fun w =>
    match w_draws w with
    | [] => Loops
    | raw :: rest => Ret raw (mkWorld (w_db w) rest (w_outbox w) (w_writes w))
    end.

(** A mail helper is called; its own failures are caught inside it. *)
Definition send (mail : Email) : M unit :=
  fun w =>
    Ret tt (mkWorld (w_db w) (w_draws w) (w_outbox w ++ [mail]) (w_writes w)).

(** [random.randint(lo, hi)], from one value of the generator. *)
Definition randint (lo hi : Z) (raw : N) : Z :=
  lo + Z.of_N raw mod (hi - lo + 1).

(** [random.choice(options)], from one value of the generator. *)
Definition choice (options : list string) (raw : N) : string :=
  nth (N.to_nat (raw mod N.of_nat (length options))) options "".

(** ** Unique ID generation helper *)

Definition num_digits : nat := 5.

(** Truth value of [id_ref.child(new_id).get()]. *)
Definition id_reserved (db : DB) (id_type new_id : string) : bool :=
  match existing_ids db !! id_type with
  | Some ids => default false (ids !! new_id)
  | None => false
  end.

(** [str(random.randint(0, 10**num_digits - 1)).zfill(num_digits)]. *)
Definition random_part (raw : N) : string :=
  Str.zfill num_digits
    (Str.of_Z (randint 0 (10 ^ Z.of_nat num_digits - 1) raw)).

(** The [while True] loop, one iteration per value of the generator. *)
Fixpoint generate_loop (prefix id_type : string) (draws : list N)
    (w : World) : outcome string :=
  match draws with
  | [] => Loops
  | raw :: rest =>
      let w' := mkWorld (w_db w) rest (w_outbox w) (w_writes w) in
      let new_id := prefix ++ random_part raw in
      if negb (id_reserved (w_db w') id_type new_id)
      then Ret new_id w'
      else generate_loop prefix id_type rest w'
  end.

Definition generate_unique_id (prefix id_type : string) : M string :=
  fun w => generate_loop prefix id_type (w_draws w) w.

(** The identifier format of the specification, [^[A-Z]{3}\d{5}$]. *)
Definition id_pattern : Re.regex :=
  let U := Re.Class Str.is_upper in
  let D := Re.Class Str.is_digit in
  Re.Seq U (Re.Seq U (Re.Seq U
    (Re.Seq D (Re.Seq D (Re.Seq D (Re.Seq D D)))))).

(** The reservation index holds the identifier: the node
    [existing_ids/{category}/{new_id}] is there, with the value [True] that
    the handlers write to reserve an identifier. *)
Definition index_holds (db : DB) (category new_id : string) : Prop :=
  exists ids,
    existing_ids db !! category = Some ids /\ ids !! new_id = Some true.

(** Every node of the reservation index has the value [True]; the handlers
    write no other value there. *)
Definition index_flags_true (db : DB) : Prop :=
  forall category ids new_id flag,
    existing_ids db !! category = Some ids ->
    ids !! new_id = Some flag ->
    flag = true.

(** Some value of the random stream gives an identifier that the index does
    not hold. *)
Definition some_draw_free (prefix id_type : string) (w : World) : Prop :=
  Exists
    (fun raw => ~ index_holds (w_db w) id_type (prefix ++ random_part raw))
    (w_draws w).

(** ** Dates: [datetime], [timedelta], [strftime] and [strptime] *)

(** A naive [datetime.datetime]. *)
Record datetime : Type := mkDatetime {
  dt_year : Z;
  dt_month : Z;
  dt_day : Z;
  dt_hour : Z;
  dt_minute : Z;
  dt_second : Z;
  dt_microsecond : Z
}.

Definition is_leap (y : Z) : bool :=
  (y mod 4 =? 0) && (negb (y mod 100 =? 0) || (y mod 400 =? 0)).

Definition days_in_month (y m : Z) : Z :=
  if m =? 2 then (if is_leap y then 29 else 28)
  else if (m =? 4) || (m =? 6) || (m =? 9) || (m =? 11) then 30
  else 31.

(** Days before January 1st of year [y]. *)
Definition days_before_year (y : Z) : Z :=
  let y1 := y - 1 in y1 * 365 + y1 / 4 - y1 / 100 + y1 / 400.

(** Days of year [y] before the first day of month [m]. *)
Definition days_before_month (y m : Z) : Z :=
  nth (Z.to_nat (m - 1))
    [0; 31; 59; 90; 120; 151; 181; 212; 243; 273; 304; 334] 0
  + (if (2 <? m) && is_leap y then 1 else 0).

(** [date.toordinal()]: January 1st of year 1 is day 1. *)
Definition toordinal (d : datetime) : Z :=
  days_before_year (dt_year d) + days_before_month (dt_year d) (dt_month d)
  + dt_day d.

(** A [timedelta], as its number of microseconds. *)
Definition timedelta_days (days : Z) : Z := days * 86400 * 1000000.

(** Microseconds from the start of day 0 to [d]. *)
Definition microseconds_of (d : datetime) : Z :=
  ((toordinal d * 24 + dt_hour d) * 60 + dt_minute d) * 60 * 1000000
  + dt_second d * 1000000 + dt_microsecond d.

(** [d1 - d2] on naive datetimes. *)
Definition datetime_sub (d1 d2 : datetime) : Z :=
  microseconds_of d1 - microseconds_of d2.

Definition month_abbr : list string :=
  ["Jan"; "Feb"; "Mar"; "Apr"; "May"; "Jun";
   "Jul"; "Aug"; "Sep"; "Oct"; "Nov"; "Dec"].

(** [d.strftime('%d-%b-%Y')]. *)
Definition strftime_d_b_Y (d : datetime) : string :=
  Str.zfill 2 (Str.of_Z (dt_day d)) ++ "-"
  ++ nth (Z.to_nat (dt_month d - 1)) month_abbr "" ++ "-"
  ++ Str.zfill 4 (Str.of_Z (dt_year d)).

Definition lower_char (c : ascii) : ascii :=
  if Str.is_upper c then ascii_of_N (N_of_ascii c + 32) else c.

Fixpoint lower (s : string) : string :=
  match s with
  | EmptyString => EmptyString
  | String c s' => String (lower_char c) (lower s')
  end.

(** Value of a string of decimal digits; [None] on any other character. *)
Fixpoint parse_digits (s : string) (acc : Z) : option Z :=
  match s with
  | EmptyString => Some acc
  | String c s' =>
      if Str.is_digit c
      then parse_digits s' (acc * 10 + Z.of_N (N_of_ascii c) - 48)
      else None
  end.

Definition parse_number (s : string) : option Z :=
  match s with
  | EmptyString => None
  | _ => parse_digits s 0
  end.

(** Number of the month whose abbreviation is [s], whatever the case. *)
Fixpoint month_number (s : string) (abbrs : list string) (m : Z) : option Z :=
  match abbrs with
  | [] => None
  | a :: rest =>
      if String.eqb (lower a) (lower s) then Some m
      else month_number s rest (m + 1)
  end.

(** The text before the first [sep], and the text after it. *)
Fixpoint split_at (sep : ascii) (s : string) : option (string * string) :=
  match s with
  | EmptyString => None
  | String c s' =>
      if Ascii.eqb c sep then Some (EmptyString, s')
      else match split_at sep s' with
           | Some (a, b) => Some (String c a, b)
           | None => None
           end
  end.

(** [datetime.strptime(s, '%d-%b-%Y')]: one or two digits of day, a month
    abbreviation, four digits of year; [None] stands for [ValueError]. *)
Definition strptime_d_b_Y (s : string) : option datetime :=
  match split_at "-" s with
  | None => None
  | Some (dd, rest) =>
      match split_at "-" rest with
      | None => None
      | Some (mon, yyyy) =>
          match parse_number dd, month_number mon month_abbr 1,
                parse_number yyyy with
          | Some d, Some m, Some y =>
              if (1 <=? Z.of_nat (String.length dd))%Z
                 && (Z.of_nat (String.length dd) <=? 2)
                 && (Z.of_nat (String.length yyyy) =? 4)
                 && (1 <=? y) && (1 <=? d) && (d <=? days_in_month y m)
              then Some (mkDatetime y m d 0 0 0 0)
              else None
          | _, _, _ => None
          end
      end
  end.

(** ** Requests, sessions and responses *)

Record Session : Type := mkSession {
  logged_in : bool;
  user_email : string
}.

(** What the handlers read from outside the database: the clock, the
    server timestamp that replaces [{'.sv': 'timestamp'}], and the object
    store. *)
Record Env : Type := mkEnv {
  env_now : datetime;
  env_server_time : Z;
  env_s3_client : bool;
  env_upload_failure : option string;
  env_public_url_base : string
}.

(** The JSON object of a response. *)
Inductive Body : Type :=
| ErrorBody (error : string)
| CartUpdatedBody (error : string) (updated_cart : list CartItem)
| OrderPlacedBody (orderId invoiceId : string)
| ReturnRequestedBody (newStatus returnInvoiceId : string).

Record Response : Type := mkResponse {
  status_code : Z;
  body : Body
}.

Definition error_response (code : Z) (error : string) : Response :=
  mkResponse code (ErrorBody error).

(** ** Cart validation: the first loop of [place_order] *)

Definition set_quantity (item : CartItem) (q : Z) : CartItem :=
  mkCartItem (item_id item) (item_name item) q (item_extra item).

(** [item['name']]. *)
Definition subscript_name (item : CartItem) : M string :=
  match item_name item with
  | Some n => ret n
  | None => raise (KeyError "name")
  end.

Definition removed_unavailable_message (item : CartItem) : string :=
  "'" ++ default "An item" (item_name item)
  ++ "' was removed as it is no longer available.".

Definition removed_out_of_stock_message (name : string) : string :=
  "'" ++ name ++ "' was removed as it is now out of stock.".

Definition reduced_message (name : string) (current_stock : Z) : string :=
  "Quantity for '" ++ name ++ "' reduced to " ++ Str.of_Z current_stock
  ++ " due to low stock.".

(** The loop variables [validated_cart], [adjustments_made] and
    [cart_was_modified]. *)
Record Validation : Type := mkValidation {
  validated_cart : list CartItem;
  adjustments_made : list string;
  cart_was_modified : bool
}.

(** [for item in cart_items: ...] from the loop state [st]. *)
Fixpoint validate_cart (all_products_from_db : gmap string Product)
    (cart_items : list CartItem) (st : Validation) : M Validation :=
  match cart_items with
  | [] => ret st
  | item :: rest =>
      let product_id := item_id item in
      match all_products_from_db !! product_id with
      | None =>
          validate_cart all_products_from_db rest
            (mkValidation (validated_cart st)
               (adjustments_made st ++ [removed_unavailable_message item])
               true)
      | Some product_in_db =>
          let current_stock := default 0 (prod_availableStock product_in_db) in
          if current_stock <=? 0 then
            (name <- subscript_name item ;;
             validate_cart all_products_from_db rest
               (mkValidation (validated_cart st)
                  (adjustments_made st ++ [removed_out_of_stock_message name])
                  true))%handler
          else if item_quantity item >? current_stock then
            (name <- subscript_name item ;;
             validate_cart all_products_from_db rest
               (mkValidation
                  (validated_cart st ++ [set_quantity item current_stock])
                  (adjustments_made st ++ [reduced_message name current_stock])
                  true))%handler
          else
            validate_cart all_products_from_db rest
              (mkValidation (validated_cart st ++ [item])
                 (adjustments_made st) (cart_was_modified st))
      end
  end.

(** ** Order construction: the second loop of [place_order] *)

(** The loop variables [total_price], [order_items_details] and
    [stock_updates]; the key [product_id] of [stock_updates] stands for the
    path [product_id/availableStock]. *)
Record Pricing : Type := mkPricing {
  total_price : Z;
  order_items_details : list OrderItem;
  stock_updates : gmap string Z
}.

Fixpoint price_cart (all_products_from_db : gmap string Product)
    (validated : list CartItem) (st : Pricing) : M Pricing :=
  match validated with
  | [] => ret st
  | item :: rest =>
      let product_id := item_id item in
      let quantity := item_quantity item in
      match all_products_from_db !! product_id with
      | None => raise TypeError
      | Some product_in_db =>
          match prod_availableStock product_in_db with
          | None => raise (KeyError "availableStock")
          | Some available =>
              price_cart all_products_from_db rest
                (mkPricing
                   (total_price st + prod_price product_in_db * quantity)
                   (order_items_details st ++
                      [mkOrderItem product_id (prod_name product_in_db)
                         (prod_price product_in_db) quantity
                         (prod_image product_in_db)
                         (default "N/A" (prod_description product_in_db))])
                   (<[product_id := available - quantity]> (stock_updates st)))
          end
      end
  end.

(** [stock_ref.update(stock_updates)]. *)
Definition stock_writes (updates : gmap string Z) : list Write :=
  (fun kv => SetStock (fst kv) (snd kv)) <$> map_to_list updates.

(** ** The route [/place_order] *)

Definition order_statuses : list string :=
  ["Shipped"; "Out for Delivery"; "Delivered"].

Definition cart_updated_error (adjustments : list string) : string :=
  "Your cart has been updated due to stock changes. Please review and proceed. "
  ++ Str.join " " adjustments.

(** The dictionary [updates] of the commit. *)
Definition commit_updates (safe_key order_id invoice_id : string)
    (order_data : Order) (user_data : User) : list Write :=
  [ SetOrder safe_key order_id order_data;
    SetCart safe_key [];
    SetOrderCount safe_key (default 0 (user_orders user_data) + 1);
    SetExistingId "orders" order_id true;
    SetExistingId "invoices" invoice_id true ].

(** The body of the [try] block, after the user, the cart, the address and
    the catalog were read and found present. *)
Definition checkout (env : Env) (email safe_key : string) (user_data : User)
    (cart_items : list CartItem) (shipping_address : Address)
    (all_products_from_db : gmap string Product) : M Response :=
  (v <- validate_cart all_products_from_db cart_items
          (mkValidation [] [] false) ;;
   if cart_was_modified v then
     set_ref (SetCart safe_key (validated_cart v)) ;;;
     ret (mkResponse 409
            (CartUpdatedBody (cart_updated_error (adjustments_made v))
               (validated_cart v)))
   else
     p <- price_cart all_products_from_db (validated_cart v)
            (mkPricing 0 [] ∅) ;;
     match order_items_details p with
     | [] => ret (error_response 400 "All items in your cart are out of stock.")
     | _ :: _ =>
         order_id <- generate_unique_id "ORD" "orders" ;;
         invoice_id <- generate_unique_id "INV" "invoices" ;;
         raw <- draw ;;
         let order_status := choice order_statuses raw in
         let order_data :=
           mkOrder order_id invoice_id (env_server_time env)
             (Some order_status) (order_items_details p) shipping_address
             (total_price p)
             (if String.eqb order_status "Delivered"
              then Some (strftime_d_b_Y (env_now env)) else None)
             None None in
         update (commit_updates safe_key order_id invoice_id order_data
                   user_data) ;;;
         update (stock_writes (stock_updates p)) ;;;
         send (OrderConfirmation email
                 (default "Valued Customer" (user_name user_data))
                 order_data) ;;;
         ret (mkResponse 200 (OrderPlacedBody order_id invoice_id))
     end)%handler.

(** The JSON body of a request to [/place_order], as [request.get_json()]
    returns it: an object, with the string under its key [address_id] if
    there is one, or another JSON value (null, a list, a number, a string),
    on which [data.get], called outside the [try], raises
    [AttributeError]. *)
Inductive JsonBody : Type :=
| NotAnObject
| BodyObject (address_id : option string).

Definition place_order (env : Env) (session : Session) (data : JsonBody)
    : M Response :=
  if negb (logged_in session) then
    ret (error_response 401 "User not logged in.")
  else
    let email := user_email session in
    match data with
    | NotAnObject => raise AttributeError
    | BodyObject address_id =>
        match address_id with
        | None | Some "" =>
            ret (error_response 400 "Shipping address ID is required.")
        | Some selected_address_id =>
            let safe_key := safe_email_key email in
            try_except
              (db <- get_db ;;
               match users db !! safe_key with
               | None => ret (error_response 404 "User not found.")
               | Some user_data =>
                   match user_cart_items user_data with
                   | [] => ret (error_response 400 "Your cart is empty.")
                   | cart_items =>
                       match user_shipping_address user_data
                               !! selected_address_id with
                       | None =>
                           ret (error_response 400
                                  "Invalid shipping address selected.")
                       | Some shipping_address =>
                           if decide (shipping_address = ∅) then
                             ret (error_response 400
                                    "Invalid shipping address selected.")
                           else if decide (stockitems db = ∅) then
                             ret (error_response 500
                                    "Could not verify product catalog.")
                           else
                             checkout env email safe_key user_data cart_items
                               shipping_address (stockitems db)
                       end
                   end
               end)%handler
              (fun _ =>
                 ret (error_response 500
                        "An unexpected error occurred while placing your order."))
        end
    end.

(** ** The restock dispatcher *)

(** The dictionary [user_notifications], in insertion order: the products
    to announce to each address. *)
Abbreviation UserNotifications := (list (string * list Restocked)).

(** [if user_email not in user_notifications: user_notifications[user_email] = []]
    followed by [user_notifications[user_email].append(product)]. *)
Fixpoint add_notification (email : string) (product : Restocked)
    (user_notifications : UserNotifications) : UserNotifications :=
  match user_notifications with
  | [] => [(email, [product])]
  | (e, products) :: rest =>
      if String.eqb e email then (e, (products ++ [product])%list) :: rest
      else (e, products) :: add_notification email product rest
  end.

(** [for safe_email_key in users_to_notify.keys(): ...]. *)
Definition notify_users (product : Restocked) (keys : list string)
    (user_notifications : UserNotifications) : UserNotifications :=
  fold_left
    (fun acc safe_key => add_notification (email_of_key safe_key) product acc)
    keys user_notifications.

(** [for product in restocked_products: ...] from the dictionary
    [user_notifications]. *)
Definition collect_from
    (all_notifications : gmap string (gmap string bool))
    (restocked_products : list Restocked)
    (user_notifications : UserNotifications) : UserNotifications :=
  fold_left
    (fun acc product =>
       match all_notifications !! rs_id product with
       | Some users_to_notify =>
           notify_users product (map_to_list users_to_notify).*1 acc
       | None => acc
       end)
    restocked_products user_notifications.

Definition collect_notifications
    (all_notifications : gmap string (gmap string bool))
    (restocked_products : list Restocked) : UserNotifications :=
  collect_from all_notifications restocked_products [].

(** The paths [stock_notifications/{product["id"]}/{safe_email_key}] of one
    user's batch. *)
Definition batch_paths (safe_key : string) (products : list Restocked)
    : list Write :=
  (fun product => DeleteNotification (rs_id product) safe_key) <$> products.

(** [for user_email, products_to_notify in user_notifications.items(): ...]
    with the loop variable [paths_to_delete]. *)
Fixpoint notify_batches (all_users_data : option (gmap string User))
    (user_notifications : UserNotifications) (paths_to_delete : list Write)
    : M (list Write) :=
  match user_notifications with
  | [] => ret paths_to_delete
  | (email, products_to_notify) :: rest =>
      let safe_key := safe_email_key email in
      match all_users_data with
      | None => raise AttributeError
      | Some all_users =>
          let user_data := all_users !! safe_key in
          let name :=
            match user_data with
            | Some u => default "Valued Customer" (user_name u)
            | None => "Valued Customer"
            end in
          (send (StockNotification email name products_to_notify) ;;;
           notify_batches all_users_data rest
             (paths_to_delete ++ batch_paths safe_key products_to_notify))%handler
      end
  end.

Definition handle_stock_notifications (restocked_products : list Restocked)
    : M unit :=
  (db <- get_db ;;
   let all_notifications := stock_notifications db in
   if decide (all_notifications = ∅) then ret tt
   else
     let user_notifications :=
       collect_notifications all_notifications restocked_products in
     match user_notifications with
     | [] => ret tt
     | _ :: _ =>
         let all_users_data :=
           if decide (users db = ∅) then None else Some (users db) in
         paths_to_delete <- notify_batches all_users_data user_notifications [] ;;
         match paths_to_delete with
         | [] => ret tt
         | _ :: _ => update paths_to_delete
         end
     end)%handler.

(** The waitlist of a product: the keys under [stock_notifications/{id}]. *)
Definition waitlist (db : DB) (product_id : string) : gset string :=
  dom (default ∅ (stock_notifications db !! product_id)).

(** ** The route [/request_return] *)

(** A form field holding JSON: [json.loads] raises [JSONDecodeError] or
    [TypeError], which the handler catches, or raises another exception
    (such as [RecursionError] on deeply nested brackets), which it does not
    catch, or returns a falsy value (such as [{}]), or returns an object. *)
Inductive FormJson (A : Type) : Type :=
| JsonMalformed
| JsonUncaught
| JsonFalsy
| JsonObject (a : A).
Arguments JsonMalformed {A}.
Arguments JsonUncaught {A}.
Arguments JsonFalsy {A}.
Arguments JsonObject {A} a.

Record AddressInfo : Type := mkAddressInfo {
  ai_type : option string;
  ai_customAddress : Address
}.

Record ContactInfo : Type := mkContactInfo {
  ci_type : option string;
  ci_customContact : string
}.

(** The multipart form; a missing text field reads as the empty string. *)
Record ReturnForm : Type := mkReturnForm {
  form_orderId : string;
  form_reason : string;
  form_addressInfo : FormJson AddressInfo;
  form_contactInfo : FormJson ContactInfo;
  form_videoFile : bool
}.

Definition is_alnum (c : ascii) : bool :=
  Str.is_digit c || Str.is_upper c || Str.is_lower c.

(** [re.sub(r'[^a-zA-Z0-9_-]', '_', user_name)]. *)
Fixpoint sanitize_user_name (user_name : string) : string :=
  match user_name with
  | EmptyString => EmptyString
  | String c s' =>
      String (if is_alnum c || Ascii.eqb c "_" || Ascii.eqb c "-"
              then c else "_"%char)
        (sanitize_user_name s')
  end.

(** The pair [(public_url, error)] of the R2 upload helper. *)
Definition upload_video_to_r2 (env : Env) (video_file : bool)
    (user_name return_id : string) : option string * option string :=
  if negb video_file then (None, Some "No video file provided.")
  else if negb (env_s3_client env) then
    (None, Some "S3 client is not configured.")
  else
    let user_name_safe := sanitize_user_name user_name in
    let object_key :=
      user_name_safe ++ "/" ++ return_id ++ "/" ++ return_id
      ++ "_verification.mp4" in
    match env_upload_failure env with
    | Some e =>
        (None, Some ("An unexpected error occurred during upload: " ++ e))
    | None => (Some (env_public_url_base env ++ "/" ++ object_key), None)
    end.

Definition return_window_days : Z := 15.

(** The end of the [try] block: identifier, upload, the two writes, the
    mail and the answer. *)
Definition finish_return (env : Env) (email safe_key user_name : string)
    (form : ReturnForm) (return_address : Address) (return_contact : string)
    (order_data : Order) : M Response :=
  (return_invoice_id <- generate_unique_id "RET" "returns" ;;
   let '(video_url, upload_error) :=
     upload_video_to_r2 env (form_videoFile form) user_name
       return_invoice_id in
   match upload_error with
   | Some (String c e) =>
       ret (error_response 500 ("Video upload failed: " ++ String c e))
   | Some "" | None =>
       let return_details :=
         mkReturnDetails (form_reason form) (default "" video_url)
           return_address return_contact (env_server_time env) in
       update [SetReturn safe_key (form_orderId form)
                 "Return Requested" return_invoice_id return_details] ;;;
       set_ref (SetExistingId "returns" return_invoice_id true) ;;;
       send (ReturnRequestMail email user_name
               (set_return "Return Requested" return_invoice_id
                  return_details order_data)) ;;;
       ret (mkResponse 200
              (ReturnRequestedBody "Return Requested" return_invoice_id))
   end)%handler.

(** The [try] block of [request_return], from the status check on. *)
Definition process_return (env : Env) (email safe_key user_name : string)
    (form : ReturnForm) (address_info : AddressInfo)
    (contact_info : ContactInfo) (order_data : Order) : M Response :=
  let current_status := ord_status order_data in
  if bool_decide (current_status = Some "Return Requested")
     || bool_decide (current_status = Some "Returned") then
    ret (error_response 400
           ("Return already processed. Status: " ++ default "" current_status))
  else if negb (bool_decide (current_status = Some "Delivered")) then
    ret (error_response 400 "Only delivered items can be returned.")
  else
    match ord_deliveryDate order_data with
    | None | Some "" => ret (error_response 400 "Delivery date not found.")
    | Some delivery_date_str =>
        match strptime_d_b_Y delivery_date_str with
        | None => raise ValueError
        | Some delivery_date =>
            if datetime_sub (env_now env) delivery_date
               >? timedelta_days return_window_days then
              ret (error_response 400 "The 15-day return window has expired.")
            else
              let return_address :=
                if bool_decide (ai_type address_info = Some "same")
                then ord_shippingAddress order_data
                else ai_customAddress address_info in
              let return_contact :=
                if bool_decide (ci_type contact_info = Some "same")
                then default "" (ord_shippingAddress order_data !! "phone")
                else ci_customContact contact_info in
              finish_return env email safe_key user_name form return_address
                return_contact order_data
        end
    end.

Definition request_return (env : Env) (session : Session)
    (form : ReturnForm) : M Response :=
  if negb (logged_in session) then
    ret (error_response 401 "User not logged in.")
  else
    let email := user_email session in
    match form_addressInfo form, form_contactInfo form with
    | JsonUncaught, _ => raise RecursionError
    | JsonMalformed, _ => ret (error_response 400 "Malformed request data.")
    | _, JsonUncaught => raise RecursionError
    | _, JsonMalformed => ret (error_response 400 "Malformed request data.")
    | JsonFalsy, _ | _, JsonFalsy =>
        ret (error_response 400 "Incomplete return request data.")
    | JsonObject address_info, JsonObject contact_info =>
        if negb (negb (String.eqb (form_orderId form) "")
                 && negb (String.eqb (form_reason form) "")
                 && form_videoFile form) then
          ret (error_response 400 "Incomplete return request data.")
        else
          let safe_key := safe_email_key email in
          try_except
            (db <- get_db ;;
             match users db !! safe_key with
             | None => ret (error_response 404 "User not found.")
             | Some user_data_snapshot =>
                 let user_name :=
                   default "AnonymousUser" (user_name user_data_snapshot) in
                 match user_order_history user_data_snapshot
                         !! form_orderId form with
                 | None => ret (error_response 404 "Order not found.")
                 | Some order_data =>
                     process_return env email safe_key user_name form
                       address_info contact_info order_data
                 end
             end)%handler
            (fun _ => ret (error_response 500 "An unexpected error occurred."))
    end.

(** ** Cart validation, line by line, in the words of the specification *)

Definition current_stock_of (product : Product) : Z :=
  default 0 (prod_availableStock product).

(** The line is dropped or clamped: its product is absent from the
    catalog, is out of stock, or has less stock than the line asks for. *)
Definition line_adjusted (catalog : gmap string Product) (item : CartItem)
    : bool :=
  match catalog !! item_id item with
  | None => true
  | Some product =>
      (current_stock_of product <=? 0)
      || (item_quantity item >? current_stock_of product)
  end.

(** What stays in the cart of the line: nothing when it is dropped, the
    line with the stock as quantity when it is clamped, the line itself
    otherwise. *)
Definition line_kept (catalog : gmap string Product) (item : CartItem)
    : option CartItem :=
  match catalog !! item_id item with
  | None => None
  | Some product =>
      if current_stock_of product <=? 0 then None
      else if item_quantity item >? current_stock_of product
      then Some (set_quantity item (current_stock_of product))
      else Some item
  end.

(** The message recorded for the line, if any. *)
Definition line_message (catalog : gmap string Product) (item : CartItem)
    : option string :=
  match catalog !! item_id item with
  | None => Some (removed_unavailable_message item)
  | Some product =>
      let name := default "An item" (item_name item) in
      if current_stock_of product <=? 0
      then Some (removed_out_of_stock_message name)
      else if item_quantity item >? current_stock_of product
      then Some (reduced_message name (current_stock_of product))
      else None
  end.

(** ** The checks of [place_order] ahead of cart validation *)

(** The request comes with a session and, in a JSON object, an address id,
    the user exists
    with a cart that is not empty and with that address, and the catalog
    is not empty: [place_order] reaches cart validation. *)
Record reaches_validation (session : Session) (data : JsonBody)
    (db : DB) (user_data : User) (selected_address_id : string)
    (shipping_address : Address) : Prop := mkReaches {
  reach_logged_in : logged_in session = true;
  reach_address_id : data = BodyObject (Some selected_address_id);
  reach_address_id_given : selected_address_id <> "";
  reach_user :
    users db !! safe_email_key (user_email session) = Some user_data;
  reach_cart : user_cart_items user_data <> [];
  reach_address :
    user_shipping_address user_data !! selected_address_id
    = Some shipping_address;
  reach_address_filled : shipping_address <> ∅;
  reach_catalog : stockitems db <> ∅
}.

Definition place_order_failed : Response :=
  error_response 500 "An unexpected error occurred while placing your order.".

(** ** The order of a clean cart, in the words of the specification *)

(** The order line [order_item] is the snapshot of the cart line [item]: the
    product's live name, price, image and description, and the line's
    quantity. *)
Definition snapshots (catalog : gmap string Product) (item : CartItem)
    (order_item : OrderItem) : Prop :=
  exists product,
    catalog !! item_id item = Some product
    /\ order_item
       = mkOrderItem (item_id item) (prod_name product) (prod_price product)
           (item_quantity item) (prod_image product)
           (default "N/A" (prod_description product)).

(** The sum over the order lines of price times quantity. *)
Definition items_total (items : list OrderItem) : Z :=
  foldr (fun order_item acc => oi_price order_item * oi_quantity order_item + acc)
    0 items.

(** The dictionary [stock_updates] after the lines of [cart]. *)
Definition stock_updates_of (catalog : gmap string Product)
    (cart : list CartItem) (updates : gmap string Z) : gmap string Z :=
  fold_left
    (fun acc item =>
       match catalog !! item_id item with
       | Some product =>
           <[item_id item := current_stock_of product - item_quantity item]> acc
       | None => acc
       end)
    cart updates.

(** The order that [place_order] writes. *)
Definition order_of (env : Env) (order_id invoice_id order_status : string)
    (items : list OrderItem) (shipping_address : Address) (total : Z) : Order :=
  mkOrder order_id invoice_id (env_server_time env) (Some order_status) items
    shipping_address total
    (if String.eqb order_status "Delivered"
     then Some (strftime_d_b_Y (env_now env)) else None)
    None None.

(** The sum over the cart lines of live catalog price times quantity. *)
Definition cart_total (catalog : gmap string Product) (cart : list CartItem)
    : Z :=
  foldr
    (fun item acc =>
       match catalog !! item_id item with
       | Some product => prod_price product * item_quantity item
       | None => 0
       end + acc)
    0 cart.

(** [stockitems/{product_id}/availableStock]. *)
Definition stock_of (db : DB) (product_id : string) : option Z :=
  stockitems db !! product_id ≫= prod_availableStock.

(** The lines of an order, as product id and quantity. *)
Definition purchased (o : Order) : list (string * Z) :=
  map (fun order_item => (oi_id order_item, oi_quantity order_item))
    (ord_items o).

(** ** The checks of [request_return] ahead of the status check *)

(** The request comes with a session and a complete form, and the user and
    the order exist: [request_return] reaches the status check. *)
Record reaches_status_check (session : Session) (form : ReturnForm) (db : DB)
    (user_data : User) (address_info : AddressInfo)
    (contact_info : ContactInfo) (order_data : Order) : Prop := mkReachesStatus {
  ret_logged_in : logged_in session = true;
  ret_address_info : form_addressInfo form = JsonObject address_info;
  ret_contact_info : form_contactInfo form = JsonObject contact_info;
  ret_order_id : form_orderId form <> "";
  ret_reason : form_reason form <> "";
  ret_video : form_videoFile form = true;
  ret_user :
    users db !! safe_email_key (user_email session) = Some user_data;
  ret_order :
    user_order_history user_data !! form_orderId form = Some order_data
}.

Definition request_return_failed : Response :=
  error_response 500 "An unexpected error occurred.".

Definition already_processed (status : string) : Response :=
  error_response 400 ("Return already processed. Status: " ++ status).

Definition only_delivered : Response :=
  error_response 400 "Only delivered items can be returned.".

Definition window_expired : Response :=
  error_response 400 "The 15-day return window has expired.".

(** The order is delivered and its delivery date reads as the day [T]. *)
Definition delivered_on (order_data : Order) (T : datetime) : Prop :=
  ord_status order_data = Some "Delivered"
  /\ exists delivery_date_str,
       ord_deliveryDate order_data = Some delivery_date_str
       /\ delivery_date_str <> ""
       /\ strptime_d_b_Y delivery_date_str = Some T.

(** The pickup address and contact of a return: those of the order when
    the form says [same], the ones given in the form otherwise. *)
Definition pickup_address (address_info : AddressInfo) (order_data : Order)
    : Address :=
  if bool_decide (ai_type address_info = Some "same")
  then ord_shippingAddress order_data
  else ai_customAddress address_info.

Definition pickup_contact (contact_info : ContactInfo) (order_data : Order)
    : string :=
  if bool_decide (ci_type contact_info = Some "same")
  then default "" (ord_shippingAddress order_data !! "phone")
  else ci_customContact contact_info.

Definition upload_failed (message : string) : Response :=
  error_response 500 ("Video upload failed: " ++ message).

(** The object store refuses the upload: no client, or the client raises. *)
Definition upload_fails (env : Env) : Prop :=
  env_s3_client env = false \/ is_Some (env_upload_failure env).

(** ** The dispatch, key by key *)

(** The keys on the waitlist of a product, in the order of [dict.keys()]. *)
Definition waiting_keys (all_notifications : gmap string (gmap string bool))
    (product_id : string) : list string :=
  match all_notifications !! product_id with
  | Some users_to_notify => (map_to_list users_to_notify).*1
  | None => []
  end.

(** The restocked products that a key waits for, in the order of the
    restock list. *)
Definition restocked_for (all_notifications : gmap string (gmap string bool))
    (restocked_products : list Restocked) (safe_key : string)
    : list Restocked :=
  filter
    (fun product => safe_key ∈ waiting_keys all_notifications (rs_id product))
    restocked_products.

(** The products announced to an address in [user_notifications]. *)
Fixpoint batch_of (user_notifications : UserNotifications) (email : string)
    : list Restocked :=
  match user_notifications with
  | [] => []
  | (e, products) :: rest =>
      if String.eqb e email then products else batch_of rest email
  end.

(** The mail of one batch. *)
Definition batch_mail (all_users : gmap string User)
    (batch : string * list Restocked) : Email :=
  StockNotification (fst batch)
    match all_users !! safe_email_key (fst batch) with
    | Some u => default "Valued Customer" (user_name u)
    | None => "Valued Customer"
    end
    (snd batch).

(** The paths deleted for one batch. *)
Definition batch_deletions (batch : string * list Restocked) : list Write :=
  batch_paths (safe_email_key (fst batch)) (snd batch).

(** No key on a waitlist holds a dot: the database refuses such keys. *)
Definition keys_without_dot
    (all_notifications : gmap string (gmap string bool)) : Prop :=
  forall product_id safe_key,
    safe_key ∈ waiting_keys all_notifications product_id ->
    Str.contains "." safe_key = false.

(** The write deletes a waitlist entry. *)
Definition is_deletion (write : Write) : Prop :=
  exists product_id safe_key, write = DeleteNotification product_id safe_key.

(** The addresses that the mails of a log were sent to. *)
Definition receivers (outbox : list Email) : list string :=
  map (fun mail =>
         match mail with
         | OrderConfirmation receiver_email _ _
         | ReturnRequestMail receiver_email _ _
         | StockNotification receiver_email _ _ => receiver_email
         end)
    outbox.

(** ** Sample data

    Two products of [setup_database], one customer, her carts, one of her
    orders and a waitlist. *)

Definition item002 : Product :=
  mkProduct "Urban Comfort Kurti" 1299 (Some 25)
    "https://images.unsplash.com/photo-1617137968427-85924c800a22?w=500&q=80"
    (Some "Contemporary designs for the modern lifestyle.").

Definition item008 : Product :=
  mkProduct "Handloom Cotton Towels" 999 (Some 0)
    "https://images.unsplash.com/photo-1611099149791-33299a9a5f7e?w=500&q=80"
    (Some "Set of 2 soft, absorbent handloom towels.").

Definition sample_products : gmap string Product :=
  <["item002" := item002]> (<["item008" := item008]> ∅).

Definition home_address : Address :=
  <["phone" := "+919876543210"]> (<["pincode" := "600001"]> ∅).

Definition customer (cart : list CartItem) : User :=
  mkUser (Some "Alice") (Some 0) cart (<["addr1" := home_address]> ∅) ∅.

(** A database with the customer [alice@example.com] and her cart. *)
Definition sample_db (cart : list CartItem) : DB :=
  mkDB (<["alice@example_com" := customer cart]> ∅) sample_products ∅ ∅.

Definition sample_world (cart : list CartItem) (draws : list N) : World :=
  mkWorld (sample_db cart) draws [] [].

Definition alice_session : Session := mkSession true "alice@example.com".

Definition sample_env : Env :=
  mkEnv (mkDatetime 2026 11 4 10 30 0 0) 1793788200000 true None
    "https://cdn.example.com".

Definition cart_line (product_id name : string) (quantity : Z) : CartItem :=
  mkCartItem product_id (Some name) quantity [].

(** A cart line stored without the key [name]. *)
Definition nameless_line (product_id : string) (quantity : Z) : CartItem :=
  mkCartItem product_id None quantity [].

(** A cart whose first line asks for a product out of stock and whose second
    line asks for more than the stock. *)
Definition stale_cart : list CartItem :=
  [ cart_line "item008" "Handloom Cotton Towels" 1;
    cart_line "item002" "Urban Comfort Kurti" 30 ].

(** The cart of the end-to-end scenario of the specification. *)
Definition scenario_cart : list CartItem :=
  [ cart_line "item002" "Urban Comfort Kurti" 2 ].

(** A cart whose first line asks for a product out of stock and whose second
    line, stored without the key [name], asks for more than the stock. *)
Definition half_named_cart : list CartItem :=
  [ cart_line "item008" "Handloom Cotton Towels" 1;
    nameless_line "item002" 30 ].

(** A cart with two lines for the same product. *)
Definition doubled_cart : list CartItem :=
  [ cart_line "item002" "Urban Comfort Kurti" 2;
    cart_line "item002" "Urban Comfort Kurti" 2 ].

Definition past_order (status : string) (delivery_date : option string)
    : Order :=
  mkOrder "ORD04213" "INV00077" 1792400000000 (Some status)
    [mkOrderItem "item002" "Urban Comfort Kurti" 1299 2
       "https://images.unsplash.com/photo-1617137968427-85924c800a22?w=500&q=80"
       "Contemporary designs for the modern lifestyle."]
    home_address 2598 delivery_date None None.

Definition returning_customer (o : Order) : User :=
  mkUser (Some "Alice") (Some 1) [] (<["addr1" := home_address]> ∅)
    (<["ORD04213" := o]> ∅).

Definition return_db (o : Order) : DB :=
  mkDB (<["alice@example_com" := returning_customer o]> ∅) sample_products
    (<["orders" := <["ORD04213" := true]> ∅]>
       (<["invoices" := <["INV00077" := true]> ∅]> ∅))
    ∅.

Definition return_world (o : Order) (draws : list N) : World :=
  mkWorld (return_db o) draws [] [].

Definition same_address : AddressInfo := mkAddressInfo (Some "same") ∅.
Definition same_contact : ContactInfo := mkContactInfo (Some "same") "".

Definition return_form : ReturnForm :=
  mkReturnForm "ORD04213" "Wrong size" (JsonObject same_address)
    (JsonObject same_contact) true.

(** An environment with the clock at midnight of a day of November 2026. *)
Definition env_on (day : Z) (s3_client : bool) : Env :=
  mkEnv (mkDatetime 2026 11 day 0 0 0 0) 1793788200000 s3_client None
    "https://cdn.example.com".

Definition delivered_19_oct : Order :=
  past_order "Delivered" (Some "19-Oct-2026").

Definition restocked_item008 : Restocked :=
  mkRestocked "item008" "Handloom Cotton Towels" 999.

(** A database in which the user registered as [email] waits for
    [item008]. *)
Definition waiting_db (email name : string) : DB :=
  mkDB (<[safe_email_key email := mkUser (Some name) (Some 0) [] ∅ ∅]> ∅)
    sample_products ∅
    (<["item008" := <[safe_email_key email := true]> ∅]> ∅).

Definition waiting_world (email name : string) : World :=
  mkWorld (waiting_db email name) [] [] [].

(** ** The alphabet of a pattern and of a user key *)

(** Every character class of [r] lies within [p]. *)
Fixpoint classes_within (p : ascii -> bool) (r : Re.regex) : Prop :=
  match r with
  | Re.Void | Re.Eps => True
  | Re.Class q => forall c, q c = true -> p c = true
  | Re.Seq r1 r2 | Re.Alt r1 r2 => classes_within p r1 /\ classes_within p r2
  | Re.Star r1 => classes_within p r1
  end.

(** The characters of an address that [validate_email] can accept. *)
Definition address_char (c : ascii) : bool :=
  email_char c || Ascii.eqb "@" c.

(** A letter, a digit, an underscore, a hyphen or an at sign. *)
Definition key_char (c : ascii) : bool :=
  Str.is_word c || Ascii.eqb c "-" || Ascii.eqb c "@".

(** ** The answers of [place_order], one by one *)

(** The answers given ahead of cart validation. *)
Definition place_order_rejections : list Response :=
  [ error_response 401 "User not logged in.";
    error_response 400 "Shipping address ID is required.";
    error_response 404 "User not found.";
    error_response 400 "Your cart is empty.";
    error_response 400 "Invalid shipping address selected.";
    error_response 500 "Could not verify product catalog." ].

(** The world after the one write call [cart_items.set(cart)]. *)
Definition cart_written (safe_key : string) (cart : list CartItem) (w : World)
    : World :=
  mkWorld (apply_update [SetCart safe_key cart] (w_db w)) (w_draws w)
    (w_outbox w) (w_writes w ++ [[SetCart safe_key cart]]).

(** The answer to a cart that validation changed. *)
Definition cart_updated (catalog : gmap string Product) (cart : list CartItem)
    : Response :=
  mkResponse 409
    (CartUpdatedBody (cart_updated_error (omap (line_message catalog) cart))
       (omap (line_kept catalog) cart)).

Definition all_out_of_stock : Response :=
  error_response 400 "All items in your cart are out of stock.".

(** What a product page shows of a product: all but the stock. *)
Definition product_card (p : Product) : string * Z * string * option string :=
  (prod_name p, prod_price p, prod_image p, prod_description p).

(** Every order id of an order history is in the index [existing_ids/orders]. *)
Definition orders_indexed (db : DB) : Prop :=
  forall safe_key u order_id,
    users db !! safe_key = Some u ->
    is_Some (user_order_history u !! order_id) ->
    id_reserved db "orders" order_id = true.

(** The counter [orders] of a user is the number of orders of the history;
    a missing counter reads as 0. *)
Definition counter_matches (u : User) : Prop :=
  default 0 (user_orders u) = Z.of_nat (size (user_order_history u)).

(** ** Which cart lines validation asks the name of *)

(** The line is dropped for lack of stock, or clamped: the branches of the
    loop that read [item['name']]. *)
Definition reads_name (catalog : gmap string Product) (item : CartItem)
    : bool :=
  match catalog !! item_id item with
  | None => false
  | Some product =>
      (current_stock_of product <=? 0)
      || (item_quantity item >? current_stock_of product)
  end.

(** ['name' in item]. *)
Definition has_name (item : CartItem) : bool :=
  match item_name item with
  | Some _ => true
  | None => false
  end.

(** ** What a write touches *)

(** The write takes an identifier out of the index. *)
Definition releases_id (write : Write) : bool :=
  match write with
  | SetExistingId _ _ false => true
  | _ => false
  end.

(** The user whose document the write is in, if it is in one. *)
Definition written_user (write : Write) : option string :=
  match write with
  | SetOrder safe_key _ _ | SetCart safe_key _ | SetOrderCount safe_key _
  | SetReturn safe_key _ _ _ _ => Some safe_key
  | SetExistingId _ _ _ | SetStock _ _ | DeleteNotification _ _ => None
  end.

(** The write is in the document of the user [safe_key], in the index of
    identifiers (to reserve one) or in the stock of a product. *)
Definition checkout_write (safe_key : string) (write : Write) : Prop :=
  releases_id write = false
  /\ (forall k, written_user write = Some k -> k = safe_key)
  /\ (forall product_id k, write <> DeleteNotification product_id k).

(** ** The answers of [request_return], one by one *)

(** The answers given ahead of the status check. *)
Definition request_return_rejections : list Response :=
  [ error_response 401 "User not logged in.";
    error_response 400 "Malformed request data.";
    error_response 400 "Incomplete return request data.";
    error_response 404 "User not found.";
    error_response 404 "Order not found." ].

Definition return_requested (return_invoice_id : string) : Response :=
  mkResponse 200 (ReturnRequestedBody "Return Requested" return_invoice_id).

(** The dictionary [return_details] of a return request. *)
Definition return_details_of (env : Env) (form : ReturnForm)
    (video_url : string) (return_address : Address) (return_contact : string)
    : ReturnDetails :=
  mkReturnDetails (form_reason form) video_url return_address return_contact
    (env_server_time env).

(** The two writes of a return request: the three keys of the order, then
    the identifier of the return. *)
Definition return_writes (safe_key : string) (form : ReturnForm)
    (return_invoice_id : string) (return_details : ReturnDetails)
    : list Write :=
  [ SetReturn safe_key (form_orderId form) "Return Requested"
      return_invoice_id return_details;
    SetExistingId "returns" return_invoice_id true ].

(** The world after a return request. *)
Definition returned_world (email safe_key user_name : string)
    (form : ReturnForm) (return_invoice_id : string)
    (return_details : ReturnDetails) (order_data : Order) (w w1 : World)
    : World :=
  mkWorld
    (apply_update (return_writes safe_key form return_invoice_id return_details)
       (w_db w))
    (w_draws w1)
    (w_outbox w ++
       [ReturnRequestMail email user_name
          (set_return "Return Requested" return_invoice_id return_details
             order_data)])
    (w_writes w ++
       [ [SetReturn safe_key (form_orderId form) "Return Requested"
            return_invoice_id return_details];
         [SetExistingId "returns" return_invoice_id true] ]).

(** ** The characters of a sanitized user name *)

(** The class [[a-zA-Z0-9_-]]. *)
Definition safe_name_char (c : ascii) : bool :=
  is_alnum c || Ascii.eqb c "_" || Ascii.eqb c "-".

(** * Properties *)

(** ** User keys *)

Lemma replace_char_length old new s :
  String.length (Str.replace_char old new s) = String.length s.
Proof. induction s as [|c s IH]; simpl; [reflexivity | now rewrite IH]. Qed.

(** A key never holds a dot. *)
Lemma safe_email_key_no_dot e : Str.contains "." (safe_email_key e) = false.
Proof.
  unfold safe_email_key. induction e as [|c e IH]; simpl; [reflexivity|].
  rewrite IH, orb_false_r.
  destruct (Ascii.eqb c ".") eqn:E; [reflexivity | exact E].
Qed.

(** X1.  Decoding a key gives back the address exactly when the address
    holds no underscore. *)
Lemma email_of_key_safe_email_key e :
  email_of_key (safe_email_key e) = e <-> Str.contains "_" e = false.
Proof.
  unfold email_of_key, safe_email_key.
  induction e as [|c e IH]; simpl; [tauto|].
  split.
  - intros H. injection H as Hc He. apply IH in He. rewrite He, orb_false_r.
    destruct (Ascii.eqb c ".") eqn:E1.
    + apply Ascii.eqb_eq in E1. subst c. reflexivity.
    + destruct (Ascii.eqb c "_") eqn:E2; [|reflexivity].
      apply Ascii.eqb_eq in E2. subst c. discriminate Hc.
  - intros H. apply orb_false_elim in H as [Hc He].
    apply IH in He. rewrite He. f_equal.
    destruct (Ascii.eqb c ".") eqn:E1.
    + apply Ascii.eqb_eq in E1. subst c. reflexivity.
    + rewrite Hc. reflexivity.
Qed.

(** Encoding a decoded key gives back the key when the key holds no dot:
    the dispatcher deletes the entries it read. *)
Lemma safe_email_key_email_of_key k :
  Str.contains "." k = false -> safe_email_key (email_of_key k) = k.
Proof.
  unfold email_of_key, safe_email_key.
  induction k as [|c k IH]; simpl; [reflexivity|].
  intros H. apply orb_false_elim in H as [Hc Hk].
  rewrite (IH Hk). f_equal.
  destruct (Ascii.eqb c "_") eqn:E1.
  - apply Ascii.eqb_eq in E1. subst c. reflexivity.
  - rewrite Hc. reflexivity.
Qed.

(** C10 (defect of the code).  The address [a_b@example.com] passes
    [validate_email]; its key is [a_b@example_com], and the dispatcher
    decodes that key to [a.b@example.com], which is another address: the
    encoding does not round-trip on accepted addresses that hold an
    underscore. *)
Theorem user_key_round_trip_fails_on_underscore :
  validate_email "a_b@example.com" = true
  /\ safe_email_key "a_b@example.com" = "a_b@example_com"
  /\ email_of_key (safe_email_key "a_b@example.com") = "a.b@example.com"
  /\ email_of_key (safe_email_key "a_b@example.com") <> "a_b@example.com".
Proof. repeat split; try reflexivity. discriminate. Qed.

(** ** Decimal strings *)

Lemma string_length_app (s1 s2 : string) :
  String.length (s1 ++ s2) = (String.length s1 + String.length s2)%nat.
Proof. induction s1 as [|c s1 IH]; simpl; [reflexivity | now rewrite IH]. Qed.

Lemma forallb_app p (s1 s2 : string) :
  Str.forallb p (s1 ++ s2) = Str.forallb p s1 && Str.forallb p s2.
Proof.
  induction s1 as [|c s1 IH]; simpl; [reflexivity|].
  now rewrite IH, andb_assoc.
Qed.

Lemma zeros_length n : String.length (Str.zeros n) = n.
Proof. induction n as [|n IH]; simpl; [reflexivity | now rewrite IH]. Qed.

Lemma zeros_digits n : Str.forallb Str.is_digit (Str.zeros n) = true.
Proof. induction n as [|n IH]; simpl; [reflexivity | exact IH]. Qed.

Lemma zfill_length width s :
  (String.length s <= width)%nat -> String.length (Str.zfill width s) = width.
Proof.
  intros H. unfold Str.zfill. rewrite string_length_app, zeros_length. lia.
Qed.

Lemma zfill_digits width s :
  Str.forallb Str.is_digit s = true ->
  Str.forallb Str.is_digit (Str.zfill width s) = true.
Proof.
  intros H. unfold Str.zfill. now rewrite forallb_app, zeros_digits, H.
Qed.

Lemma digit_of_is_digit d : (d < 10)%N -> Str.is_digit (Str.digit_of d) = true.
Proof.
  intros H. unfold Str.is_digit, Str.digit_of.
  rewrite N_ascii_embedding by lia.
  apply andb_true_intro. split; apply N.leb_le; lia.
Qed.

Lemma digits_all_digits fuel : forall n acc,
  Str.forallb Str.is_digit acc = true ->
  Str.forallb Str.is_digit (Str.digits fuel n acc) = true.
Proof.
  induction fuel as [|f IH]; intros n acc Hacc; simpl; [exact Hacc|].
  assert (Hd : Str.forallb Str.is_digit
                 (String (Str.digit_of (n mod 10)) acc) = true).
  { simpl. rewrite Hacc, digit_of_is_digit; [reflexivity|].
    apply N.mod_lt. discriminate. }
  destruct (n / 10 =? 0)%N; [exact Hd | now apply IH].
Qed.

(** A number below [10^k] has at most [k] digits. *)
Lemma digits_length fuel : forall (k : nat) n acc,
  (1 <= k)%nat -> (n < 10 ^ N.of_nat k)%N ->
  (String.length (Str.digits fuel n acc) <= k + String.length acc)%nat.
Proof.
  induction fuel as [|f IH]; intros k n acc Hk Hn; simpl; [lia|].
  destruct (n / 10 =? 0)%N eqn:E; simpl; [lia|].
  apply N.eqb_neq in E.
  destruct k as [|[|k]]; [lia | |].
  - exfalso. apply E. apply N.div_small. exact Hn.
  - specialize (IH (S k) (n / 10)%N
                  (String (Str.digit_of (n mod 10)) acc)).
    simpl in IH. etransitivity; [apply IH; [lia|] | lia].
    apply N.Div0.div_lt_upper_bound.
    replace (N.of_nat (S (S k))) with (N.succ (N.of_nat (S k))) in Hn by lia.
    rewrite N.pow_succ_r' in Hn. exact Hn.
Qed.

Lemma of_Z_digits z : 0 <= z -> Str.forallb Str.is_digit (Str.of_Z z) = true.
Proof.
  intros Hz. destruct z as [|p|p]; [reflexivity| |lia].
  apply digits_all_digits. reflexivity.
Qed.

Lemma of_Z_length (k : nat) z :
  (1 <= k)%nat -> 0 <= z < 10 ^ Z.of_nat k ->
  (String.length (Str.of_Z z) <= k)%nat.
Proof.
  intros Hk [Hz Hlt]. destruct z as [|p|p]; [simpl; lia| |lia].
  unfold Str.of_Z, Str.of_N.
  etransitivity; [apply (digits_length _ k); [exact Hk|] | simpl; lia].
  apply N2Z.inj_lt. rewrite N2Z.inj_pow. simpl. rewrite nat_N_Z. exact Hlt.
Qed.

(** ** The identifier generator *)

Lemma randint_range lo hi raw : lo <= hi -> lo <= randint lo hi raw <= hi.
Proof.
  intros H. unfold randint.
  pose proof (Z.mod_pos_bound (Z.of_N raw) (hi - lo + 1)). lia.
Qed.

Lemma random_part_length raw : String.length (random_part raw) = 5%nat.
Proof.
  unfold random_part. apply zfill_length.
  apply of_Z_length; [unfold num_digits; lia|].
  pose proof (randint_range 0 (10 ^ Z.of_nat num_digits - 1) raw).
  unfold num_digits in *. simpl in *. lia.
Qed.

Lemma random_part_digits raw :
  Str.forallb Str.is_digit (random_part raw) = true.
Proof.
  unfold random_part. apply zfill_digits, of_Z_digits.
  pose proof (randint_range 0 (10 ^ Z.of_nat num_digits - 1) raw).
  unfold num_digits in *. simpl in *. lia.
Qed.

(** Three capitals followed by five digits match the identifier format. *)
Lemma id_pattern_matches prefix suffix :
  String.length prefix = 3%nat -> Str.forallb Str.is_upper prefix = true ->
  String.length suffix = 5%nat -> Str.forallb Str.is_digit suffix = true ->
  Re.fullmatch id_pattern (prefix ++ suffix) = true.
Proof.
  intros Lp Up Ls Ds.
  destruct prefix as [|a [|b [|c [|? ?]]]]; try discriminate Lp.
  destruct suffix as [|d1 [|d2 [|d3 [|d4 [|d5 [|? ?]]]]]]; try discriminate Ls.
  simpl in Up, Ds.
  repeat match goal with
         | H : _ && _ = true |- _ => apply andb_prop in H as [? H]
         end.
  simpl.
  repeat match goal with
         | H : ?p ?x = true |- _ => rewrite H; clear H; simpl
         end.
  reflexivity.
Qed.

(** The loop returns an identifier built from one of the values it drew,
    found free by the probe, and leaves the database and the mail log as
    they were. *)
Lemma generate_loop_ret prefix id_type : forall draws w new_id w',
  generate_loop prefix id_type draws w = Ret new_id w' ->
  (exists raw, In raw draws /\ new_id = prefix ++ random_part raw)
  /\ id_reserved (w_db w) id_type new_id = false
  /\ w_db w' = w_db w /\ w_outbox w' = w_outbox w.
Proof.
  induction draws as [|raw rest IH]; intros w new_id w' H; simpl in H.
  - discriminate H.
  - destruct (id_reserved (w_db w) id_type (prefix ++ random_part raw)) eqn:E;
      simpl in H.
    + apply IH in H as [[r [Hin Hid]] [Hfree [Hdb Hout]]]. simpl in *.
      split; [exists r; auto|]. auto.
    + injection H as <- <-. simpl.
      split; [exists raw; auto|]. auto.
Qed.

(** The loop returns as soon as the stream holds a value whose identifier
    is free. *)
Lemma generate_loop_returns prefix id_type : forall draws w,
  Exists
    (fun raw => id_reserved (w_db w) id_type (prefix ++ random_part raw) = false)
    draws ->
  exists new_id w', generate_loop prefix id_type draws w = Ret new_id w'.
Proof.
  induction draws as [|raw rest IH]; intros w H.
  - inversion H.
  - simpl.
    destruct (id_reserved (w_db w) id_type (prefix ++ random_part raw)) eqn:E;
      simpl.
    + apply (IH (mkWorld (w_db w) rest (w_outbox w) (w_writes w))). simpl.
      inversion H as [? ? Hfree | ? ? Hrest]; subst; [congruence | exact Hrest].
    + eauto.
Qed.

(** Drawing random values and generating an identifier call no write. *)
Lemma draw_writes w raw w' : draw w = Ret raw w' -> w_writes w' = w_writes w.
Proof.
  unfold draw. destruct (w_draws w); [discriminate|].
  intros H. injection H as _ <-. reflexivity.
Qed.

Lemma generate_loop_writes prefix id_type : forall draws w new_id w',
  generate_loop prefix id_type draws w = Ret new_id w' ->
  w_writes w' = w_writes w.
Proof.
  induction draws as [|raw rest IH]; intros w new_id w' H; simpl in H.
  - discriminate H.
  - destruct (id_reserved (w_db w) id_type (prefix ++ random_part raw));
      simpl in H.
    + apply IH in H. exact H.
    + injection H as _ <-. reflexivity.
Qed.

Lemma generate_unique_id_writes prefix id_type w new_id w' :
  generate_unique_id prefix id_type w = Ret new_id w' ->
  w_writes w' = w_writes w.
Proof. apply generate_loop_writes. Qed.

(** The probe of the generator is true exactly on the identifiers that the
    index holds. *)
Lemma id_reserved_index db id_type new_id :
  id_reserved db id_type new_id = true <-> index_holds db id_type new_id.
Proof.
  unfold id_reserved, index_holds. split.
  - destruct (existing_ids db !! id_type) as [ids|]; [|discriminate].
    destruct (ids !! new_id) as [[|]|] eqn:E; try discriminate.
    intros _. exists ids. auto.
  - intros (ids & -> & ->). reflexivity.
Qed.

Lemma id_free_index db id_type new_id :
  id_reserved db id_type new_id = false <-> ~ index_holds db id_type new_id.
Proof.
  rewrite <- id_reserved_index.
  destruct (id_reserved db id_type new_id); split; congruence.
Qed.

(** C5.  An identifier returned by [generate_unique_id] is the prefix
    followed by five decimal digits, the zero-padded writing of a number of
    [0..99999]; with a prefix of three capitals it matches
    [^[A-Z]{3}\d{5}$]; the reservation index of the category does not hold
    it, and when the index holds no other value than [True], the identifier
    is no key of [existing_ids/{category}] at all; the run made no write
    call and changed neither the database nor the mail log.  The generator
    does return when the random stream holds a value whose identifier the
    index does not hold. *)
Theorem generate_unique_id_spec (prefix id_type : string) (w : World) :
  (forall new_id w',
      generate_unique_id prefix id_type w = Ret new_id w' ->
      (exists suffix n,
          new_id = prefix ++ suffix
          /\ 0 <= n <= 99999
          /\ suffix = Str.zfill 5 (Str.of_Z n)
          /\ String.length suffix = 5%nat
          /\ Str.forallb Str.is_digit suffix = true)
      /\ (String.length prefix = 3%nat ->
          Str.forallb Str.is_upper prefix = true ->
          Re.fullmatch id_pattern new_id = true)
      /\ ~ index_holds (w_db w) id_type new_id
      /\ (index_flags_true (w_db w) ->
          forall ids,
            existing_ids (w_db w) !! id_type = Some ids ->
            ids !! new_id = None)
      /\ w_db w' = w_db w
      /\ w_outbox w' = w_outbox w
      /\ w_writes w' = w_writes w)
  /\ (some_draw_free prefix id_type w ->
      exists new_id w', generate_unique_id prefix id_type w = Ret new_id w').
Proof.
  split.
  - intros new_id w' H.
    pose proof (generate_unique_id_writes _ _ _ _ _ H) as Hlog.
    unfold generate_unique_id in H.
    apply generate_loop_ret in H as [[raw [_ Hid]] [Hfree [Hdb Hout]]].
    apply id_free_index in Hfree.
    split; [|split; [|split; [exact Hfree|split; [|auto]]]].
    + exists (random_part raw), (randint 0 (10 ^ Z.of_nat num_digits - 1) raw).
      split; [exact Hid|]. split.
      { pose proof (randint_range 0 (10 ^ Z.of_nat num_digits - 1) raw).
        unfold num_digits in *. simpl in *. lia. }
      split; [reflexivity|].
      split; [apply random_part_length | apply random_part_digits].
    + intros Lp Up. subst new_id.
      apply id_pattern_matches; auto using random_part_length, random_part_digits.
    + intros Htrue ids Hids.
      destruct (ids !! new_id) as [flag|] eqn:E; [|reflexivity].
      contradiction Hfree. exists ids. split; [exact Hids|].
      now rewrite (Htrue _ _ _ _ Hids E) in E.
  - intros H. apply generate_loop_returns.
    unfold some_draw_free in H. eapply Exists_impl; [exact H|].
    intros raw Hraw. cbv beta in Hraw. now apply id_free_index.
Qed.

(** ** Cart validation *)

(** Whenever the validation loop returns, it read no state, and its three
    variables hold, in cart order, what the line-by-line reading says. *)
Lemma validate_cart_ret catalog : forall cart st w v w',
  validate_cart catalog cart st w = Ret v w' ->
  w' = w
  /\ validated_cart v
     = (validated_cart st ++ omap (line_kept catalog) cart)%list
  /\ adjustments_made v
     = (adjustments_made st ++ omap (line_message catalog) cart)%list
  /\ cart_was_modified v
     = cart_was_modified st || existsb (line_adjusted catalog) cart.
Proof.
  induction cart as [|item rest IH]; intros st w v w' H; simpl in H.
  - injection H as <- <-. simpl.
    rewrite !app_nil_r, orb_false_r. auto.
  - unfold line_kept, line_message, line_adjusted, current_stock_of. simpl.
    unfold line_kept, line_message, line_adjusted, current_stock_of in IH.
    destruct (catalog !! item_id item) as [product|] eqn:Hp; simpl.
    + destruct (default 0 (prod_availableStock product) <=? 0) eqn:Hs; simpl.
      * unfold bind, subscript_name in H.
        destruct (item_name item) as [name|]; simpl in H; [|discriminate H].
        apply IH in H as (-> & Hv & Ha & Hm). simpl in *.
        rewrite Hv, Ha, Hm, <- app_assoc, orb_true_r. auto.
      * destruct (item_quantity item >? default 0 (prod_availableStock product))
          eqn:Hq; simpl.
        -- unfold bind, subscript_name in H.
           destruct (item_name item) as [name|]; simpl in H; [|discriminate H].
           apply IH in H as (-> & Hv & Ha & Hm). simpl in *.
           rewrite Hv, Ha, Hm, <- !app_assoc, orb_true_r. auto.
        -- apply IH in H as (-> & Hv & Ha & Hm). simpl in *.
           rewrite Hv, Ha, Hm, <- app_assoc. auto.
    + apply IH in H as (-> & Hv & Ha & Hm). simpl in *.
      rewrite Hv, Ha, Hm, <- app_assoc, orb_true_r. auto.
Qed.

(** The loop returns on every cart whose lines carry the key [name]. *)
Lemma validate_cart_named catalog : forall cart st w,
  Forall (fun item => is_Some (item_name item)) cart ->
  exists v, validate_cart catalog cart st w = Ret v w.
Proof.
  induction cart as [|item rest IH]; intros st w H; simpl.
  - eexists. reflexivity.
  - inversion H as [|? ? [name Hname] Hrest]; subst.
    destruct (catalog !! item_id item) as [product|]; [|now apply IH].
    unfold bind, subscript_name. rewrite Hname. simpl.
    destruct (default 0 (prod_availableStock product) <=? 0); [now apply IH|].
    destruct (item_quantity item >? default 0 (prod_availableStock product));
      now apply IH.
Qed.

(** A line that is not adjusted is kept as it is. *)
Lemma line_kept_clean catalog item :
  line_adjusted catalog item = false -> line_kept catalog item = Some item.
Proof.
  unfold line_adjusted, line_kept.
  destruct (catalog !! item_id item); [|discriminate].
  intros H. apply orb_false_elim in H as [-> ->]. reflexivity.
Qed.

Lemma line_message_clean catalog item :
  line_adjusted catalog item = false -> line_message catalog item = None.
Proof.
  unfold line_adjusted, line_message.
  destruct (catalog !! item_id item); [|discriminate].
  intros H. apply orb_false_elim in H as [-> ->]. reflexivity.
Qed.

(** A clean pass keeps the whole cart and records no message. *)
Lemma clean_cart_kept catalog cart :
  existsb (line_adjusted catalog) cart = false ->
  omap (line_kept catalog) cart = cart
  /\ omap (line_message catalog) cart = [].
Proof.
  induction cart as [|item rest IH]; [auto|].
  intros H. simpl in H. apply orb_false_elim in H as [Hi Hr].
  destruct (IH Hr) as [Hk Hm]. cbn [omap list_omap].
  rewrite (line_kept_clean _ _ Hi), (line_message_clean _ _ Hi).
  fold (omap (line_kept catalog) rest). fold (omap (line_message catalog) rest).
  rewrite Hk, Hm. auto.
Qed.

(** C1 (defect of the code).  The stored cart holds one line for the
    product [item008], whose stock is 0, and the line has no key [name].
    The claim has the line dropped with an out-of-stock message; the code
    raises [KeyError] on [item['name']], answers HTTP 500 and leaves the cart
    as it was.  The branch for a product missing from the catalog reads the
    same key with a default and does drop such a line (HTTP 409, empty
    cart). *)
Theorem place_order_nameless_line_not_dropped :
  line_adjusted sample_products (nameless_line "item008" 1) = true
  /\ line_kept sample_products (nameless_line "item008" 1) = None
  /\ place_order sample_env alice_session (BodyObject (Some "addr1"))
       (sample_world [nameless_line "item008" 1] [])
     = Ret (error_response 500
              "An unexpected error occurred while placing your order.")
         (sample_world [nameless_line "item008" 1] [])
  /\ place_order sample_env alice_session (BodyObject (Some "addr1"))
       (sample_world [nameless_line "item999" 1] [])
     = Ret (mkResponse 409
              (CartUpdatedBody
                 (cart_updated_error
                    ["'An item' was removed as it is no longer available."])
                 []))
         (mkWorld (sample_db []) [] [] [[SetCart "alice@example_com" []]]).
Proof. repeat split; vm_compute; reflexivity. Qed.

(** ** Checkout *)

(** Past its first checks, [place_order] is [checkout] inside the handler's
    [try]. *)
Lemma place_order_reaches env session data w user_data aid addr :
  reaches_validation session data (w_db w) user_data aid addr ->
  place_order env session data w
  = try_except
      (checkout env (user_email session) (safe_email_key (user_email session))
         user_data (user_cart_items user_data) addr (stockitems (w_db w)))
      (fun _ => ret place_order_failed) w.
Proof.
  intros [Hlog Haid Hgiven Huser Hcart Haddr Hfilled Hcat].
  unfold place_order. rewrite Hlog, Haid. simpl.
  destruct aid as [|c aid']; [contradiction|].
  unfold try_except, bind, get_db. simpl. rewrite Huser.
  destruct (user_cart_items user_data) as [|item rest] eqn:Ecart;
    [contradiction|].
  rewrite Haddr.
  destruct (decide (addr = ∅)); [contradiction|].
  destruct (decide (stockitems (w_db w) = ∅)); [contradiction|].
  reflexivity.
Qed.

(** Writing a cart touches no order history, no identifier and no stock. *)
Lemma set_cart_keeps_orders db safe_key cart :
  let db' := apply_update [SetCart safe_key cart] db in
  user_cart_items (user_at db' safe_key) = cart
  /\ (forall k, user_order_history (user_at db' k)
                = user_order_history (user_at db k))
  /\ (forall k, user_orders (user_at db' k) = user_orders (user_at db k))
  /\ existing_ids db' = existing_ids db
  /\ stockitems db' = stockitems db.
Proof.
  simpl. unfold user_at, with_user, with_users. simpl.
  split; [now rewrite lookup_insert_eq|].
  split; [|split; [|auto]].
  - intros k. destruct (decide (safe_key = k)) as [->|Hne].
    + now rewrite lookup_insert_eq.
    + now rewrite lookup_insert_ne.
  - intros k. destruct (decide (safe_key = k)) as [->|Hne].
    + now rewrite lookup_insert_eq.
    + now rewrite lookup_insert_ne.
Qed.

(** Let [place_order] reach cart validation for a logged-in user whose
    cart is not empty.  If validation returns having dropped or clamped a
    line, the answer is HTTP 409 with the validated cart and the joined
    adjustment messages, the stored cart becomes the validated cart, and no
    order history, order counter, identifier or stock changes.  And an answer
    with HTTP 200 comes only from a pass that adjusted no line. *)
Theorem place_order_cart_changed env session data w user_data aid addr :
  reaches_validation session data (w_db w) user_data aid addr ->
  let catalog := stockitems (w_db w) in
  let cart := user_cart_items user_data in
  let safe_key := safe_email_key (user_email session) in
  (forall v w1,
      validate_cart catalog cart (mkValidation [] [] false) w = Ret v w1 ->
      existsb (line_adjusted catalog) cart = true ->
      let db' := apply_update [SetCart safe_key (validated_cart v)] (w_db w) in
      place_order env session data w
      = Ret (mkResponse 409
               (CartUpdatedBody (cart_updated_error (adjustments_made v))
                  (validated_cart v)))
          (mkWorld db' (w_draws w) (w_outbox w)
             (w_writes w ++ [[SetCart safe_key (validated_cart v)]]))
      /\ validated_cart v = omap (line_kept catalog) cart
      /\ adjustments_made v = omap (line_message catalog) cart
      /\ user_cart_items (user_at db' safe_key) = validated_cart v
      /\ (forall k, user_order_history (user_at db' k)
                    = user_order_history (user_at (w_db w) k))
      /\ (forall k, user_orders (user_at db' k)
                    = user_orders (user_at (w_db w) k))
      /\ existing_ids db' = existing_ids (w_db w)
      /\ stockitems db' = stockitems (w_db w))
  /\ (forall r w',
         place_order env session data w = Ret r w' ->
         status_code r = 200 ->
         existsb (line_adjusted catalog) cart = false).
Proof.
  intros Hreach catalog cart safe_key.
  rewrite (place_order_reaches _ _ _ _ _ _ _ Hreach).
  fold catalog cart safe_key. split.
  - intros v w1 Hv Hadj db'.
    pose proof (validate_cart_ret _ _ _ _ _ _ Hv) as (-> & Hk & Hm & Hf).
    simpl in Hk, Hm, Hf. rewrite Hadj in Hf.
    split.
    + unfold try_except, checkout, bind. rewrite Hv, Hf. reflexivity.
    + split; [exact Hk|]. split; [exact Hm|].
      exact (set_cart_keeps_orders (w_db w) safe_key (validated_cart v)).
  - intros r w' Hrun Hcode.
    unfold try_except, checkout, bind in Hrun.
    destruct (validate_cart catalog cart (mkValidation [] [] false) w)
      as [v w1|e w1|] eqn:Hv.
    + pose proof (validate_cart_ret _ _ _ _ _ _ Hv) as (-> & _ & _ & Hf).
      simpl in Hf. rewrite <- Hf.
      destruct (cart_was_modified v); [|reflexivity].
      simpl in Hrun. injection Hrun as <- _. discriminate Hcode.
    + simpl in Hrun. injection Hrun as <- _. discriminate Hcode.
    + discriminate Hrun.
Qed.

Lemma sample_reaches_validation cart draws :
  cart <> [] ->
  reaches_validation alice_session (BodyObject (Some "addr1"))
    (w_db (sample_world cart draws)) (customer cart) "addr1" home_address.
Proof.
  intros Hcart. constructor; try reflexivity; try exact Hcart;
    try discriminate; vm_compute; discriminate.
Defined.

Lemma place_order_cart_changed_witness :
  place_order sample_env alice_session (BodyObject (Some "addr1"))
    (sample_world stale_cart [])
  = Ret (mkResponse 409
           (CartUpdatedBody
              ("Your cart has been updated due to stock changes. Please review and proceed. "
               ++ "'Handloom Cotton Towels' was removed as it is now out of stock. "
               ++ "Quantity for 'Urban Comfort Kurti' reduced to 25 due to low stock.")
              [cart_line "item002" "Urban Comfort Kurti" 25]))
      (mkWorld (sample_db [cart_line "item002" "Urban Comfort Kurti" 25]) [] []
         [[SetCart "alice@example_com"
             [cart_line "item002" "Urban Comfort Kurti" 25]]]).
Proof.
  assert (Hreach : reaches_validation alice_session (BodyObject (Some "addr1"))
                     (w_db (sample_world stale_cart [])) (customer stale_cart)
                     "addr1" home_address)
    by (apply sample_reaches_validation; discriminate).
  destruct (place_order_cart_changed sample_env alice_session (BodyObject (Some "addr1"))
              (sample_world stale_cart []) (customer stale_cart) "addr1"
              home_address Hreach) as [Hchanged _].
  destruct (Hchanged
              (mkValidation [cart_line "item002" "Urban Comfort Kurti" 25]
                 ["'Handloom Cotton Towels' was removed as it is now out of stock.";
                  "Quantity for 'Urban Comfort Kurti' reduced to 25 due to low stock."]
                 true)
              (sample_world stale_cart [])
              ltac:(vm_compute; reflexivity) ltac:(vm_compute; reflexivity))
    as [Hrun _].
  rewrite Hrun. vm_compute. reflexivity.
Defined.

(** C2 (defect of the code).  The stored cart holds a line for [item008],
    whose stock is 0, and a line for [item002] that asks for 30 units of a
    stock of 25 and has no key [name].  Validation has to drop the first
    line and to clamp the second, so the claim has the adjusted cart
    persisted and the answer 409.  The code raises [KeyError] on
    [item['name']] at the second line: the answer is HTTP 500, the stored
    cart is the old one and no write call was made.  The same cart with the
    key [name] on the second line is answered as claimed: HTTP 409, and one
    write call that stores the validated cart. *)
Theorem place_order_adjusted_cart_not_persisted :
  existsb (line_adjusted sample_products) half_named_cart = true
  /\ omap (line_kept sample_products) half_named_cart
     = [nameless_line "item002" 25]
  /\ place_order sample_env alice_session (BodyObject (Some "addr1"))
       (sample_world half_named_cart [])
     = Ret (error_response 500
              "An unexpected error occurred while placing your order.")
         (sample_world half_named_cart [])
  /\ place_order sample_env alice_session (BodyObject (Some "addr1"))
       (sample_world stale_cart [])
     = Ret (mkResponse 409
              (CartUpdatedBody
                 (cart_updated_error
                    ["'Handloom Cotton Towels' was removed as it is now out of stock.";
                     "Quantity for 'Urban Comfort Kurti' reduced to 25 due to low stock."])
                 [cart_line "item002" "Urban Comfort Kurti" 25]))
         (mkWorld (sample_db [cart_line "item002" "Urban Comfort Kurti" 25])
            [] []
            [[SetCart "alice@example_com"
                [cart_line "item002" "Urban Comfort Kurti" 25]]]).
Proof. repeat split; vm_compute; reflexivity. Qed.

(** ** The commit *)

(** A cart without an adjusted line passes validation untouched, whatever
    keys its lines lack. *)
Lemma validate_cart_clean catalog : forall cart st w,
  existsb (line_adjusted catalog) cart = false ->
  validate_cart catalog cart st w
  = Ret (mkValidation (validated_cart st ++ cart) (adjustments_made st)
           (cart_was_modified st)) w.
Proof.
  induction cart as [|item rest IH]; intros st w H; simpl.
  - rewrite app_nil_r. destruct st; reflexivity.
  - simpl in H. apply orb_false_elim in H as [Hi Hr].
    unfold line_adjusted, current_stock_of in Hi.
    destruct (catalog !! item_id item) as [product|]; [|discriminate Hi].
    apply orb_false_elim in Hi as [-> ->].
    rewrite (IH _ _ Hr). simpl. now rewrite <- app_assoc.
Qed.

(** On such a cart the second loop returns the snapshots, their total and
    the stock left for each line. *)
Lemma price_cart_clean catalog : forall cart st w,
  existsb (line_adjusted catalog) cart = false ->
  exists items,
    price_cart catalog cart st w
    = Ret (mkPricing (total_price st + items_total items)
             (order_items_details st ++ items)
             (stock_updates_of catalog cart (stock_updates st))) w
    /\ Forall2 (snapshots catalog) cart items.
Proof.
  induction cart as [|item rest IH]; intros st w H; simpl.
  - exists []. simpl. rewrite Z.add_0_r, app_nil_r.
    destruct st; split; [reflexivity | constructor].
  - simpl in H. apply orb_false_elim in H as [Hi Hr].
    unfold line_adjusted, current_stock_of in Hi.
    destruct (catalog !! item_id item) as [product|] eqn:Hp; [|discriminate Hi].
    apply orb_false_elim in Hi as [Hs Hq].
    destruct (prod_availableStock product) as [available|] eqn:Ha;
      [|discriminate Hs].
    destruct (IH (mkPricing
                    (total_price st + prod_price product * item_quantity item)
                    (order_items_details st ++
                       [mkOrderItem (item_id item) (prod_name product)
                          (prod_price product) (item_quantity item)
                          (prod_image product)
                          (default "N/A" (prod_description product))])
                    (<[item_id item := available - item_quantity item]>
                       (stock_updates st))) w Hr)
      as (items & Hrun & Hsnap).
    exists (mkOrderItem (item_id item) (prod_name product) (prod_price product)
              (item_quantity item) (prod_image product)
              (default "N/A" (prod_description product)) :: items).
    split.
    + rewrite Hrun. f_equal. f_equal.
      * cbn [total_price]. change (items_total (?x :: items))
          with (oi_price x * oi_quantity x + items_total items).
        cbn [oi_price oi_quantity]. lia.
      * cbn [order_items_details]. now rewrite <- app_assoc.
      * cbn [stock_updates]. unfold stock_updates_of. cbn [fold_left].
        unfold current_stock_of. rewrite Ha. reflexivity.
    + constructor; [|exact Hsnap]. exists product. auto.
Qed.

(** Stock writes leave users, identifiers and waitlists alone. *)
Lemma stock_writes_keep (l : list (string * Z)) : forall db,
  users (apply_update ((fun kv => SetStock (fst kv) (snd kv)) <$> l) db)
  = users db
  /\ existing_ids
       (apply_update ((fun kv => SetStock (fst kv) (snd kv)) <$> l) db)
     = existing_ids db
  /\ stock_notifications
       (apply_update ((fun kv => SetStock (fst kv) (snd kv)) <$> l) db)
     = stock_notifications db.
Proof.
  induction l as [|kv l IH]; intros db; [simpl; auto|].
  destruct (IH (apply_write db (SetStock (fst kv) (snd kv)))) as (Hu & He & Hn).
  change (apply_update ((fun kv => SetStock (fst kv) (snd kv)) <$> kv :: l) db)
    with (apply_update ((fun kv => SetStock (fst kv) (snd kv)) <$> l)
            (apply_write db (SetStock (fst kv) (snd kv)))).
  rewrite Hu, He, Hn. auto.
Qed.

Lemma id_reserved_set db id_type new_id :
  id_reserved (apply_write db (SetExistingId id_type new_id true))
    id_type new_id = true.
Proof.
  unfold id_reserved. simpl. rewrite lookup_insert_eq. simpl.
  now rewrite lookup_insert_eq.
Qed.

Lemma id_reserved_set_other db id_type new_id other_type other_id flag :
  other_type <> id_type ->
  id_reserved (apply_write db (SetExistingId other_type other_id flag))
    id_type new_id
  = id_reserved db id_type new_id.
Proof.
  intros Hne. unfold id_reserved. simpl. now rewrite lookup_insert_ne.
Qed.

(** What the five writes of the commit leave in the database. *)
Lemma commit_updates_effect db safe_key order_id invoice_id order_data user_data :
  users db !! safe_key = Some user_data ->
  let db' :=
    apply_update
      (commit_updates safe_key order_id invoice_id order_data user_data) db in
  user_order_history (user_at db' safe_key)
  = <[order_id := order_data]> (user_order_history user_data)
  /\ user_cart_items (user_at db' safe_key) = []
  /\ user_orders (user_at db' safe_key)
     = Some (default 0 (user_orders user_data) + 1)
  /\ id_reserved db' "orders" order_id = true
  /\ id_reserved db' "invoices" invoice_id = true
  /\ stockitems db' = stockitems db
  /\ stock_notifications db' = stock_notifications db.
Proof.
  intros Huser db'. subst db'.
  unfold commit_updates, apply_update. cbn [fold_left].
  split; [|split; [|split; [|split; [|split; [|split; reflexivity]]]]].
  4: { rewrite id_reserved_set_other by discriminate. apply id_reserved_set. }
  4: { apply id_reserved_set. }
  all: cbn [apply_write]; unfold user_at, with_user, with_users;
    cbn [users];
    repeat (rewrite !lookup_insert_eq;
            cbn [default from_option user_name user_orders user_cart_items
                   user_shipping_address user_order_history]);
    rewrite Huser; reflexivity.
Qed.

Lemma draw_ret w raw w' :
  draw w = Ret raw w' -> w_db w' = w_db w /\ w_outbox w' = w_outbox w.
Proof.
  unfold draw. destruct (w_draws w); [discriminate|].
  intros H. injection H as _ <-. auto.
Qed.

Lemma generate_unique_id_keeps prefix id_type w new_id w' :
  generate_unique_id prefix id_type w = Ret new_id w' ->
  w_db w' = w_db w /\ w_outbox w' = w_outbox w.
Proof.
  intros H. apply generate_loop_ret in H. tauto.
Qed.

Lemma snapshots_total catalog cart items :
  Forall2 (snapshots catalog) cart items ->
  items_total items = cart_total catalog cart.
Proof.
  induction 1 as [|item order_item cart items (product & Hp & ->) _ IH];
    simpl; [reflexivity|].
  now rewrite Hp, IH.
Qed.

(** The run of [place_order] on a cart without an adjusted line, once the
    random stream delivers an order id, an invoice id and a status. *)
Lemma place_order_clean_run env session data w user_data aid addr
    order_id invoice_id w1 w2 raw w3 :
  reaches_validation session data (w_db w) user_data aid addr ->
  existsb (line_adjusted (stockitems (w_db w))) (user_cart_items user_data)
  = false ->
  generate_unique_id "ORD" "orders" w = Ret order_id w1 ->
  generate_unique_id "INV" "invoices" w1 = Ret invoice_id w2 ->
  draw w2 = Ret raw w3 ->
  exists items,
    Forall2 (snapshots (stockitems (w_db w))) (user_cart_items user_data) items
    /\ place_order env session data w
       = Ret (mkResponse 200 (OrderPlacedBody order_id invoice_id))
           (mkWorld
              (apply_update
                 (stock_writes
                    (stock_updates_of (stockitems (w_db w))
                       (user_cart_items user_data) ∅))
                 (apply_update
                    (commit_updates (safe_email_key (user_email session))
                       order_id invoice_id
                       (order_of env order_id invoice_id
                          (choice order_statuses raw) items addr
                          (items_total items))
                       user_data)
                    (w_db w)))
              (w_draws w3)
              (w_outbox w ++
                 [OrderConfirmation (user_email session)
                    (default "Valued Customer" (user_name user_data))
                    (order_of env order_id invoice_id
                       (choice order_statuses raw) items addr
                       (items_total items))])
              (w_writes w ++
                 [ commit_updates (safe_email_key (user_email session))
                     order_id invoice_id
                     (order_of env order_id invoice_id
                        (choice order_statuses raw) items addr
                        (items_total items))
                     user_data;
                   stock_writes
                     (stock_updates_of (stockitems (w_db w))
                        (user_cart_items user_data) ∅) ])).
Proof.
  intros Hreach Hclean Hord Hinv Hdraw.
  destruct (price_cart_clean (stockitems (w_db w)) (user_cart_items user_data)
              (mkPricing 0 [] ∅) w Hclean)
    as (items & Hprice & Hsnap).
  exists items. split; [exact Hsnap|].
  destruct (generate_unique_id_keeps _ _ _ _ _ Hord) as [Hdb1 Hout1].
  destruct (generate_unique_id_keeps _ _ _ _ _ Hinv) as [Hdb2 Hout2].
  destruct (draw_ret _ _ _ Hdraw) as [Hdb3 Hout3].
  assert (Hdb : w_db w3 = w_db w) by congruence.
  assert (Hout : w_outbox w3 = w_outbox w) by congruence.
  assert (Hlog : w_writes w3 = w_writes w).
  { rewrite (draw_writes _ _ _ Hdraw),
      (generate_unique_id_writes _ _ _ _ _ Hinv).
    exact (generate_unique_id_writes _ _ _ _ _ Hord). }
  pose proof (reach_cart _ _ _ _ _ _ Hreach) as Hcart.
  rewrite (place_order_reaches _ _ _ _ _ _ _ Hreach).
  unfold try_except, checkout, bind.
  rewrite (validate_cart_clean _ _ _ w Hclean).
  cbn [cart_was_modified validated_cart app]. rewrite Hprice.
  cbn [order_items_details total_price stock_updates app Z.add].
  destruct items as [|order_item items'].
  { apply Forall2_nil_inv_r in Hsnap. contradiction. }
  rewrite Hord, Hinv, Hdraw. unfold update, send, ret.
  cbn [w_db w_draws w_outbox w_writes]. rewrite Hdb, Hout, Hlog.
  rewrite <- app_assoc. reflexivity.
Qed.

(** C3.  Let [place_order] reach validation with a cart in which no line is
    adjusted, and let the random stream deliver an order id, an invoice id
    and a status.  Then the answer is HTTP 200, and the handler has made two
    write calls: one call of [update] with exactly five paths (the order
    under its id in the user's history, the empty cart, the order counter
    plus one, the two identifiers in the index), then the update of the
    stocks; the database is the old one after these two calls.  The order
    lines are the snapshots of the cart lines from the live catalog and the
    order total is the sum over the cart lines of live price times
    quantity. *)
Theorem place_order_commits env session data w user_data aid addr
    order_id invoice_id w1 w2 raw w3 :
  reaches_validation session data (w_db w) user_data aid addr ->
  existsb (line_adjusted (stockitems (w_db w))) (user_cart_items user_data)
  = false ->
  generate_unique_id "ORD" "orders" w = Ret order_id w1 ->
  generate_unique_id "INV" "invoices" w1 = Ret invoice_id w2 ->
  draw w2 = Ret raw w3 ->
  let catalog := stockitems (w_db w) in
  let cart := user_cart_items user_data in
  let safe_key := safe_email_key (user_email session) in
  exists items,
    let order_data :=
      order_of env order_id invoice_id (choice order_statuses raw) items addr
        (items_total items) in
    let commit :=
      [ SetOrder safe_key order_id order_data;
        SetCart safe_key [];
        SetOrderCount safe_key (default 0 (user_orders user_data) + 1);
        SetExistingId "orders" order_id true;
        SetExistingId "invoices" invoice_id true ] in
    let stocks := stock_writes (stock_updates_of catalog cart ∅) in
    let db1 := apply_update commit (w_db w) in
    let db2 := apply_update stocks db1 in
    place_order env session data w
    = Ret (mkResponse 200 (OrderPlacedBody order_id invoice_id))
        (mkWorld db2 (w_draws w3)
           (w_outbox w ++
              [OrderConfirmation (user_email session)
                 (default "Valued Customer" (user_name user_data))
                 order_data])
           (w_writes w ++ [commit; stocks]))
    /\ Forall2 (snapshots catalog) cart items
    /\ ord_totalAmount order_data = cart_total catalog cart
    /\ user_order_history (user_at db2 safe_key) !! order_id = Some order_data
    /\ user_cart_items (user_at db2 safe_key) = []
    /\ user_orders (user_at db2 safe_key)
       = Some (default 0 (user_orders user_data) + 1)
    /\ id_reserved db2 "orders" order_id = true
    /\ id_reserved db2 "invoices" invoice_id = true.
Proof.
  intros Hreach Hclean Hord Hinv Hdraw catalog cart safe_key.
  destruct (place_order_clean_run env _ _ _ _ _ _ _ _ _ _ _ _
              Hreach Hclean Hord Hinv Hdraw)
    as (items & Hsnap & Hrun).
  exists items. intros order_data commit stocks db1 db2.
  pose proof (reach_user _ _ _ _ _ _ Hreach) as Huser.
  destruct (commit_updates_effect (w_db w) safe_key order_id invoice_id
              order_data user_data Huser)
    as (Hhist & Hcart' & Hcount & Hro & Hri & _ & _).
  change (commit_updates safe_key order_id invoice_id order_data user_data)
    with commit in Hhist, Hcart', Hcount, Hro, Hri.
  fold db1 in Hhist, Hcart', Hcount, Hro, Hri.
  destruct (stock_writes_keep (map_to_list (stock_updates_of catalog cart ∅)) db1)
    as (Hu & He & _).
  fold (stock_writes (stock_updates_of catalog cart ∅)) in Hu, He.
  fold stocks in Hu, He. fold db2 in Hu, He.
  split; [exact Hrun|]. split; [exact Hsnap|].
  split; [apply (snapshots_total _ _ _ Hsnap)|].
  unfold user_at in *. rewrite Hu. unfold id_reserved in *. rewrite He.
  rewrite Hhist, lookup_insert_eq. auto.
Qed.

Lemma place_order_commits_witness :
  exists w',
    place_order sample_env alice_session (BodyObject (Some "addr1"))
      (sample_world scenario_cart [4213%N; 77%N; 2%N])
    = Ret (mkResponse 200 (OrderPlacedBody "ORD04213" "INV00077")) w'
    /\ user_cart_items (user_at (w_db w') "alice@example_com") = []
    /\ user_orders (user_at (w_db w') "alice@example_com") = Some 1
    /\ id_reserved (w_db w') "orders" "ORD04213" = true
    /\ id_reserved (w_db w') "invoices" "INV00077" = true
    /\ length (w_writes w') = 2%nat
    /\ (length <$> w_writes w' !! 0%nat) = Some 5%nat.
Proof.
  destruct (place_order_commits sample_env alice_session (BodyObject (Some "addr1"))
              (sample_world scenario_cart [4213%N; 77%N; 2%N])
              (customer scenario_cart) "addr1" home_address
              "ORD04213" "INV00077"
              (sample_world scenario_cart [77%N; 2%N])
              (sample_world scenario_cart [2%N]) 2%N
              (sample_world scenario_cart [])
              (sample_reaches_validation scenario_cart _
                 ltac:(discriminate))
              ltac:(vm_compute; reflexivity) ltac:(vm_compute; reflexivity)
              ltac:(vm_compute; reflexivity) ltac:(vm_compute; reflexivity))
    as (items & Hrun & _ & _ & _ & Hcart & Hcount & Hord & Hinv).
  eexists. split; [exact Hrun|].
  split; [exact Hcart|]. split; [exact Hcount|].
  split; [exact Hord|]. split; [exact Hinv|]. split; reflexivity.
Defined.

(** ** Stock after checkout *)

(** The end-to-end scenario of the specification: two units of [item002],
    stock 25 and price 1299, give a success, a total of 2598 and a stock
    of 23. *)
Lemma place_order_scenario :
  exists w' o,
    place_order sample_env alice_session (BodyObject (Some "addr1"))
      (sample_world scenario_cart [4213%N; 77%N; 2%N])
    = Ret (mkResponse 200 (OrderPlacedBody "ORD04213" "INV00077")) w'
    /\ user_order_history (user_at (w_db w') "alice@example_com")
         !! "ORD04213" = Some o
    /\ ord_totalAmount o = 2598
    /\ stock_of (sample_db scenario_cart) "item002" = Some 25
    /\ stock_of (w_db w') "item002" = Some 23.
Proof.
  eexists. eexists. split; [vm_compute; reflexivity|].
  split; [vm_compute; reflexivity|]. repeat split.
Qed.

(** C4 (defect of the code).  The stored cart holds two lines for [item002],
    two units each, and the stock is 25.  Each line passes validation on its
    own, the order is placed for four units (total 5196), and the two entries
    of [stock_updates] share the key [item002/availableStock], so the stock
    read afterwards is 23: the value at validation time minus the quantity of
    the last line, not minus the purchased quantity, which leaves 21. *)
Theorem place_order_doubled_line_stock :
  exists w' o,
    place_order sample_env alice_session (BodyObject (Some "addr1"))
      (sample_world doubled_cart [4213%N; 77%N; 2%N])
    = Ret (mkResponse 200 (OrderPlacedBody "ORD04213" "INV00077")) w'
    /\ user_order_history (user_at (w_db w') "alice@example_com")
         !! "ORD04213" = Some o
    /\ purchased o = [("item002", 2); ("item002", 2)]
    /\ ord_totalAmount o = 5196
    /\ stock_of (sample_db doubled_cart) "item002" = Some 25
    /\ stock_of (w_db w') "item002" = Some 23.
Proof.
  eexists. eexists. split; [vm_compute; reflexivity|].
  split; [vm_compute; reflexivity|]. repeat split.
Qed.

(** *** Carts with one line per product *)

(** A stock update writes each of its entries and nothing else. *)
Lemma stock_writes_list_lookup (l : list (string * Z)) : forall db product_id,
  NoDup l.*1 ->
  stockitems (apply_update ((fun kv => SetStock (fst kv) (snd kv)) <$> l) db)
    !! product_id
  = match (list_to_map l : gmap string Z) !! product_id with
    | Some n => set_stock n <$> stockitems db !! product_id
    | None => stockitems db !! product_id
    end.
Proof.
  induction l as [|[k v] l IH]; intros db product_id Hnd.
  - simpl. now rewrite lookup_empty.
  - change (apply_update
              ((fun kv => SetStock (fst kv) (snd kv)) <$> (k, v) :: l) db)
      with (apply_update ((fun kv => SetStock (fst kv) (snd kv)) <$> l)
              (apply_write db (SetStock k v))).
    apply NoDup_cons in Hnd as [Hk Hnd]. rewrite (IH _ _ Hnd).
    cbn [list_to_map foldr fst snd]. cbn [apply_write stockitems].
    destruct (decide (k = product_id)) as [->|Hne].
    + rewrite lookup_insert_eq.
      rewrite (not_elem_of_list_to_map_1 l product_id Hk).
      apply lookup_alter_eq.
    + rewrite lookup_insert_ne by exact Hne.
      now rewrite lookup_alter_ne by exact Hne.
Qed.

Lemma stock_of_after_writes (updates : gmap string Z) db product_id :
  stock_of (apply_update (stock_writes updates) db) product_id
  = match updates !! product_id with
    | Some n => stockitems db !! product_id ≫= fun _ => Some n
    | None => stock_of db product_id
    end.
Proof.
  unfold stock_of, stock_writes.
  rewrite stock_writes_list_lookup by apply NoDup_fst_map_to_list.
  rewrite list_to_map_to_list.
  destruct (updates !! product_id); [|reflexivity].
  destruct (stockitems db !! product_id); reflexivity.
Qed.

Lemma stock_updates_of_cons catalog item rest acc :
  stock_updates_of catalog (item :: rest) acc
  = stock_updates_of catalog rest
      match catalog !! item_id item with
      | Some product =>
          <[item_id item := current_stock_of product - item_quantity item]> acc
      | None => acc
      end.
Proof. reflexivity. Qed.

(** The second loop leaves the entries of other products alone. *)
Lemma stock_updates_of_other catalog : forall cart acc product_id,
  product_id ∉ item_id <$> cart ->
  stock_updates_of catalog cart acc !! product_id = acc !! product_id.
Proof.
  induction cart as [|item rest IH]; intros acc product_id Hnot;
    [reflexivity|].
  apply not_elem_of_cons in Hnot as [Hne Hrest].
  rewrite stock_updates_of_cons, (IH _ _ Hrest).
  destruct (catalog !! item_id item); [|reflexivity].
  now rewrite lookup_insert_ne by congruence.
Qed.

(** With one line per product, the entry of a line is the stock of its
    product minus the quantity of the line. *)
Lemma stock_updates_of_line catalog : forall cart acc item product,
  NoDup (item_id <$> cart) ->
  item ∈ cart ->
  catalog !! item_id item = Some product ->
  stock_updates_of catalog cart acc !! item_id item
  = Some (current_stock_of product - item_quantity item).
Proof.
  induction cart as [|first rest IH]; intros acc item product Hnd Hin Hp.
  - inversion Hin.
  - apply NoDup_cons in Hnd as [Hfirst Hnd].
    rewrite stock_updates_of_cons.
    apply elem_of_cons in Hin as [-> | Hin].
    + rewrite (stock_updates_of_other _ _ _ _ Hfirst), Hp.
      apply lookup_insert_eq.
    + now apply IH.
Qed.

(** A line that is not adjusted asks for at most the stock, and the stock
    is a positive number. *)
Lemma line_clean_stock catalog item :
  line_adjusted catalog item = false ->
  exists product available,
    catalog !! item_id item = Some product
    /\ prod_availableStock product = Some available
    /\ 0 < available
    /\ item_quantity item <= available.
Proof.
  unfold line_adjusted, current_stock_of.
  destruct (catalog !! item_id item) as [product|]; [|discriminate].
  intros H. apply orb_false_elim in H as [Hs Hq].
  destruct (prod_availableStock product) as [available|] eqn:Ha;
    [|discriminate Hs].
  cbn [default from_option] in Hs, Hq. unfold id in Hs, Hq.
  exists product, available.
  apply Z.leb_gt in Hs. rewrite Z.gtb_ltb in Hq. apply Z.ltb_ge in Hq.
  repeat split; [exact Ha | exact Hs | exact Hq].
Qed.

(** X12.  On a cart with one line per product, a successful [place_order]
    leaves,
    for each line, the stock of the product at validation time minus the
    quantity of the line, which is not negative, and leaves the stock of the
    other products alone. *)
Lemma place_order_stock_distinct env session data w user_data aid addr
    order_id invoice_id w1 w2 raw w3 :
  reaches_validation session data (w_db w) user_data aid addr ->
  existsb (line_adjusted (stockitems (w_db w))) (user_cart_items user_data)
  = false ->
  NoDup (item_id <$> user_cart_items user_data) ->
  generate_unique_id "ORD" "orders" w = Ret order_id w1 ->
  generate_unique_id "INV" "invoices" w1 = Ret invoice_id w2 ->
  draw w2 = Ret raw w3 ->
  exists w',
    place_order env session data w
    = Ret (mkResponse 200 (OrderPlacedBody order_id invoice_id)) w'
    /\ (forall item,
           item ∈ user_cart_items user_data ->
           exists available,
             stock_of (w_db w) (item_id item) = Some available
             /\ stock_of (w_db w') (item_id item)
                = Some (available - item_quantity item)
             /\ 0 <= available - item_quantity item)
    /\ (forall product_id,
           product_id ∉ item_id <$> user_cart_items user_data ->
           stock_of (w_db w') product_id = stock_of (w_db w) product_id).
Proof.
  intros Hreach Hclean Hnd Hord Hinv Hdraw.
  destruct (place_order_clean_run env _ _ _ _ _ _ _ _ _ _ _ _
              Hreach Hclean Hord Hinv Hdraw)
    as (items & Hsnap & Hrun).
  eexists. split; [exact Hrun|]. cbn [w_db].
  set (catalog := stockitems (w_db w)) in *.
  set (cart := user_cart_items user_data) in *.
  pose proof (reach_user _ _ _ _ _ _ Hreach) as Huser.
  split.
  - intros item Hin.
    assert (Hline : line_adjusted catalog item = false).
    { rewrite <- not_true_iff_false. intros Hadj.
      rewrite <- not_true_iff_false in Hclean. apply Hclean.
      apply existsb_exists. exists item. split; [|exact Hadj].
      now apply list_elem_of_In. }
    destruct (line_clean_stock _ _ Hline) as (product & available & Hp & Ha & Hpos & Hq).
    exists available. rewrite stock_of_after_writes.
    rewrite (stock_updates_of_line catalog cart ∅ item product Hnd Hin Hp).
    destruct (commit_updates_effect (w_db w)
                (safe_email_key (user_email session)) order_id invoice_id
                (order_of env order_id invoice_id (choice order_statuses raw)
                   items addr (items_total items)) user_data Huser)
      as (_ & _ & _ & _ & _ & Hstock & _).
    rewrite Hstock. fold catalog. unfold stock_of. fold catalog.
    rewrite Hp. unfold current_stock_of. simpl. rewrite !Ha. simpl.
    split; [reflexivity|]. split; [reflexivity | lia].
  - intros product_id Hnot. rewrite stock_of_after_writes.
    rewrite (stock_updates_of_other catalog cart ∅ product_id Hnot).
    rewrite lookup_empty. unfold stock_of.
    destruct (commit_updates_effect (w_db w)
                (safe_email_key (user_email session)) order_id invoice_id
                (order_of env order_id invoice_id (choice order_statuses raw)
                   items addr (items_total items)) user_data Huser)
      as (_ & _ & _ & _ & _ & Hstock & _).
    now rewrite Hstock.
Qed.

(** ** Return requests *)

(** Past its first checks, [request_return] is [process_return] inside the
    handler's [try]. *)
Lemma request_return_reaches env session form w user_data ai ci order_data :
  reaches_status_check session form (w_db w) user_data ai ci order_data ->
  request_return env session form w
  = try_except
      (process_return env (user_email session)
         (safe_email_key (user_email session))
         (default "AnonymousUser" (user_name user_data)) form ai ci order_data)
      (fun _ => ret request_return_failed) w.
Proof.
  intros [Hlog Hai Hci Hid Hreason Hvideo Huser Horder].
  unfold request_return. rewrite Hlog, Hai, Hci, Hvideo. simpl.
  apply String.eqb_neq in Hid, Hreason. rewrite Hid, Hreason. simpl.
  unfold try_except, bind, get_db. simpl. rewrite Huser, Horder. reflexivity.
Qed.

Lemma process_return_status_processed env email safe_key name form ai ci
    order_data status w :
  ord_status order_data = Some status ->
  status = "Return Requested" \/ status = "Returned" ->
  process_return env email safe_key name form ai ci order_data w
  = Ret (already_processed status) w.
Proof.
  intros Hs Hor. unfold process_return. rewrite Hs.
  destruct Hor as [-> | ->]; reflexivity.
Qed.

Lemma process_return_status_other env email safe_key name form ai ci
    order_data w :
  ord_status order_data <> Some "Return Requested" ->
  ord_status order_data <> Some "Returned" ->
  ord_status order_data <> Some "Delivered" ->
  process_return env email safe_key name form ai ci order_data w
  = Ret only_delivered w.
Proof.
  intros H1 H2 H3. unfold process_return.
  rewrite (bool_decide_eq_false_2 _ H1), (bool_decide_eq_false_2 _ H2),
    (bool_decide_eq_false_2 _ H3).
  reflexivity.
Qed.

Lemma delivered_status_checks order_data :
  ord_status order_data = Some "Delivered" ->
  bool_decide (ord_status order_data = Some "Return Requested") = false
  /\ bool_decide (ord_status order_data = Some "Returned") = false
  /\ bool_decide (ord_status order_data = Some "Delivered") = true.
Proof.
  intros ->. split; [|split].
  - apply bool_decide_eq_false_2. discriminate.
  - apply bool_decide_eq_false_2. discriminate.
  - apply bool_decide_eq_true_2. reflexivity.
Qed.

Lemma process_return_expired env email safe_key name form ai ci order_data T w :
  delivered_on order_data T ->
  datetime_sub (env_now env) T > timedelta_days return_window_days ->
  process_return env email safe_key name form ai ci order_data w
  = Ret window_expired w.
Proof.
  intros (Hs & s & Hd & Hne & HT) Hlate. unfold process_return.
  destruct (delivered_status_checks _ Hs) as (-> & -> & ->).
  rewrite Hd. destruct s as [|c s]; [contradiction|].
  rewrite HT. cbn [orb negb].
  apply Z.gtb_gt in Hlate. rewrite Hlate. reflexivity.
Qed.

Lemma process_return_in_window env email safe_key name form ai ci order_data
    T w :
  delivered_on order_data T ->
  datetime_sub (env_now env) T <= timedelta_days return_window_days ->
  process_return env email safe_key name form ai ci order_data w
  = finish_return env email safe_key name form (pickup_address ai order_data)
      (pickup_contact ci order_data) order_data w.
Proof.
  intros (Hs & s & Hd & Hne & HT) Hin. unfold process_return.
  destruct (delivered_status_checks _ Hs) as (-> & -> & ->).
  rewrite Hd. destruct s as [|c s]; [contradiction|].
  rewrite HT. cbn [orb negb].
  assert (Hgt : (datetime_sub (env_now env) T
                 >? timedelta_days return_window_days) = false).
  { rewrite Z.gtb_ltb. apply Z.ltb_ge. exact Hin. }
  rewrite Hgt. reflexivity.
Qed.

(** The end of the handler answers with an upload failure or a success;
    it raises nothing. *)
Lemma finish_return_ret env email safe_key name form addr contact order_data
    w :
  match finish_return env email safe_key name form addr contact order_data w
  with
  | Ret r w' =>
      (exists message, r = upload_failed message /\ w_db w' = w_db w)
      \/ (exists return_invoice_id,
             r = mkResponse 200
                   (ReturnRequestedBody "Return Requested" return_invoice_id))
  | Raise _ _ => False
  | Loops => True
  end.
Proof.
  unfold finish_return, bind.
  destruct (generate_unique_id "RET" "returns" w) as [rid w1|e w1|] eqn:Hgen;
    [| |exact I].
  - destruct (generate_unique_id_keeps _ _ _ _ _ Hgen) as [Hdb _].
    destruct (upload_video_to_r2 env (form_videoFile form) name rid)
      as [video_url [[|c e]|]].
    + right. eexists. reflexivity.
    + left. exists (String c e). auto.
    + right. eexists. reflexivity.
  - unfold generate_unique_id in Hgen.
    revert Hgen. generalize (w_draws w) at 1. intros draws. revert w.
    induction draws as [|raw rest IH]; intros w Hgen; simpl in Hgen;
      [discriminate|].
    destruct (negb _); [discriminate|]. exact (IH _ Hgen).
Qed.

Lemma process_return_delivered_ret env email safe_key name form ai ci
    order_data w :
  ord_status order_data = Some "Delivered" ->
  match process_return env email safe_key name form ai ci order_data w with
  | Ret r w' =>
      r = error_response 400 "Delivery date not found."
      \/ r = window_expired
      \/ (exists message, r = upload_failed message)
      \/ (exists return_invoice_id,
             r = mkResponse 200
                   (ReturnRequestedBody "Return Requested" return_invoice_id))
  | Raise _ _ | Loops => True
  end.
Proof.
  intros Hs. unfold process_return.
  destruct (delivered_status_checks _ Hs) as (-> & -> & ->). cbn [orb negb].
  destruct (ord_deliveryDate order_data) as [[|c s]|]; try (left; reflexivity).
  destruct (strptime_d_b_Y (String c s)) as [T|]; [|exact I].
  destruct (_ >? _); [right; left; reflexivity|].
  pose proof (finish_return_ret env email safe_key name form
                (if bool_decide (ai_type ai = Some "same")
                 then ord_shippingAddress order_data
                 else ai_customAddress ai)
                (if bool_decide (ci_type ci = Some "same")
                 then default "" (ord_shippingAddress order_data !! "phone")
                 else ci_customContact ci)
                order_data w) as H.
  destruct (finish_return _ _ _ _ _ _ _ _ w) as [r w'|e w'|]; [|exact I ..].
  destruct H as [(message & -> & _) | (rid & ->)].
  - right. right. left. eauto.
  - right. right. right. eauto.
Qed.

(** C6.  Let [request_return] reach the status check.  An order whose status
    is [Return Requested] or [Returned] is answered with the error
    [Return already processed. Status: ...]; an order with any other status
    than [Delivered], or with none, is answered with the error
    [Only delivered items can be returned.], which is another text; an order
    with the status [Delivered] gets neither answer; and an answer with HTTP
    200 comes only for the status [Delivered]. *)
Theorem request_return_status_check env session form w user_data ai ci
    order_data :
  reaches_status_check session form (w_db w) user_data ai ci order_data ->
  (forall status,
      ord_status order_data = Some status ->
      status = "Return Requested" \/ status = "Returned" ->
      request_return env session form w = Ret (already_processed status) w)
  /\ (ord_status order_data <> Some "Return Requested" ->
      ord_status order_data <> Some "Returned" ->
      ord_status order_data <> Some "Delivered" ->
      request_return env session form w = Ret only_delivered w)
  /\ (forall status, already_processed status <> only_delivered)
  /\ (ord_status order_data = Some "Delivered" ->
      forall r w',
        request_return env session form w = Ret r w' ->
        r <> only_delivered /\ forall status, r <> already_processed status)
  /\ (forall r w',
         request_return env session form w = Ret r w' ->
         status_code r = 200 ->
         ord_status order_data = Some "Delivered").
Proof.
  intros Hreach.
  rewrite (request_return_reaches _ _ _ _ _ _ _ _ Hreach).
  unfold try_except.
  assert (H1 : forall status,
             ord_status order_data = Some status ->
             status = "Return Requested" \/ status = "Returned" ->
             match process_return env (user_email session)
                     (safe_email_key (user_email session))
                     (default "AnonymousUser" (user_name user_data)) form ai ci
                     order_data w with
             | Ret a w' => Ret a w'
             | Raise e w' => ret request_return_failed w'
             | Loops => Loops
             end = Ret (already_processed status) w).
  { intros status Hs Hor.
    now rewrite (process_return_status_processed _ _ _ _ _ _ _ _ _ _ Hs Hor). }
  assert (H2 : ord_status order_data <> Some "Return Requested" ->
               ord_status order_data <> Some "Returned" ->
               ord_status order_data <> Some "Delivered" ->
               match process_return env (user_email session)
                       (safe_email_key (user_email session))
                       (default "AnonymousUser" (user_name user_data)) form ai
                       ci order_data w with
               | Ret a w' => Ret a w'
               | Raise e w' => ret request_return_failed w'
               | Loops => Loops
               end = Ret only_delivered w).
  { intros Ha Hb Hc.
    now rewrite (process_return_status_other _ _ _ _ _ _ _ _ _ Ha Hb Hc). }
  split; [exact H1|]. split; [exact H2|].
  split; [intros status; discriminate|]. split.
  - intros Hs r w' Hrun.
    pose proof (process_return_delivered_ret env (user_email session)
                  (safe_email_key (user_email session))
                  (default "AnonymousUser" (user_name user_data)) form ai ci
                  order_data w Hs) as Hcases.
    destruct (process_return _ _ _ _ _ _ _ _ w) as [r0 w0|e w0|];
      [| |discriminate Hrun].
    + injection Hrun as <- _.
      destruct Hcases as [-> | [-> | [(message & ->) | (rid & ->)]]];
        split; try discriminate; intros status; discriminate.
    + injection Hrun as <- _. split; [discriminate|].
      intros status; discriminate.
  - intros r w' Hrun Hcode.
    destruct (decide (ord_status order_data = Some "Delivered")) as [|Hc];
      [assumption|].
    destruct (decide (ord_status order_data = Some "Return Requested"))
      as [Ha|Ha].
    { rewrite (H1 _ Ha (or_introl eq_refl)) in Hrun.
      injection Hrun as <- _. discriminate Hcode. }
    destruct (decide (ord_status order_data = Some "Returned")) as [Hb|Hb].
    { rewrite (H1 _ Hb (or_intror eq_refl)) in Hrun.
      injection Hrun as <- _. discriminate Hcode. }
    rewrite (H2 Ha Hb Hc) in Hrun. injection Hrun as <- _. discriminate Hcode.
Qed.

(** C7.  Let [request_return] reach the status check for a delivered order
    whose delivery date reads as the day [T].  If [now - T] exceeds 15 days
    the answer is the window-expired error; otherwise no answer of the
    handler is that error.  So 16 days after [T], and one hour past 15 days,
    the request is rejected; 14 days after [T], and exactly 15 days after
    [T], it is not rejected for the window. *)
Theorem request_return_window env session form w user_data ai ci order_data T :
  reaches_status_check session form (w_db w) user_data ai ci order_data ->
  delivered_on order_data T ->
  let elapsed := datetime_sub (env_now env) T in
  let rejected := request_return env session form w = Ret window_expired w in
  let not_rejected :=
    forall r w', request_return env session form w = Ret r w' ->
                 r <> window_expired in
  (elapsed > timedelta_days 15 -> rejected)
  /\ (elapsed <= timedelta_days 15 -> not_rejected)
  /\ (elapsed = timedelta_days 16 -> rejected)
  /\ (elapsed = timedelta_days 15 + 3600 * 1000000 -> rejected)
  /\ (elapsed = timedelta_days 15 -> not_rejected)
  /\ (elapsed = timedelta_days 14 -> not_rejected).
Proof.
  intros Hreach Hdel elapsed rejected not_rejected.
  assert (Hlate : elapsed > timedelta_days 15 -> rejected).
  { intros H. unfold rejected.
    rewrite (request_return_reaches _ _ _ _ _ _ _ _ Hreach). unfold try_except.
    now rewrite (process_return_expired _ _ _ _ _ _ _ _ _ _ Hdel H). }
  assert (Hin : elapsed <= timedelta_days 15 -> not_rejected).
  { intros H r w' Hrun.
    rewrite (request_return_reaches _ _ _ _ _ _ _ _ Hreach) in Hrun.
    unfold try_except in Hrun.
    rewrite (process_return_in_window _ _ _ _ _ _ _ _ _ _ Hdel H) in Hrun.
    pose proof (finish_return_ret env (user_email session)
                  (safe_email_key (user_email session))
                  (default "AnonymousUser" (user_name user_data)) form
                  (pickup_address ai order_data) (pickup_contact ci order_data)
                  order_data w) as Hcases.
    destruct (finish_return _ _ _ _ _ _ _ _ w) as [r0 w0|e w0|];
      [|contradiction|discriminate Hrun].
    injection Hrun as <- _.
    destruct Hcases as [(message & -> & _) | (rid & ->)]; discriminate. }
  unfold timedelta_days in *.
  repeat split; try assumption; intros H;
    first [apply Hlate | apply Hin]; lia.
Qed.

(** The boundary on the sample order, delivered on 19 October 2026: at
    midnight of 3 November, 15 days later to the microsecond, the return is
    accepted; one hour later it is rejected. *)
Lemma request_return_boundary :
  (exists w',
      request_return (env_on 3 true) alice_session return_form
        (return_world delivered_19_oct [555%N])
      = Ret (mkResponse 200 (ReturnRequestedBody "Return Requested" "RET00555"))
          w'
      /\ ord_status
           <$> user_order_history (user_at (w_db w') "alice@example_com")
                 !! "ORD04213"
         = Some (Some "Return Requested")
      /\ id_reserved (w_db w') "returns" "RET00555" = true)
  /\ request_return
       (mkEnv (mkDatetime 2026 11 3 1 0 0 0) 1793788200000 true None
          "https://cdn.example.com")
       alice_session return_form (return_world delivered_19_oct [555%N])
     = Ret window_expired (return_world delivered_19_oct [555%N]).
Proof.
  split.
  - eexists. split; [vm_compute; reflexivity|].
    split; vm_compute; reflexivity.
  - vm_compute. reflexivity.
Qed.

(** C8.  Let [request_return] reach the upload: the status check and the
    window check pass and the generator returns a return id.  If the object
    store refuses the upload, the answer is HTTP 500 with the upload error,
    and the database, the mail log, the stored order and the reservation
    index for returns are as before the request. *)
Theorem request_return_upload_failure env session form w user_data ai ci
    order_data T return_invoice_id w1 :
  reaches_status_check session form (w_db w) user_data ai ci order_data ->
  delivered_on order_data T ->
  datetime_sub (env_now env) T <= timedelta_days return_window_days ->
  generate_unique_id "RET" "returns" w = Ret return_invoice_id w1 ->
  upload_fails env ->
  exists message,
    request_return env session form w = Ret (upload_failed message) w1
    /\ status_code (upload_failed message) = 500
    /\ w_db w1 = w_db w
    /\ w_outbox w1 = w_outbox w
    /\ user_order_history
         (user_at (w_db w1) (safe_email_key (user_email session)))
         !! form_orderId form = Some order_data
    /\ id_reserved (w_db w1) "returns" return_invoice_id = false.
Proof.
  intros Hreach Hdel Hin Hgen Hfail.
  pose proof (generate_loop_ret _ _ _ _ _ _ Hgen) as (_ & Hfree & Hdb & Hout).
  assert (Hrun : exists message,
             request_return env session form w
             = Ret (upload_failed message) w1).
  { rewrite (request_return_reaches _ _ _ _ _ _ _ _ Hreach). unfold try_except.
    rewrite (process_return_in_window _ _ _ _ _ _ _ _ _ _ Hdel Hin).
    unfold finish_return, bind. rewrite Hgen.
    unfold upload_video_to_r2.
    rewrite (ret_video _ _ _ _ _ _ _ Hreach). cbn [negb].
    destruct Hfail as [Hs3 | [e He]].
    - rewrite Hs3. cbn [negb]. eexists. reflexivity.
    - rewrite He. destruct (env_s3_client env); cbn [negb];
        eexists; reflexivity. }
  destruct Hrun as [message Hrun]. exists message.
  split; [exact Hrun|]. split; [reflexivity|].
  split; [exact Hdb|]. split; [exact Hout|]. split.
  - rewrite Hdb. unfold user_at.
    rewrite (ret_user _ _ _ _ _ _ _ Hreach). simpl.
    exact (ret_order _ _ _ _ _ _ _ Hreach).
  - rewrite Hdb. exact Hfree.
Qed.

Lemma sample_reaches_status_check o draws :
  reaches_status_check alice_session return_form (w_db (return_world o draws))
    (returning_customer o) same_address same_contact o.
Proof. constructor; try reflexivity; discriminate. Defined.

Lemma delivered_19_oct_on :
  delivered_on delivered_19_oct (mkDatetime 2026 10 19 0 0 0 0).
Proof.
  split; [reflexivity|]. exists "19-Oct-2026".
  split; [reflexivity|]. split; [discriminate | reflexivity].
Defined.

Lemma request_return_status_check_witness :
  request_return (env_on 4 true) alice_session return_form
    (return_world (past_order "Shipped" None) [])
  = Ret only_delivered (return_world (past_order "Shipped" None) []).
Proof.
  destruct (request_return_status_check (env_on 4 true) alice_session
              return_form (return_world (past_order "Shipped" None) [])
              (returning_customer (past_order "Shipped" None))
              same_address same_contact (past_order "Shipped" None)
              (sample_reaches_status_check _ _))
    as (_ & Hother & _).
  apply Hother; discriminate.
Defined.

Lemma request_return_window_witness :
  request_return (env_on 4 true) alice_session return_form
    (return_world delivered_19_oct [555%N])
  = Ret window_expired (return_world delivered_19_oct [555%N]).
Proof.
  destruct (request_return_window (env_on 4 true) alice_session return_form
              (return_world delivered_19_oct [555%N])
              (returning_customer delivered_19_oct)
              same_address same_contact delivered_19_oct
              (mkDatetime 2026 10 19 0 0 0 0)
              (sample_reaches_status_check _ _) delivered_19_oct_on)
    as (_ & _ & Hsixteen & _).
  apply Hsixteen. vm_compute. reflexivity.
Defined.

Lemma request_return_upload_failure_witness :
  exists message,
    request_return (env_on 1 false) alice_session return_form
      (return_world delivered_19_oct [555%N])
    = Ret (upload_failed message) (return_world delivered_19_oct [])
    /\ user_order_history
         (user_at (w_db (return_world delivered_19_oct [])) "alice@example_com")
         !! "ORD04213" = Some delivered_19_oct
    /\ id_reserved (w_db (return_world delivered_19_oct [])) "returns"
         "RET00555" = false.
Proof.
  destruct (request_return_upload_failure (env_on 1 false) alice_session
              return_form (return_world delivered_19_oct [555%N])
              (returning_customer delivered_19_oct)
              same_address same_contact delivered_19_oct
              (mkDatetime 2026 10 19 0 0 0 0) "RET00555"
              (return_world delivered_19_oct [])
              (sample_reaches_status_check _ _) delivered_19_oct_on
              ltac:(vm_compute; discriminate) ltac:(vm_compute; reflexivity)
              (or_introl eq_refl))
    as (message & Hrun & _ & _ & _ & Horder & Hfree).
  exists message. split; [exact Hrun|]. split; [exact Horder | exact Hfree].
Defined.

(** ** The restock dispatcher *)

(** The end-to-end scenario of the specification: [item008] is restocked
    and its waitlist holds [alice@example_com]; one mail goes to
    [alice@example.com] and lists [item008], and the waitlist is empty
    afterwards. *)
Lemma handle_stock_notifications_scenario :
  exists w',
    handle_stock_notifications [restocked_item008]
      (waiting_world "alice@example.com" "Alice")
    = Ret tt w'
    /\ waitlist (waiting_db "alice@example.com" "Alice") "item008"
       = {["alice@example_com"]}
    /\ w_outbox w'
       = [StockNotification "alice@example.com" "Alice" [restocked_item008]]
    /\ waitlist (w_db w') "item008" = ∅.
Proof.
  eexists. split; [vm_compute; reflexivity|].
  split; [|split]; vm_compute; reflexivity.
Qed.

(** C9 (defect of the code, the one of C10).  The user registered as
    [a_b@example.com], an address that [validate_email] accepts, waits for
    [item008] under the key [a_b@example_com].  When [item008] is restocked
    the dispatcher sends its one mail to [a.b@example.com], so the interested
    user is sent none, and it deletes the user's waitlist entry all the
    same. *)
Theorem handle_stock_notifications_wrong_receiver :
  exists w',
    handle_stock_notifications [restocked_item008]
      (waiting_world "a_b@example.com" "Bala")
    = Ret tt w'
    /\ validate_email "a_b@example.com" = true
    /\ waitlist (waiting_db "a_b@example.com" "Bala") "item008"
       = {[safe_email_key "a_b@example.com"]}
    /\ w_outbox w'
       = [StockNotification "a.b@example.com" "Bala" [restocked_item008]]
    /\ ~ In "a_b@example.com" (receivers (w_outbox w'))
    /\ waitlist (w_db w') "item008" = ∅.
Proof.
  eexists. split; [vm_compute; reflexivity|].
  split; [reflexivity|]. split; [vm_compute; reflexivity|].
  split; [reflexivity|]. split; [|vm_compute; reflexivity].
  simpl. intros [H|[]]. discriminate H.
Qed.

(** *** The dispatch, key by key *)

Lemma add_notification_batch email product : forall un e,
  batch_of (add_notification email product un) e
  = if String.eqb email e then (batch_of un email ++ [product])%list
    else batch_of un e.
Proof.
  induction un as [|[a ps] rest IH]; intros e; simpl.
  - destruct (String.eqb email e); reflexivity.
  - destruct (String.eqb a email) eqn:Ea; simpl.
    + apply String.eqb_eq in Ea. subst a.
      destruct (String.eqb email e); reflexivity.
    + rewrite IH. destruct (String.eqb a e) eqn:Eae; [|reflexivity].
      apply String.eqb_eq in Eae. subst e.
      rewrite String.eqb_sym, Ea. reflexivity.
Qed.

Lemma add_notification_keys email product : forall un e,
  e ∈ (add_notification email product un).*1 <-> e = email \/ e ∈ un.*1.
Proof.
  induction un as [|[a ps] rest IH]; intros e; simpl.
  - rewrite elem_of_cons. reflexivity.
  - destruct (String.eqb a email) eqn:Ea; simpl.
    + apply String.eqb_eq in Ea. subst a. rewrite elem_of_cons. tauto.
    + rewrite !elem_of_cons, IH. tauto.
Qed.

Lemma add_notification_NoDup email product : forall un,
  NoDup un.*1 -> NoDup (add_notification email product un).*1.
Proof.
  induction un as [|[a ps] rest IH]; intros Hnd; simpl.
  - apply NoDup_singleton.
  - apply NoDup_cons in Hnd as [Ha Hnd].
    destruct (String.eqb a email) eqn:Ea; simpl.
    + apply NoDup_cons. auto.
    + apply NoDup_cons. split; [|auto].
      rewrite add_notification_keys. intros [->|Hin]; [|contradiction].
      now rewrite String.eqb_refl in Ea.
Qed.

(** With distinct addresses in the dictionary, the batch of an address is
    the list stored with it. *)
Lemma batch_of_elem : forall (un : UserNotifications) e ps,
  NoDup un.*1 -> (e, ps) ∈ un -> batch_of un e = ps.
Proof.
  induction un as [|[a qs] rest IH]; intros e ps Hnd Hin; [inversion Hin|].
  apply NoDup_cons in Hnd as [Ha Hnd]. simpl.
  apply elem_of_cons in Hin as [Heq | Hin].
  - injection Heq as <- <-. now rewrite String.eqb_refl.
  - destruct (String.eqb a e) eqn:Ea; [|now apply IH].
    apply String.eqb_eq in Ea. subst a. exfalso. apply Ha.
    apply list_elem_of_fmap. exists (e, ps). auto.
Qed.

Lemma elem_batch_of : forall (un : UserNotifications) e,
  e ∈ un.*1 -> (e, batch_of un e) ∈ un.
Proof.
  induction un as [|[a qs] rest IH]; intros e Hin; [inversion Hin|].
  simpl in *. destruct (String.eqb a e) eqn:Ea.
  - apply String.eqb_eq in Ea. subst a. apply elem_of_cons. auto.
  - apply elem_of_cons in Hin as [-> | Hin].
    + now rewrite String.eqb_refl in Ea.
    + apply elem_of_cons. right. now apply IH.
Qed.

(** The inner loop appends the product once to the batch of each address
    it decodes. *)
Lemma notify_users_batch product : forall keys un e,
  NoDup (email_of_key <$> keys) ->
  batch_of (notify_users product keys un) e
  = (batch_of un e
     ++ (if decide (e ∈ email_of_key <$> keys) then [product] else []))%list.
Proof.
  induction keys as [|k keys IH]; intros un e Hnd.
  - unfold notify_users. cbn [fold_left]. rewrite fmap_nil.
    destruct (decide (e ∈ [])) as [Hin|]; [inversion Hin|].
    now rewrite app_nil_r.
  - rewrite fmap_cons in Hnd. apply NoDup_cons in Hnd as [Hk Hnd].
    change (notify_users product (k :: keys) un)
      with (notify_users product keys
              (add_notification (email_of_key k) product un)).
    rewrite (IH _ _ Hnd), add_notification_batch, fmap_cons.
    destruct (String.eqb (email_of_key k) e) eqn:Ek.
    + apply String.eqb_eq in Ek. subst e.
      destruct (decide (email_of_key k ∈ email_of_key <$> keys));
        [contradiction|].
      destruct (decide (email_of_key k ∈ email_of_key k :: (email_of_key <$> keys)))
        as [|Hn]; [now rewrite app_nil_r|].
      exfalso. apply Hn. apply elem_of_cons. auto.
    + apply String.eqb_neq in Ek.
      destruct (decide (e ∈ email_of_key <$> keys)) as [Hin|Hnin];
        destruct (decide (e ∈ email_of_key k :: (email_of_key <$> keys)))
          as [Hin'|Hnin']; try reflexivity.
      * exfalso. apply Hnin'. apply elem_of_cons. auto.
      * exfalso. apply elem_of_cons in Hin' as [->|]; contradiction.
Qed.

Lemma notify_users_keys product : forall keys un e,
  e ∈ (notify_users product keys un).*1
  <-> e ∈ email_of_key <$> keys \/ e ∈ un.*1.
Proof.
  induction keys as [|k keys IH]; intros un e.
  - simpl. split; [auto|]. intros [H|H]; [inversion H | exact H].
  - change (notify_users product (k :: keys) un)
      with (notify_users product keys
              (add_notification (email_of_key k) product un)).
    rewrite IH, add_notification_keys, fmap_cons, elem_of_cons. tauto.
Qed.

Lemma notify_users_NoDup product : forall keys un,
  NoDup un.*1 -> NoDup (notify_users product keys un).*1.
Proof.
  induction keys as [|k keys IH]; intros un Hnd; [exact Hnd|].
  apply IH. now apply add_notification_NoDup.
Qed.

Lemma collect_from_cons all_notifications product rest un :
  collect_from all_notifications (product :: rest) un
  = collect_from all_notifications rest
      (notify_users product (waiting_keys all_notifications (rs_id product))
         un).
Proof.
  unfold collect_from, waiting_keys. simpl.
  destruct (all_notifications !! rs_id product); reflexivity.
Qed.

Lemma waiting_keys_NoDup all_notifications product_id :
  NoDup (waiting_keys all_notifications product_id).
Proof.
  unfold waiting_keys. destruct (all_notifications !! product_id).
  - apply NoDup_fst_map_to_list.
  - apply NoDup_nil_2.
Qed.

Lemma waiting_keys_waitlist db product_id safe_key :
  safe_key ∈ waiting_keys (stock_notifications db) product_id
  <-> safe_key ∈ waitlist db product_id.
Proof.
  unfold waiting_keys, waitlist.
  destruct (stock_notifications db !! product_id) as [node|]; simpl.
  - rewrite elem_of_dom, list_elem_of_fmap. split.
    + intros [[k v] [-> Hin]]. apply elem_of_map_to_list in Hin. eauto.
    + intros [v Hv]. exists (safe_key, v). split; [reflexivity|].
      now apply elem_of_map_to_list.
  - rewrite dom_empty_L. split; [intros H; inversion H | set_solver].
Qed.

(** Decoding is injective on keys without a dot. *)
Lemma email_of_key_inj k1 k2 :
  Str.contains "." k1 = false -> Str.contains "." k2 = false ->
  email_of_key k1 = email_of_key k2 -> k1 = k2.
Proof.
  intros H1 H2 Heq.
  rewrite <- (safe_email_key_email_of_key k1 H1),
    <- (safe_email_key_email_of_key k2 H2).
  now rewrite Heq.
Qed.

Lemma decoded_keys_NoDup all_notifications product_id :
  keys_without_dot all_notifications ->
  NoDup (email_of_key <$> waiting_keys all_notifications product_id).
Proof.
  intros Hdot. apply NoDup_fmap_2_strong; [|apply waiting_keys_NoDup].
  intros k1 k2 H1 H2. apply email_of_key_inj; eauto.
Qed.

Lemma decoded_key_waits all_notifications product_id safe_key :
  keys_without_dot all_notifications ->
  Str.contains "." safe_key = false ->
  email_of_key safe_key
    ∈ email_of_key <$> waiting_keys all_notifications product_id
  <-> safe_key ∈ waiting_keys all_notifications product_id.
Proof.
  intros Hdot Hk. rewrite list_elem_of_fmap. split.
  - intros (k' & Heq & Hin).
    now rewrite (email_of_key_inj _ _ Hk (Hdot _ _ Hin) Heq).
  - intros Hin. eauto.
Qed.

(** The outer loop: the batch of an address grows by the restocked products
    on whose waitlist a key decodes to the address. *)
Lemma collect_from_batch all_notifications : forall restocked un e,
  keys_without_dot all_notifications ->
  batch_of (collect_from all_notifications restocked un) e
  = (batch_of un e
     ++ filter
          (fun product =>
             e ∈ email_of_key
                   <$> waiting_keys all_notifications (rs_id product))
          restocked)%list.
Proof.
  induction restocked as [|product rest IH]; intros un e Hdot.
  - simpl. now rewrite app_nil_r.
  - rewrite collect_from_cons, (IH _ _ Hdot).
    rewrite notify_users_batch by now apply decoded_keys_NoDup.
    rewrite filter_cons. rewrite <- app_assoc.
    destruct (decide (e ∈ email_of_key
                            <$> waiting_keys all_notifications (rs_id product)));
      reflexivity.
Qed.

Lemma collect_from_keys all_notifications : forall restocked un e,
  e ∈ (collect_from all_notifications restocked un).*1
  <-> (exists product safe_key,
          product ∈ restocked
          /\ safe_key ∈ waiting_keys all_notifications (rs_id product)
          /\ e = email_of_key safe_key)
      \/ e ∈ un.*1.
Proof.
  induction restocked as [|product rest IH]; intros un e.
  - simpl. split; [auto|]. intros [(p & k & Hin & _)|H]; [inversion Hin|exact H].
  - rewrite collect_from_cons, IH, notify_users_keys, list_elem_of_fmap.
    split.
    + intros [(p & k & Hin & Hk & ->) | [(k & -> & Hk) | Hun]].
      * left. exists p, k. rewrite elem_of_cons. auto.
      * left. exists product, k. rewrite elem_of_cons. auto.
      * auto.
    + intros [(p & k & Hin & Hk & ->) | Hun]; [|auto].
      apply elem_of_cons in Hin as [-> | Hin]; [right; left; eauto|].
      left. eauto.
Qed.

Lemma collect_from_NoDup all_notifications : forall restocked un,
  NoDup un.*1 -> NoDup (collect_from all_notifications restocked un).*1.
Proof.
  induction restocked as [|product rest IH]; intros un Hnd; [exact Hnd|].
  rewrite collect_from_cons. apply IH. now apply notify_users_NoDup.
Qed.

(** The second loop sends one mail per batch, in order, and gathers the
    paths of every batch. *)
Lemma notify_batches_ret all_users : forall un paths w,
  notify_batches (Some all_users) un paths w
  = Ret (paths ++ (un ≫= batch_deletions))%list
      (mkWorld (w_db w) (w_draws w)
         (w_outbox w ++ (batch_mail all_users <$> un)) (w_writes w)).
Proof.
  induction un as [|[e ps] rest IH]; intros paths w.
  - simpl. rewrite !app_nil_r. destruct w; reflexivity.
  - simpl. unfold bind, send. rewrite IH. simpl.
    unfold batch_deletions at 2, batch_mail at 2. simpl.
    now rewrite <- !app_assoc.
Qed.

(** Deleting an entry takes its key off the waitlist of its product and
    leaves the other waitlists alone. *)
Lemma waitlist_delete_write db product_id safe_key other_id :
  waitlist (apply_write db (DeleteNotification product_id safe_key)) other_id
  = if decide (product_id = other_id)
    then waitlist db other_id ∖ {[safe_key]}
    else waitlist db other_id.
Proof.
  unfold waitlist. cbn [apply_write stock_notifications].
  rewrite lookup_partial_alter.
  destruct (decide (product_id = other_id)) as [->|]; [|reflexivity].
  destruct (stock_notifications db !! other_id) as [node|]; simpl.
  - unfold delete_child.
    destruct (decide (delete safe_key node = ∅)) as [Hempty|]; simpl.
    + rewrite <- dom_delete_L, Hempty. reflexivity.
    + apply dom_delete_L.
  - rewrite dom_empty_L. now rewrite empty_difference_L.
Qed.

Lemma waitlist_after_deletions : forall writes db product_id safe_key,
  Forall is_deletion writes ->
  safe_key ∈ waitlist (apply_update writes db) product_id
  <-> safe_key ∈ waitlist db product_id
      /\ DeleteNotification product_id safe_key ∉ writes.
Proof.
  induction writes as [|write rest IH]; intros db product_id safe_key Hdel.
  - simpl. split; [|tauto]. intros H. split; [exact H|]. intros Hin.
    inversion Hin.
  - apply Forall_cons in Hdel as [(p & k & ->) Hdel].
    change (apply_update (DeleteNotification p k :: rest) db)
      with (apply_update rest (apply_write db (DeleteNotification p k))).
    rewrite (IH _ _ _ Hdel), waitlist_delete_write, not_elem_of_cons.
    destruct (decide (p = product_id)) as [->|Hne].
    + rewrite elem_of_difference, elem_of_singleton. split.
      * intros [[Hin Hk] Hrest]. repeat split; try assumption. congruence.
      * intros [Hin [Hk Hrest]]. repeat split; try assumption. congruence.
    + split.
      * intros [Hin Hrest]. repeat split; try assumption. congruence.
      * intros [Hin [_ Hrest]]. auto.
Qed.

Lemma notifications_after_deletions : forall writes db product_id,
  Forall is_deletion writes ->
  (forall safe_key, DeleteNotification product_id safe_key ∉ writes) ->
  stock_notifications (apply_update writes db) !! product_id
  = stock_notifications db !! product_id.
Proof.
  induction writes as [|write rest IH]; intros db product_id Hdel Hnot;
    [reflexivity|].
  apply Forall_cons in Hdel as [(p & k & ->) Hdel].
  change (apply_update (DeleteNotification p k :: rest) db)
    with (apply_update rest (apply_write db (DeleteNotification p k))).
  rewrite (IH _ _ Hdel).
  - cbn [apply_write stock_notifications].
    apply lookup_partial_alter_ne. intros ->.
    apply (Hnot k). apply elem_of_cons. auto.
  - intros k' Hin. apply (Hnot k'). apply elem_of_cons. auto.
Qed.

Lemma deletions_keep_rest : forall writes db,
  Forall is_deletion writes ->
  users (apply_update writes db) = users db
  /\ stockitems (apply_update writes db) = stockitems db
  /\ existing_ids (apply_update writes db) = existing_ids db.
Proof.
  induction writes as [|write rest IH]; intros db Hdel; [auto|].
  apply Forall_cons in Hdel as [(p & k & ->) Hdel].
  change (apply_update (DeleteNotification p k :: rest) db)
    with (apply_update rest (apply_write db (DeleteNotification p k))).
  destruct (IH (apply_write db (DeleteNotification p k)) Hdel)
    as (-> & -> & ->).
  auto.
Qed.

(** The paths gathered by the second loop: one per product of each
    batch. *)
Lemma batch_deletions_elem (un : UserNotifications) write :
  write ∈ un ≫= batch_deletions
  <-> exists e ps product,
        (e, ps) ∈ un /\ product ∈ ps
        /\ write = DeleteNotification (rs_id product) (safe_email_key e).
Proof.
  rewrite list_elem_of_bind. unfold batch_deletions, batch_paths. split.
  - intros ([e ps] & Hin & Hun). simpl in Hin.
    apply list_elem_of_fmap in Hin as (product & -> & Hp). eauto 6.
  - intros (e & ps & product & Hun & Hp & ->). exists (e, ps).
    split; [|exact Hun]. simpl. apply list_elem_of_fmap. eauto.
Qed.

Lemma batch_deletions_are_deletions (un : UserNotifications) :
  Forall is_deletion (un ≫= batch_deletions).
Proof.
  apply Forall_forall. intros write Hin.
  apply batch_deletions_elem in Hin as (e & ps & product & _ & _ & ->).
  exists (rs_id product), (safe_email_key e). reflexivity.
Qed.

(** X13.  On a database whose waitlist keys hold no dot and whose users
    tree is not empty, the dispatcher sends one mail per interested key, to the
    address decoded from the key, listing the restocked products the key
    waits for; it empties the waitlists of the restocked products in one
    update, the only write call of the run (there is none when no key
    waits), and leaves the other waitlists, the users, the catalog and the
    identifiers as they were. *)
Lemma handle_stock_notifications_by_key restocked w :
  keys_without_dot (stock_notifications (w_db w)) ->
  users (w_db w) <> ∅ ->
  exists (batches : UserNotifications) w',
    handle_stock_notifications restocked w = Ret tt w'
    /\ w_db w' = apply_update (batches ≫= batch_deletions) (w_db w)
    /\ w_outbox w'
       = (w_outbox w ++ (batch_mail (users (w_db w)) <$> batches))%list
    /\ NoDup batches.*1
    /\ (forall e,
           e ∈ batches.*1
           <-> exists product safe_key,
                 product ∈ restocked
                 /\ safe_key ∈ waitlist (w_db w) (rs_id product)
                 /\ e = email_of_key safe_key)
    /\ (forall product safe_key,
           product ∈ restocked ->
           safe_key ∈ waitlist (w_db w) (rs_id product) ->
           (email_of_key safe_key,
            restocked_for (stock_notifications (w_db w)) restocked safe_key)
           ∈ batches)
    /\ (forall product,
           product ∈ restocked -> waitlist (w_db w') (rs_id product) = ∅)
    /\ (forall product_id,
           product_id ∉ rs_id <$> restocked ->
           stock_notifications (w_db w') !! product_id
           = stock_notifications (w_db w) !! product_id)
    /\ users (w_db w') = users (w_db w)
    /\ stockitems (w_db w') = stockitems (w_db w)
    /\ existing_ids (w_db w') = existing_ids (w_db w)
    /\ w_writes w'
       = (w_writes w ++ match batches ≫= batch_deletions with
                        | [] => []
                        | _ :: _ => [batches ≫= batch_deletions]
                        end)%list.
Proof.
  intros Hdot Husers.
  set (N := stock_notifications (w_db w)) in *.
  set (un := collect_notifications N restocked).
  assert (Hnd : NoDup un.*1).
  { apply collect_from_NoDup. apply NoDup_nil_2. }
  assert (Hkeys : forall e,
             e ∈ un.*1
             <-> exists product safe_key,
                   product ∈ restocked
                   /\ safe_key ∈ waitlist (w_db w) (rs_id product)
                   /\ e = email_of_key safe_key).
  { intros e. unfold un, collect_notifications. rewrite collect_from_keys.
    split.
    - intros [(p & k & Hp & Hk & ->) | Hin]; [|inversion Hin].
      exists p, k. split; [exact Hp|].
      split; [now apply waiting_keys_waitlist | reflexivity].
    - intros (p & k & Hp & Hk & ->). left. exists p, k. split; [exact Hp|].
      split; [now apply waiting_keys_waitlist | reflexivity]. }
  assert (Hbatch : forall product safe_key,
             product ∈ restocked ->
             safe_key ∈ waitlist (w_db w) (rs_id product) ->
             (email_of_key safe_key, restocked_for N restocked safe_key) ∈ un).
  { intros p k Hp Hk.
    assert (Hin : email_of_key k ∈ un.*1) by (apply Hkeys; eauto).
    apply elem_batch_of in Hin.
    replace (restocked_for N restocked k) with (batch_of un (email_of_key k));
      [exact Hin|].
    unfold un, collect_notifications. rewrite (collect_from_batch _ _ _ _ Hdot).
    simpl. apply list_filter_iff. intros p'.
    apply decoded_key_waits; [exact Hdot|].
    apply (Hdot (rs_id p)). now apply waiting_keys_waitlist. }
  pose proof (batch_deletions_are_deletions un) as Hdel.
  assert (Hempty : forall product,
             product ∈ restocked ->
             waitlist (apply_update (un ≫= batch_deletions) (w_db w))
               (rs_id product) = ∅).
  { intros p Hp. apply set_eq. intros k. rewrite elem_of_empty.
    rewrite (waitlist_after_deletions _ _ _ _ Hdel). split; [|tauto].
    intros [Hk Hnot]. apply Hnot. apply batch_deletions_elem.
    exists (email_of_key k), (restocked_for N restocked k), p.
    split; [exact (Hbatch p k Hp Hk)|]. split.
    - apply list_elem_of_filter. split; [|exact Hp].
      now apply waiting_keys_waitlist.
    - rewrite safe_email_key_email_of_key; [reflexivity|].
      apply (Hdot (rs_id p)). now apply waiting_keys_waitlist. }
  assert (Hother : forall product_id,
             product_id ∉ rs_id <$> restocked ->
             stock_notifications (apply_update (un ≫= batch_deletions) (w_db w))
               !! product_id = N !! product_id).
  { intros pid Hpid. apply (notifications_after_deletions _ _ _ Hdel).
    intros k Hin. apply batch_deletions_elem in Hin
      as (e & ps & p & Hun & Hp & Heq).
    injection Heq as -> _. apply Hpid. apply list_elem_of_fmap_2.
    rewrite <- (batch_of_elem un e ps Hnd Hun) in Hp.
    unfold un, collect_notifications in Hp.
    rewrite (collect_from_batch _ _ _ _ Hdot) in Hp. simpl in Hp.
    now apply list_elem_of_filter in Hp as [_ Hp]. }
  destruct (deletions_keep_rest _ (w_db w) Hdel) as (Hu & Hs & He).
  assert (Hrun : exists w',
             handle_stock_notifications restocked w = Ret tt w'
             /\ w_db w' = apply_update (un ≫= batch_deletions) (w_db w)
             /\ w_outbox w'
                = (w_outbox w ++ (batch_mail (users (w_db w)) <$> un))%list
             /\ w_writes w'
                = (w_writes w ++ match un ≫= batch_deletions with
                                 | [] => []
                                 | _ :: _ => [un ≫= batch_deletions]
                                 end)%list).
  { unfold handle_stock_notifications, bind, get_db. fold N.
    destruct (decide (N = ∅)) as [HN|HN].
    - assert (Hun : un = []).
      { destruct un as [|[e ps] rest] eqn:Eun; [reflexivity|]. exfalso.
        assert (Hin : e ∈ ((e, ps) :: rest).*1) by (apply elem_of_cons; auto).
        apply Hkeys in Hin as (p & k & _ & Hk & _).
        apply waiting_keys_waitlist in Hk. fold N in Hk. rewrite HN in Hk.
        unfold waiting_keys in Hk. rewrite lookup_empty in Hk. inversion Hk. }
      exists w. rewrite Hun. simpl. rewrite !app_nil_r. auto.
    - fold un. destruct un as [|b rest] eqn:Eun.
      + exists w. simpl. rewrite !app_nil_r. auto.
      + rewrite <- Eun.
        destruct (decide (users (w_db w) = ∅)); [contradiction|].
        rewrite notify_batches_ret. cbn [app].
        destruct (un ≫= batch_deletions) as [|path paths] eqn:Epaths.
        * eexists. split; [reflexivity|]. simpl. rewrite app_nil_r. auto.
        * eexists. split; [reflexivity|]. simpl. auto. }
  destruct Hrun as (w' & Hrun & Hdb & Hout & Hlog).
  exists un, w'. split; [exact Hrun|]. split; [exact Hdb|]. rewrite Hdb.
  repeat (split; [assumption|]). assumption.
Qed.

(** ** User keys, both ways *)

(** The key that the dispatcher computes from a decoded address is the key
    it decoded, dots or not: [k.replace('_', '.').replace('.', '_')] and
    [k.replace('.', '_')] are the same string. *)
Lemma safe_email_key_decoded k :
  safe_email_key (email_of_key k) = safe_email_key k.
Proof.
  unfold email_of_key, safe_email_key.
  induction k as [|c k IH]; simpl; [reflexivity|].
  rewrite IH. f_equal.
  destruct (Ascii.eqb c "_") eqn:E1.
  - apply Ascii.eqb_eq in E1. subst c. reflexivity.
  - reflexivity.
Qed.

Lemma safe_email_key_idempotent e :
  safe_email_key (safe_email_key e) = safe_email_key e.
Proof.
  unfold safe_email_key.
  induction e as [|c e IH]; simpl; [reflexivity|].
  rewrite IH. f_equal.
  destruct (Ascii.eqb c ".") eqn:E1; [reflexivity | now rewrite E1].
Qed.

(** X2.  The dispatcher decodes a stored key to an address and encodes that
    address again for the name lookup and for the path it deletes: the
    second key is always the stored one, whatever the address was, so the
    lookup and the deletion hit the entry that was read. *)
Theorem notification_key_reencoded e :
  safe_email_key (email_of_key (safe_email_key e)) = safe_email_key e.
Proof. rewrite safe_email_key_decoded. apply safe_email_key_idempotent. Qed.

(** X3.  Two addresses without an underscore that have the same key are the
    same address: such users never share a document under [users/]. *)
Theorem safe_email_key_injective a b :
  Str.contains "_" a = false -> Str.contains "_" b = false ->
  safe_email_key a = safe_email_key b -> a = b.
Proof.
  intros Ha Hb H.
  apply email_of_key_safe_email_key in Ha, Hb.
  rewrite <- Ha, <- Hb, H. reflexivity.
Qed.

Lemma safe_email_key_injective_witness :
  Str.contains "_" "alice@example.com" = false
  /\ safe_email_key "alice@example.com" = "alice@example_com"
  /\ "alice@example.com" = "alice@example.com".
Proof.
  split; [reflexivity|]. split; [reflexivity|].
  apply (safe_email_key_injective "alice@example.com" "alice@example.com");
    reflexivity.
Defined.

(** ** What a pattern can match *)

Lemma fullmatch_Void s : Re.fullmatch Re.Void s = false.
Proof. induction s as [|c s IH]; simpl; [reflexivity | exact IH]. Qed.

Lemma fullmatch_Alt : forall s r1 r2,
  Re.fullmatch (Re.Alt r1 r2) s = Re.fullmatch r1 s || Re.fullmatch r2 s.
Proof.
  induction s as [|c s IH]; intros r1 r2; simpl; [reflexivity | apply IH].
Qed.

(** A sequence whose head matches nothing matches nothing. *)
Lemma fullmatch_Seq_dead : forall s r1 r2,
  (forall s', Re.fullmatch r1 s' = false) ->
  Re.fullmatch (Re.Seq r1 r2) s = false.
Proof.
  induction s as [|c s IH]; intros r1 r2 Hdead.
  - simpl. change (Re.nullable r1) with (Re.fullmatch r1 ""). now rewrite Hdead.
  - simpl. change (Re.nullable r1) with (Re.fullmatch r1 "").
    rewrite Hdead. apply IH. intros s'. apply (Hdead (String c s')).
Qed.

(** No word of [r] starts with a character outside its classes. *)
Lemma deriv_outside p c : forall r,
  classes_within p r -> p c = false ->
  forall s, Re.fullmatch (Re.deriv c r) s = false.
Proof.
  induction r as [| |q|r1 IH1 r2 IH2|r1 IH1 r2 IH2|r1 IH1];
    simpl; intros Hin Hc s.
  - apply fullmatch_Void.
  - apply fullmatch_Void.
  - destruct (q c) eqn:Hq; [|apply fullmatch_Void].
    apply Hin in Hq. congruence.
  - destruct Hin as [H1 H2]. destruct (Re.nullable r1).
    + rewrite fullmatch_Alt, (IH2 H2 Hc), orb_false_r.
      apply fullmatch_Seq_dead. now apply IH1.
    + apply fullmatch_Seq_dead. now apply IH1.
  - destruct Hin as [H1 H2].
    now rewrite fullmatch_Alt, (IH1 H1 Hc), (IH2 H2 Hc).
  - apply fullmatch_Seq_dead. now apply IH1.
Qed.

Lemma deriv_within p c : forall r,
  classes_within p r -> classes_within p (Re.deriv c r).
Proof.
  induction r as [| |q|r1 IH1 r2 IH2|r1 IH1 r2 IH2|r1 IH1]; simpl; intros Hin.
  - exact I.
  - exact I.
  - destruct (q c); exact I.
  - destruct Hin as [H1 H2]. destruct (Re.nullable r1); simpl; auto.
  - destruct Hin as [H1 H2]. auto.
  - auto.
Qed.

(** A string that matches [r] is made of characters of its classes. *)
Lemma fullmatch_within p : forall s r,
  classes_within p r -> Re.fullmatch r s = true -> Str.forallb p s = true.
Proof.
  induction s as [|c s IH]; intros r Hin Hm; simpl; [reflexivity|].
  simpl in Hm. destruct (p c) eqn:Hc.
  - simpl. apply (IH (Re.deriv c r)); [now apply deriv_within | exact Hm].
  - rewrite (deriv_outside p c r Hin Hc) in Hm. discriminate.
Qed.

Lemma email_pattern_within : classes_within address_char email_pattern.
Proof.
  unfold email_pattern, Re.Plus, Re.AtLeast2. cbn [classes_within].
  repeat split; intros c Hc; unfold address_char;
    first [ now rewrite Hc
          | now (rewrite Hc; apply orb_true_r)
          | now (unfold email_char; rewrite Hc)
          | (apply Ascii.eqb_eq in Hc; subst c; reflexivity) ].
Qed.

Lemma forallb_replace_char p q old new : forall s,
  (forall c, p c = true -> q (if Ascii.eqb c old then new else c) = true) ->
  Str.forallb p s = true -> Str.forallb q (Str.replace_char old new s) = true.
Proof.
  induction s as [|c s IH]; simpl; intros Hpq H; [reflexivity|].
  apply andb_true_iff in H as [Hc Hs].
  rewrite (Hpq c Hc). simpl. now apply IH.
Qed.

Lemma forallb_not_contains p c : forall s,
  Str.forallb p s = true -> p c = false -> Str.contains c s = false.
Proof.
  induction s as [|d s IH]; simpl; intros H Hc; [reflexivity|].
  apply andb_true_iff in H as [Hd Hs]. rewrite (IH Hs Hc), orb_false_r.
  destruct (Ascii.eqb d c) eqn:E; [|reflexivity].
  apply Ascii.eqb_eq in E. congruence.
Qed.

Lemma validated_email_key_chars e :
  validate_email e = true -> Str.forallb key_char (safe_email_key e) = true.
Proof.
  intros Hv.
  apply (fullmatch_within address_char _ _ email_pattern_within) in Hv.
  unfold safe_email_key.
  apply (forallb_replace_char address_char key_char); [|exact Hv].
  intros c Hc. unfold address_char, email_char in Hc. unfold key_char.
  destruct (Ascii.eqb c ".") eqn:Hdot; [reflexivity|].
  rewrite orb_false_r in Hc. rewrite (Ascii.eqb_sym c "@"). exact Hc.
Qed.

(** X4.  An address of characters up to U+00FF that [validate_email]
    accepts is not empty, and its key holds none of the characters
    [. $ # [ ] /] that a database path refuses: every such address can be
    stored under [users/]. *)
Theorem validated_email_key e :
  validate_email e = true ->
  safe_email_key e <> ""
  /\ Forall (fun c => Str.contains c (safe_email_key e) = false)
       ["."; "$"; "#"; "["; "]"; "/"]%char.
Proof.
  intros Hv. split.
  - destruct e; [discriminate Hv | discriminate].
  - pose proof (validated_email_key_chars e Hv) as Hk.
    repeat constructor;
      apply (forallb_not_contains key_char _ _ Hk); reflexivity.
Qed.

Lemma validated_email_key_witness :
  validate_email "alice@example.com" = true
  /\ safe_email_key "alice@example.com" <> ""
  /\ Forall
       (fun c => Str.contains c (safe_email_key "alice@example.com") = false)
       ["."; "$"; "#"; "["; "]"; "/"]%char.
Proof.
  split; [reflexivity|].
  apply (validated_email_key "alice@example.com"). reflexivity.
Defined.

(** ** The runs of [place_order], case by case *)

Lemma validate_cart_raise catalog : forall cart st w e w',
  validate_cart catalog cart st w = Raise e w' -> w' = w /\ e = KeyError "name".
Proof.
  induction cart as [|item rest IH]; intros st w e w' H; simpl in H.
  - discriminate H.
  - destruct (catalog !! item_id item) as [product|]; [|now apply IH in H].
    unfold bind, subscript_name in H.
    destruct (default 0 (prod_availableStock product) <=? 0).
    + destruct (item_name item) as [name|]; simpl in H.
      * now apply IH in H.
      * injection H as <- <-. auto.
    + destruct (item_quantity item >? default 0 (prod_availableStock product)).
      * destruct (item_name item) as [name|]; simpl in H.
        -- now apply IH in H.
        -- injection H as <- <-. auto.
      * now apply IH in H.
Qed.

Lemma validate_cart_not_loops catalog : forall cart st w,
  validate_cart catalog cart st w <> Loops.
Proof.
  induction cart as [|item rest IH]; intros st w; simpl.
  - discriminate.
  - destruct (catalog !! item_id item) as [product|]; [|apply IH].
    unfold bind, subscript_name.
    destruct (default 0 (prod_availableStock product) <=? 0).
    + destruct (item_name item) as [name|]; simpl; [apply IH | discriminate].
    + destruct (item_quantity item >? default 0 (prod_availableStock product)).
      * destruct (item_name item) as [name|]; simpl; [apply IH | discriminate].
      * apply IH.
Qed.

Lemma generate_unique_id_no_raise prefix id_type w e w' :
  generate_unique_id prefix id_type w <> Raise e w'.
Proof.
  unfold generate_unique_id. generalize (w_draws w) at 1.
  intros draws. revert w.
  induction draws as [|raw rest IH]; intros w; simpl; [discriminate|].
  destruct (negb (id_reserved (w_db w) id_type (prefix ++ random_part raw)));
    [discriminate | apply IH].
Qed.

Lemma draw_no_raise w e w' : draw w <> Raise e w'.
Proof. unfold draw. destruct (w_draws w); discriminate. Qed.

(** The first checks either answer, with nothing written, or let the
    [AttributeError] of a body that is no JSON object escape, or hand over
    to cart validation. *)
Lemma place_order_first_checks env session data w :
  (exists r,
      In r place_order_rejections
      /\ place_order env session data w = Ret r w)
  \/ (data = NotAnObject
      /\ place_order env session data w = Raise AttributeError w)
  \/ (exists user_data aid addr,
         reaches_validation session data (w_db w) user_data aid addr).
Proof.
  unfold place_order, place_order_rejections.
  destruct (logged_in session) eqn:Hlog; cbn [negb].
  2:{ left. eexists. split; [|reflexivity]. simpl. auto 10. }
  destruct data as [|[aid|]].
  { right. left. auto. }
  2:{ left. eexists. split; [|reflexivity]. simpl. auto 10. }
  destruct aid as [|c aid'].
  { left. eexists. split; [|reflexivity]. simpl. auto 10. }
  unfold try_except, bind, get_db.
  destruct (users (w_db w) !! safe_email_key (user_email session))
    as [user_data|] eqn:Huser.
  2:{ left. eexists. split; [|reflexivity]. simpl. auto 10. }
  destruct (user_cart_items user_data) as [|item rest] eqn:Hcart.
  { left. eexists. split; [|reflexivity]. simpl. auto 10. }
  destruct (user_shipping_address user_data !! String c aid')
    as [addr|] eqn:Haddr.
  2:{ left. eexists. split; [|reflexivity]. simpl. auto 10. }
  destruct (decide (addr = ∅)) as [He|Hne].
  { left. eexists. split; [|reflexivity]. simpl. auto 10. }
  destruct (decide (stockitems (w_db w) = ∅)) as [Hc|Hnc].
  { left. eexists. split; [|reflexivity]. simpl. auto 10. }
  right. right. exists user_data, (String c aid'), addr.
  constructor; auto. rewrite Hcart. discriminate.
Qed.

(** Past the first checks there are four runs: a line without name stops
    validation, validation changes the cart, the identifier loops find no
    free identifier in the random values they get, or the order is placed. *)
Lemma place_order_cases env session data w user_data aid addr :
  reaches_validation session data (w_db w) user_data aid addr ->
  (existsb (line_adjusted (stockitems (w_db w))) (user_cart_items user_data)
   = true
   /\ place_order env session data w = Ret place_order_failed w)
  \/ (existsb (line_adjusted (stockitems (w_db w))) (user_cart_items user_data)
      = true
      /\ place_order env session data w
         = Ret (cart_updated (stockitems (w_db w)) (user_cart_items user_data))
             (cart_written (safe_email_key (user_email session))
                (omap (line_kept (stockitems (w_db w)))
                   (user_cart_items user_data))
                w))
  \/ (existsb (line_adjusted (stockitems (w_db w))) (user_cart_items user_data)
      = false
      /\ (place_order env session data w = Loops
          \/ exists order_id invoice_id w1 w2 raw w3,
               generate_unique_id "ORD" "orders" w = Ret order_id w1
               /\ generate_unique_id "INV" "invoices" w1 = Ret invoice_id w2
               /\ draw w2 = Ret raw w3)).
Proof.
  intros Hreach.
  set (catalog := stockitems (w_db w)). set (cart := user_cart_items user_data).
  destruct (validate_cart catalog cart (mkValidation [] [] false) w)
    as [v w0|e w0|] eqn:Hv.
  - pose proof (validate_cart_ret _ _ _ _ _ _ Hv) as (-> & Hk & Hm & Hf).
    simpl in Hk, Hm, Hf.
    destruct (existsb (line_adjusted catalog) cart) eqn:Hadj.
    + right. left. split; [reflexivity|].
      rewrite (place_order_reaches _ _ _ _ _ _ _ Hreach).
      unfold try_except, checkout, bind. fold catalog cart.
      rewrite Hv, Hf. unfold set_ref, update, ret, cart_updated, cart_written.
      cbn [w_db w_draws w_outbox w_writes]. now rewrite Hk, Hm.
    + right. right. split; [reflexivity|].
      destruct (price_cart_clean catalog cart (mkPricing 0 [] ∅) w Hadj)
        as (items & Hprice & Hsnap).
      assert (Hitems : items <> []).
      { intros ->. apply Forall2_nil_inv_r in Hsnap.
        exact (reach_cart _ _ _ _ _ _ Hreach Hsnap). }
      assert (Hrun :
        place_order env session data w = Loops
        \/ exists order_id w1,
             generate_unique_id "ORD" "orders" w = Ret order_id w1
             /\ (place_order env session data w = Loops
                 \/ exists invoice_id w2,
                      generate_unique_id "INV" "invoices" w1
                      = Ret invoice_id w2
                      /\ (place_order env session data w = Loops
                          \/ exists raw w3, draw w2 = Ret raw w3))).
      { rewrite (place_order_reaches _ _ _ _ _ _ _ Hreach).
        unfold try_except, checkout, bind. fold catalog cart.
        rewrite (validate_cart_clean _ _ _ w Hadj).
        cbn [cart_was_modified validated_cart app]. rewrite Hprice.
        cbn [order_items_details total_price stock_updates app Z.add].
        destruct items as [|order_item items']; [contradiction|].
        destruct (generate_unique_id "ORD" "orders" w)
          as [order_id w1|e w1|] eqn:Hord;
          [|now apply generate_unique_id_no_raise in Hord | now left].
        right. exists order_id, w1. split; [reflexivity|].
        destruct (generate_unique_id "INV" "invoices" w1)
          as [invoice_id w2|e w2|] eqn:Hinv;
          [|now apply generate_unique_id_no_raise in Hinv | now left].
        right. exists invoice_id, w2. split; [reflexivity|].
        destruct (draw w2) as [raw w3|e w3|] eqn:Hdraw;
          [|now apply draw_no_raise in Hdraw | now left].
        right. now exists raw, w3. }
      destruct Hrun as [HL | (order_id & w1 & Hord & [HL | Hrun])];
        [now left | now left |].
      destruct Hrun as (invoice_id & w2 & Hinv & [HL | (raw & w3 & Hdraw)]);
        [now left |].
      right. now exists order_id, invoice_id, w1, w2, raw, w3.
  - pose proof (validate_cart_raise _ _ _ _ _ _ Hv) as [-> ->]. left.
    split.
    { destruct (existsb (line_adjusted catalog) cart) eqn:Hadj; [reflexivity|].
      rewrite (validate_cart_clean _ _ _ w Hadj) in Hv. discriminate Hv. }
    rewrite (place_order_reaches _ _ _ _ _ _ _ Hreach).
    unfold try_except, checkout, bind. fold catalog cart.
    rewrite Hv. reflexivity.
  - now apply validate_cart_not_loops in Hv.
Qed.

(** ** Cart validation, completely *)

(** X5.  On a cart whose lines all hold a string [id] and an integer
    [quantity] (the lines that [CartItem] describes; the key [name] may be
    missing), the validation loop of [place_order] reads no state and treats
    every cart line on its own, in cart order.  It stops with
    [KeyError('name')] exactly when some line that it drops for lack of
    stock, or clamps, has no key [name]; otherwise the kept and the clamped
    lines are appended to the validated cart, one message is recorded for
    each dropped or clamped line, and the cart counts as modified when it
    did before or some line was dropped or clamped. *)
Theorem validate_cart_outcome catalog : forall cart st w,
  validate_cart catalog cart st w
  = if List.forallb
         (fun item => negb (reads_name catalog item) || has_name item) cart
    then Ret (mkValidation
                (validated_cart st ++ omap (line_kept catalog) cart)
                (adjustments_made st ++ omap (line_message catalog) cart)
                (cart_was_modified st || existsb (line_adjusted catalog) cart))
           w
    else Raise (KeyError "name") w.
Proof.
  induction cart as [|item rest IH]; intros st w.
  - simpl. rewrite !app_nil_r, orb_false_r. now destruct st.
  - cbn [validate_cart List.forallb omap list_omap existsb].
    fold (omap (line_kept catalog) rest).
    fold (omap (line_message catalog) rest).
    unfold reads_name, has_name, line_kept, line_message, line_adjusted,
      current_stock_of.
    unfold reads_name, has_name, line_kept, line_message, line_adjusted,
      current_stock_of in IH.
    destruct (catalog !! item_id item) as [product|] eqn:Hp.
    + destruct (default 0 (prod_availableStock product) <=? 0) eqn:Hs.
      * unfold bind, subscript_name.
        destruct (item_name item) as [name|]; cbn; [|reflexivity].
        rewrite IH. cbn. now rewrite <- app_assoc, orb_true_r.
      * destruct (item_quantity item >? default 0 (prod_availableStock product))
          eqn:Hq.
        -- unfold bind, subscript_name.
           destruct (item_name item) as [name|]; cbn; [|reflexivity].
           rewrite IH. cbn. now rewrite <- !app_assoc, orb_true_r.
        -- cbn. rewrite IH. cbn. now rewrite <- app_assoc.
    + cbn. rewrite IH. cbn. now rewrite <- app_assoc, orb_true_r.
Qed.


(** ** What [place_order] answers *)

Lemma place_order_rejections_status r :
  In r place_order_rejections ->
  In (status_code r) [400; 401; 404; 500] /\ r <> all_out_of_stock.
Proof.
  unfold place_order_rejections. simpl.
  intros [<-|[<-|[<-|[<-|[<-|[<-|[]]]]]]]; simpl; split; auto 10;
    discriminate.
Qed.

(** X6.  Whenever [place_order] answers, the code is one of 200, 400, 401,
    404, 409 and 500; and when the code is 400, 401 or 404, the database,
    the random generator, the mail log and the log of write calls are as
    before. *)
Theorem place_order_answers env session data w r w' :
  place_order env session data w = Ret r w' ->
  In (status_code r) [200; 400; 401; 404; 409; 500]
  /\ (In (status_code r) [400; 401; 404] -> w' = w).
Proof.
  intros Hrun.
  destruct (place_order_first_checks env session data w)
    as [(r0 & Hr & Hrun0) | [[_ Hraise] | (user_data & aid & addr & Hreach)]];
    [| rewrite Hraise in Hrun; discriminate Hrun |].
  - rewrite Hrun0 in Hrun. injection Hrun as <- <-.
    apply place_order_rejections_status in Hr as [Hr _]. split; [|auto].
    simpl in Hr. simpl. intuition.
  - destruct (place_order_cases env _ _ _ _ _ _ Hreach)
      as [[_ H] | [[_ H] | [Hclean [H | H]]]].
    + rewrite H in Hrun. injection Hrun as <- <-.
      simpl. split; [auto 10|]. intros [H'|[H'|[H'|[]]]]; discriminate H'.
    + rewrite H in Hrun. injection Hrun as <- _.
      simpl. split; [auto 10|]. intros [H'|[H'|[H'|[]]]]; discriminate H'.
    + rewrite H in Hrun. discriminate Hrun.
    + destruct H as (order_id & invoice_id & w1 & w2 & raw & w3
                     & Hord & Hinv & Hdraw).
      destruct (place_order_clean_run env _ _ _ _ _ _ _ _ _ _ _ _
                  Hreach Hclean Hord Hinv Hdraw) as (items & _ & H).
      rewrite H in Hrun. injection Hrun as <- _.
      simpl. split; [auto|]. intros [H'|[H'|[H'|[]]]]; discriminate H'.
Qed.

Lemma place_order_answers_witness :
  In (status_code (error_response 400 "Your cart is empty."))
    [200; 400; 401; 404; 409; 500]
  /\ (In (status_code (error_response 400 "Your cart is empty."))
        [400; 401; 404] ->
      sample_world [] [] = sample_world [] []).
Proof.
  apply (place_order_answers sample_env alice_session
           (BodyObject (Some "addr1")) (sample_world [] [])).
  vm_compute. reflexivity.
Defined.

(** X7.  [place_order] never answers that all items of the cart are out of
    stock: the check of the order lines comes after a validation pass that
    changed nothing, on a cart that is not empty, so the order has a line
    for every cart line. *)
Theorem place_order_never_all_out_of_stock env session data w r w' :
  place_order env session data w = Ret r w' -> r <> all_out_of_stock.
Proof.
  intros Hrun.
  destruct (place_order_first_checks env session data w)
    as [(r0 & Hr & Hrun0) | [[_ Hraise] | (user_data & aid & addr & Hreach)]];
    [| rewrite Hraise in Hrun; discriminate Hrun |].
  - rewrite Hrun0 in Hrun. injection Hrun as <- _.
    now apply place_order_rejections_status in Hr.
  - destruct (place_order_cases env _ _ _ _ _ _ Hreach)
      as [[_ H] | [[_ H] | [Hclean [H | H]]]].
    + rewrite H in Hrun. injection Hrun as <- _. discriminate.
    + rewrite H in Hrun. injection Hrun as <- _. discriminate.
    + rewrite H in Hrun. discriminate Hrun.
    + destruct H as (order_id & invoice_id & w1 & w2 & raw & w3
                     & Hord & Hinv & Hdraw).
      destruct (place_order_clean_run env _ _ _ _ _ _ _ _ _ _ _ _
                  Hreach Hclean Hord Hinv Hdraw) as (items & _ & H).
      rewrite H in Hrun. injection Hrun as <- _. discriminate.
Qed.

Lemma place_order_never_all_out_of_stock_witness :
  exists w',
    place_order sample_env alice_session (BodyObject (Some "addr1"))
      (sample_world scenario_cart [4213%N; 77%N; 2%N])
    = Ret (mkResponse 200 (OrderPlacedBody "ORD04213" "INV00077")) w'
    /\ mkResponse 200 (OrderPlacedBody "ORD04213" "INV00077")
       <> all_out_of_stock.
Proof.
  eexists. split; [vm_compute; reflexivity|].
  eapply (place_order_never_all_out_of_stock sample_env alice_session
            (BodyObject (Some "addr1")) (sample_world scenario_cart [4213%N; 77%N; 2%N])).
  vm_compute. reflexivity.
Defined.

(** The stored document of the user after a write of the cart. *)
Lemma set_cart_user db safe_key user_data cart :
  users db !! safe_key = Some user_data ->
  users (apply_update [SetCart safe_key cart] db) !! safe_key
  = Some (mkUser (user_name user_data) (user_orders user_data) cart
            (user_shipping_address user_data) (user_order_history user_data))
  /\ stockitems (apply_update [SetCart safe_key cart] db) = stockitems db.
Proof.
  intros Hu. unfold apply_update. cbn [fold_left apply_write].
  unfold with_user, with_users, user_at. cbn [users stockitems].
  rewrite lookup_insert_eq, Hu. auto.
Qed.



(** ** What the writes leave alone *)

Lemma apply_update_cons write writes db :
  apply_update (write :: writes) db = apply_update writes (apply_write db write).
Proof. reflexivity. Qed.

(** A write that releases no identifier keeps every identifier reserved. *)
Lemma id_reserved_write db write id_type id :
  releases_id write = false ->
  id_reserved db id_type id = true ->
  id_reserved (apply_write db write) id_type id = true.
Proof.
  intros Hw H. destruct write as [| | |t i flag| | |]; try exact H.
  destruct flag; [|discriminate Hw]. clear Hw.
  unfold id_reserved in *. cbn [apply_write existing_ids].
  destruct (decide (t = id_type)) as [->|Ht].
  - rewrite lookup_insert_eq.
    destruct (decide (i = id)) as [->|Hi].
    + now rewrite lookup_insert_eq.
    + rewrite lookup_insert_ne by exact Hi.
      destruct (existing_ids db !! id_type); [exact H | discriminate H].
  - now rewrite lookup_insert_ne.
Qed.

Lemma id_reserved_update : forall writes db id_type id,
  Forall (fun write => releases_id write = false) writes ->
  id_reserved db id_type id = true ->
  id_reserved (apply_update writes db) id_type id = true.
Proof.
  induction writes as [|write writes IH]; intros db id_type id Hw H;
    [exact H|].
  inversion Hw as [|? ? H1 H2]; subst. rewrite apply_update_cons.
  apply IH; [exact H2|]. now apply id_reserved_write.
Qed.

(** A write in the document of one user leaves the others as they are. *)
Lemma users_write db write safe_key :
  written_user write <> Some safe_key ->
  users (apply_write db write) !! safe_key = users db !! safe_key.
Proof.
  intros Hw.
  destruct write; cbn [apply_write users with_user with_users]; try reflexivity;
    apply lookup_insert_ne; intros ->; now apply Hw.
Qed.

Lemma users_update : forall writes db safe_key,
  Forall (fun write => written_user write <> Some safe_key) writes ->
  users (apply_update writes db) !! safe_key = users db !! safe_key.
Proof.
  induction writes as [|write writes IH]; intros db safe_key Hw;
    [reflexivity|].
  inversion Hw as [|? ? H1 H2]; subst. rewrite apply_update_cons.
  rewrite IH by exact H2. now apply users_write.
Qed.

(** No write creates or deletes a product, or changes more of a product
    than its stock. *)
Lemma product_card_write db write product_id :
  product_card <$> stockitems (apply_write db write) !! product_id
  = product_card <$> stockitems db !! product_id.
Proof.
  destruct write as [| | | |p n| |]; try reflexivity.
  cbn [apply_write stockitems].
  destruct (decide (p = product_id)) as [->|Hne].
  - rewrite lookup_alter_eq. now destruct (stockitems db !! product_id).
  - now rewrite lookup_alter_ne.
Qed.

Lemma product_card_update : forall writes db product_id,
  product_card <$> stockitems (apply_update writes db) !! product_id
  = product_card <$> stockitems db !! product_id.
Proof.
  induction writes as [|write writes IH]; intros db product_id;
    [reflexivity|].
  rewrite apply_update_cons, IH. apply product_card_write.
Qed.

(** Only the deletion of a waitlist entry changes a waitlist. *)
Lemma notifications_write db write :
  (forall product_id safe_key,
      write <> DeleteNotification product_id safe_key) ->
  stock_notifications (apply_write db write) = stock_notifications db.
Proof.
  intros Hw. destruct write as [| | | | | |p k]; try reflexivity.
  now contradiction (Hw p k).
Qed.

Lemma stock_writes_release (updates : gmap string Z) :
  Forall (fun write => releases_id write = false) (stock_writes updates).
Proof.
  unfold stock_writes. apply Forall_fmap. apply Forall_forall.
  intros kv _. reflexivity.
Qed.

(** No write changes the name or an address of a user. *)
Lemma user_profile_write db write safe_key :
  user_name (user_at (apply_write db write) safe_key)
  = user_name (user_at db safe_key)
  /\ user_shipping_address (user_at (apply_write db write) safe_key)
     = user_shipping_address (user_at db safe_key).
Proof.
  destruct write as [k ? ?|k ?|k ?| | |k ? ? ? ?|]; try (split; reflexivity);
    unfold user_at; cbn [apply_write users with_user with_users];
    (destruct (decide (k = safe_key)) as [->|Hne];
     [rewrite lookup_insert_eq | rewrite lookup_insert_ne by exact Hne];
     split; reflexivity).
Qed.

Lemma user_profile_update : forall writes db safe_key,
  user_name (user_at (apply_update writes db) safe_key)
  = user_name (user_at db safe_key)
  /\ user_shipping_address (user_at (apply_update writes db) safe_key)
     = user_shipping_address (user_at db safe_key).
Proof.
  induction writes as [|write writes IH]; intros db safe_key; [auto|].
  rewrite apply_update_cons.
  destruct (IH (apply_write db write) safe_key) as [-> ->].
  apply user_profile_write.
Qed.

(** What the writes of a checkout leave alone. *)
Lemma checkout_writes_frame safe_key : forall writes db,
  Forall (checkout_write safe_key) writes ->
  (forall k, k <> safe_key ->
      users (apply_update writes db) !! k = users db !! k)
  /\ stock_notifications (apply_update writes db) = stock_notifications db
  /\ (forall id_type id,
         id_reserved db id_type id = true ->
         id_reserved (apply_update writes db) id_type id = true).
Proof.
  induction writes as [|write writes IH]; intros db Hw; [auto|].
  inversion Hw as [|? ? (Hrel & Huser & Hdel) Hrest]; subst.
  rewrite apply_update_cons.
  destruct (IH (apply_write db write) Hrest) as (Hu & Hn & Hi).
  split; [|split].
  - intros k Hk. rewrite (Hu k Hk). apply users_write.
    intros Hwu. apply Hk. now apply Huser.
  - rewrite Hn. now apply notifications_write.
  - intros id_type id H. apply Hi. now apply id_reserved_write.
Qed.

Lemma commit_updates_checkout safe_key order_id invoice_id order_data
    user_data :
  Forall (checkout_write safe_key)
    (commit_updates safe_key order_id invoice_id order_data user_data).
Proof.
  unfold commit_updates, checkout_write.
  repeat constructor; cbn; try congruence; intros; congruence.
Qed.

Lemma stock_writes_checkout safe_key (updates : gmap string Z) :
  Forall (checkout_write safe_key) (stock_writes updates).
Proof.
  unfold stock_writes. apply Forall_fmap. apply Forall_forall.
  intros kv _. unfold checkout_write. cbn.
  split; [reflexivity|]. split; intros; congruence.
Qed.

Lemma apply_update_app writes1 writes2 db :
  apply_update (writes1 ++ writes2) db
  = apply_update writes2 (apply_update writes1 db).
Proof. unfold apply_update. apply fold_left_app. Qed.

(** X9.  Whatever [place_order] answers, it has changed no document of
    another user, no name and no address of its own user, no waitlist, and
    of the products nothing but stocks (no product is created or deleted);
    every identifier that was reserved still is; and the mails it sent, if
    any, went to the address of the session. *)
Theorem place_order_frame env session data w r w' :
  place_order env session data w = Ret r w' ->
  (forall safe_key,
      safe_key <> safe_email_key (user_email session) ->
      users (w_db w') !! safe_key = users (w_db w) !! safe_key)
  /\ (forall safe_key,
         user_name (user_at (w_db w') safe_key)
         = user_name (user_at (w_db w) safe_key)
         /\ user_shipping_address (user_at (w_db w') safe_key)
            = user_shipping_address (user_at (w_db w) safe_key))
  /\ stock_notifications (w_db w') = stock_notifications (w_db w)
  /\ (forall id_type id,
         id_reserved (w_db w) id_type id = true ->
         id_reserved (w_db w') id_type id = true)
  /\ (forall product_id,
         product_card <$> stockitems (w_db w') !! product_id
         = product_card <$> stockitems (w_db w) !! product_id)
  /\ exists mails,
       w_outbox w' = (w_outbox w ++ mails)%list
       /\ Forall (eq (user_email session)) (receivers mails).
Proof.
  intros Hrun.
  assert (Hframe : exists writes mails,
             Forall (checkout_write (safe_email_key (user_email session)))
               writes
             /\ w_db w' = apply_update writes (w_db w)
             /\ w_outbox w' = (w_outbox w ++ mails)%list
             /\ Forall (eq (user_email session)) (receivers mails)).
  { destruct (place_order_first_checks env session data w)
      as [(r0 & Hr & Hrun0) | [[_ Hraise] | (user_data & aid & addr & Hreach)]];
      [| rewrite Hraise in Hrun; discriminate Hrun |].
    { rewrite Hrun0 in Hrun. injection Hrun as _ <-.
      exists [], []. rewrite app_nil_r. repeat split; constructor. }
    destruct (place_order_cases env _ _ _ _ _ _ Hreach)
      as [[_ H] | [[_ H] | [Hclean [H | H]]]].
    - rewrite H in Hrun. injection Hrun as _ <-.
      exists [], []. rewrite app_nil_r. repeat split; constructor.
    - rewrite H in Hrun.
      exists [SetCart (safe_email_key (user_email session))
                (omap (line_kept (stockitems (w_db w)))
                   (user_cart_items user_data))], [].
      assert (Hw : w' = cart_written (safe_email_key (user_email session))
                          (omap (line_kept (stockitems (w_db w)))
                             (user_cart_items user_data))
                          w) by congruence.
      subst w'. rewrite app_nil_r. cbn [w_db w_outbox].
      split; [|split; [reflexivity|split; [reflexivity|constructor]]].
      repeat constructor; cbn; congruence.
    - rewrite H in Hrun. discriminate Hrun.
    - destruct H as (order_id & invoice_id & w1 & w2 & raw & w3
                     & Hord & Hinv & Hdraw).
      destruct (place_order_clean_run env _ _ _ _ _ _ _ _ _ _ _ _
                  Hreach Hclean Hord Hinv Hdraw) as (items & _ & H).
      rewrite H in Hrun.
      match type of Hrun with
      | Ret _ (mkWorld (apply_update ?b (apply_update ?a _)) ?d (_ ++ ?m) ?l)
        = _ =>
          exists (a ++ b)%list, m;
          assert (Hw : w' = mkWorld (apply_update b (apply_update a (w_db w)))
                              d (w_outbox w ++ m)%list l) by congruence
      end.
      subst w'. cbn [w_db w_outbox].
      split; [|split; [symmetry; apply apply_update_app|split; [reflexivity|]]].
      + apply Forall_app. split;
          [apply commit_updates_checkout | apply stock_writes_checkout].
      + repeat constructor. }
  destruct Hframe as (writes & mails & Hw & Hdb & Hout & Hmails).
  rewrite Hdb.
  destruct (checkout_writes_frame _ writes (w_db w) Hw) as (Hu & Hn & Hi).
  split; [exact Hu|]. split; [intros k; apply user_profile_update|].
  split; [exact Hn|]. split; [exact Hi|].
  split; [intros p; apply product_card_update|].
  exists mails. auto.
Qed.

Lemma place_order_frame_witness :
  exists w',
    place_order sample_env alice_session (BodyObject (Some "addr1"))
      (sample_world scenario_cart [4213%N; 77%N; 2%N])
    = Ret (mkResponse 200 (OrderPlacedBody "ORD04213" "INV00077")) w'
    /\ stock_notifications (w_db w')
       = stock_notifications
           (w_db (sample_world scenario_cart [4213%N; 77%N; 2%N])).
Proof.
  eexists. split; [vm_compute; reflexivity|].
  match goal with
  | |- stock_notifications (w_db ?w1) = _ =>
      destruct (place_order_frame sample_env alice_session (BodyObject (Some "addr1"))
                  (sample_world scenario_cart [4213%N; 77%N; 2%N])
                  (mkResponse 200 (OrderPlacedBody "ORD04213" "INV00077")) w1)
        as (_ & _ & Hn & _); [vm_compute; reflexivity | exact Hn]
  end.
Defined.

(** ** Orders and their identifiers *)

(** The document of the user after the five writes of the commit. *)
Lemma commit_updates_user db safe_key order_id invoice_id order_data user_data :
  users db !! safe_key = Some user_data ->
  users
    (apply_update
       (commit_updates safe_key order_id invoice_id order_data user_data) db)
    !! safe_key
  = Some (mkUser (user_name user_data)
            (Some (default 0 (user_orders user_data) + 1)) []
            (user_shipping_address user_data)
            (<[order_id := order_data]> (user_order_history user_data))).
Proof.
  intros Hu. unfold commit_updates, apply_update.
  cbn [fold_left apply_write]. unfold user_at, with_user, with_users.
  cbn [users].
  repeat (rewrite !lookup_insert_eq;
          cbn [default from_option user_name user_orders user_cart_items
                 user_shipping_address user_order_history]).
  rewrite Hu. reflexivity.
Qed.

(** A placed order: what was read and what is stored. *)
Lemma place_order_placed env session data w r w' :
  place_order env session data w = Ret r w' ->
  status_code r = 200 ->
  exists user_data order_id invoice_id order_data,
    r = mkResponse 200 (OrderPlacedBody order_id invoice_id)
    /\ users (w_db w) !! safe_email_key (user_email session) = Some user_data
    /\ id_reserved (w_db w) "orders" order_id = false
    /\ id_reserved (w_db w) "invoices" invoice_id = false
    /\ users (w_db w') !! safe_email_key (user_email session)
       = Some (mkUser (user_name user_data)
                 (Some (default 0 (user_orders user_data) + 1)) []
                 (user_shipping_address user_data)
                 (<[order_id := order_data]> (user_order_history user_data)))
    /\ ord_orderId order_data = order_id
    /\ ord_invoiceId order_data = invoice_id
    /\ id_reserved (w_db w') "orders" order_id = true
    /\ id_reserved (w_db w') "invoices" invoice_id = true.
Proof.
  intros Hrun Hcode.
  destruct (place_order_first_checks env session data w)
    as [(r0 & Hr & Hrun0) | [[_ Hraise] | (user_data & aid & addr & Hreach)]];
    [| rewrite Hraise in Hrun; discriminate Hrun |].
  { rewrite Hrun0 in Hrun. injection Hrun as <- _.
    apply place_order_rejections_status in Hr as [Hr _].
    rewrite Hcode in Hr. simpl in Hr. intuition discriminate. }
  destruct (place_order_cases env _ _ _ _ _ _ Hreach)
    as [[_ H] | [[_ H] | [Hclean [H | H]]]].
  - rewrite H in Hrun. injection Hrun as <- _. discriminate Hcode.
  - rewrite H in Hrun. injection Hrun as <- _. discriminate Hcode.
  - rewrite H in Hrun. discriminate Hrun.
  - destruct H as (order_id & invoice_id & w1 & w2 & raw & w3
                   & Hord & Hinv & Hdraw).
    destruct (place_order_clean_run env _ _ _ _ _ _ _ _ _ _ _ _
                Hreach Hclean Hord Hinv Hdraw) as (items & _ & H).
    rewrite H in Hrun.
    pose proof (reach_user _ _ _ _ _ _ Hreach) as Huser.
    set (order_data :=
           order_of env order_id invoice_id (choice order_statuses raw) items
             addr (items_total items)) in *.
    set (safe_key := safe_email_key (user_email session)) in *.
    set (updates :=
           stock_updates_of (stockitems (w_db w)) (user_cart_items user_data) ∅)
      in *.
    assert (Hw : w_db w'
                 = apply_update (stock_writes updates)
                     (apply_update
                        (commit_updates safe_key order_id invoice_id order_data
                           user_data)
                        (w_db w))).
    { injection Hrun as _ <-. reflexivity. }
    assert (Hr : r = mkResponse 200 (OrderPlacedBody order_id invoice_id))
      by congruence.
    clear Hrun H.
    exists user_data, order_id, invoice_id, order_data.
    unfold generate_unique_id in Hord, Hinv.
    apply generate_loop_ret in Hord as (_ & Hfree1 & Hdb1 & _).
    apply generate_loop_ret in Hinv as (_ & Hfree2 & _ & _).
    rewrite Hdb1 in Hfree2.
    destruct (commit_updates_effect (w_db w) safe_key order_id invoice_id
                order_data user_data Huser)
      as (_ & _ & _ & Hres1 & Hres2 & _ & _).
    split; [exact Hr|]. split; [exact Huser|].
    split; [exact Hfree1|]. split; [exact Hfree2|].
    rewrite Hw. split; [|split; [reflexivity|split; [reflexivity|split]]].
    + unfold stock_writes.
      destruct (stock_writes_keep (map_to_list updates)
                  (apply_update
                     (commit_updates safe_key order_id invoice_id order_data
                        user_data) (w_db w))) as (-> & _ & _).
      now apply commit_updates_user.
    + apply id_reserved_update; [apply stock_writes_release | exact Hres1].
    + apply id_reserved_update; [apply stock_writes_release | exact Hres2].
Qed.



(** A run that places no order writes nothing, or writes the cart. *)
Lemma place_order_not_placed env session data w r w' :
  place_order env session data w = Ret r w' ->
  status_code r <> 200 ->
  w' = w
  \/ exists user_data cart,
       users (w_db w) !! safe_email_key (user_email session) = Some user_data
       /\ w_db w'
          = apply_update [SetCart (safe_email_key (user_email session)) cart]
              (w_db w).
Proof.
  intros Hrun Hcode.
  destruct (place_order_first_checks env session data w)
    as [(r0 & Hr & Hrun0) | [[_ Hraise] | (user_data & aid & addr & Hreach)]];
    [| rewrite Hraise in Hrun; discriminate Hrun |].
  { left. congruence. }
  destruct (place_order_cases env _ _ _ _ _ _ Hreach)
    as [[_ H] | [[_ H] | [Hclean [H | H]]]].
  - left. congruence.
  - right. exists user_data. eexists.
    split; [exact (reach_user _ _ _ _ _ _ Hreach)|].
    rewrite H in Hrun. injection Hrun as _ <-. reflexivity.
  - congruence.
  - destruct H as (order_id & invoice_id & w1 & w2 & raw & w3
                   & Hord & Hinv & Hdraw).
    destruct (place_order_clean_run env _ _ _ _ _ _ _ _ _ _ _ _
                Hreach Hclean Hord Hinv Hdraw) as (items & _ & H).
    rewrite H in Hrun. injection Hrun as <- _. now contradiction Hcode.
Qed.

(** X11.  [place_order] keeps the order counters right.  If every order id
    of a history is in the index of identifiers, this is so after
    [place_order], whatever it answers, and every user whose counter
    [orders] was the number of orders in the history still has such a
    counter: a placed order gets an identifier that is in no history, so it
    replaces no order and the history grows by one as the counter does. *)
Theorem place_order_keeps_counter env session data w r w' :
  place_order env session data w = Ret r w' ->
  orders_indexed (w_db w) ->
  orders_indexed (w_db w')
  /\ forall safe_key u,
       users (w_db w) !! safe_key = Some u -> counter_matches u ->
       exists u', users (w_db w') !! safe_key = Some u' /\ counter_matches u'.
Proof.
  intros Hrun Hidx.
  set (key := safe_email_key (user_email session)).
  destruct (Z.eq_dec (status_code r) 200) as [Hcode|Hcode].
  - destruct (place_order_placed _ _ _ _ _ _ Hrun Hcode)
      as (user_data & order_id & invoice_id & order_data & _ & Huser & Hfree
          & _ & Huser' & _ & _ & Hres & _).
    fold key in Huser, Huser'.
    destruct (place_order_frame _ _ _ _ _ _ Hrun) as (Hothers & _ & _ & Hmono & _).
    fold key in Hothers.
    assert (Hnew : user_order_history user_data !! order_id = None).
    { destruct (user_order_history user_data !! order_id) eqn:E; [|reflexivity].
      rewrite (Hidx key user_data order_id Huser) in Hfree;
        [discriminate | now rewrite E]. }
    split.
    + intros k u id Hu Hid.
      destruct (decide (k = key)) as [->|Hk].
      * rewrite Huser' in Hu. injection Hu as <-.
        cbn [user_order_history] in Hid.
        destruct (decide (order_id = id)) as [<-|Hne]; [exact Hres|].
        rewrite lookup_insert_ne in Hid by exact Hne.
        apply Hmono. exact (Hidx key user_data id Huser Hid).
      * rewrite (Hothers k Hk) in Hu. apply Hmono.
        exact (Hidx k u id Hu Hid).
    + intros k u Hu Hcount.
      destruct (decide (k = key)) as [->|Hk].
      * rewrite Huser in Hu. injection Hu as <-.
        eexists. split; [exact Huser'|].
        unfold counter_matches in *. cbn [user_orders user_order_history].
        rewrite map_size_insert_None by exact Hnew.
        change (default 0 (user_orders user_data) + 1
                = Z.of_nat (S (size (user_order_history user_data)))).
        rewrite Hcount. lia.
      * exists u. split; [|exact Hcount]. now rewrite (Hothers k Hk).
  - destruct (place_order_not_placed _ _ _ _ _ _ Hrun Hcode)
      as [-> | (user_data & cart & Huser & Hdb)].
    + split; [exact Hidx|]. intros k u Hu Hcount. now exists u.
    + fold key in Huser, Hdb. rewrite Hdb.
      destruct (set_cart_user (w_db w) key user_data cart Huser) as [Hu' _].
      assert (Hids : forall id,
                 id_reserved (apply_update [SetCart key cart] (w_db w))
                   "orders" id
                 = id_reserved (w_db w) "orders" id) by reflexivity.
      split.
      * intros k u id Hu Hid. rewrite Hids.
        destruct (decide (k = key)) as [->|Hk].
        -- rewrite Hu' in Hu. injection Hu as <-.
           exact (Hidx key user_data id Huser Hid).
        -- rewrite (users_update [SetCart key cart]) in Hu
             by (repeat constructor; cbn; congruence).
           exact (Hidx k u id Hu Hid).
      * intros k u Hu Hcount.
        destruct (decide (k = key)) as [->|Hk].
        -- rewrite Huser in Hu. injection Hu as <-.
           eexists. split; [exact Hu'|exact Hcount].
        -- exists u. split; [|exact Hcount].
           rewrite (users_update [SetCart key cart])
             by (repeat constructor; cbn; congruence).
           exact Hu.
Qed.

Lemma sample_orders_indexed cart : orders_indexed (sample_db cart).
Proof.
  intros k u order_id Hu Hid. unfold sample_db in Hu. cbn [users] in Hu.
  destruct (decide (k = "alice@example_com")) as [->|Hk].
  - rewrite lookup_insert_eq in Hu. injection Hu as <-.
    cbn [customer user_order_history] in Hid.
    rewrite lookup_empty in Hid. now destruct Hid.
  - rewrite lookup_insert_ne in Hu by congruence.
    rewrite lookup_empty in Hu. discriminate Hu.
Defined.

Lemma place_order_keeps_counter_witness :
  exists w' u',
    place_order sample_env alice_session (BodyObject (Some "addr1"))
      (sample_world scenario_cart [4213%N; 77%N; 2%N])
    = Ret (mkResponse 200 (OrderPlacedBody "ORD04213" "INV00077")) w'
    /\ users (w_db w') !! "alice@example_com" = Some u'
    /\ counter_matches u'.
Proof.
  eexists.
  match goal with
  | |- exists u', ?run = Ret ?r ?w1 /\ _ =>
      assert (Hrun : run = Ret r w1) by (vm_compute; reflexivity);
      destruct (place_order_keeps_counter sample_env alice_session
                  (BodyObject (Some "addr1"))
                  (sample_world scenario_cart [4213%N; 77%N; 2%N]) r w1 Hrun
                  (sample_orders_indexed scenario_cart))
        as [_ Hcount];
      destruct (Hcount "alice@example_com" (customer scenario_cart)
                  ltac:(reflexivity) ltac:(reflexivity))
        as (u' & Hu' & Hc');
      exists u'; split; [exact Hrun | split; [exact Hu' | exact Hc']]
  end.
Defined.

(** ** The stock and the dispatch on the sample data *)

Lemma place_order_stock_distinct_witness :
  exists w',
    place_order sample_env alice_session (BodyObject (Some "addr1"))
      (sample_world scenario_cart [4213%N; 77%N; 2%N])
    = Ret (mkResponse 200 (OrderPlacedBody "ORD04213" "INV00077")) w'
    /\ forall product_id,
         product_id ∉ item_id <$> scenario_cart ->
         stock_of (w_db w') product_id
         = stock_of (w_db (sample_world scenario_cart [4213%N; 77%N; 2%N]))
             product_id.
Proof.
  destruct (place_order_stock_distinct sample_env alice_session (BodyObject (Some "addr1"))
              (sample_world scenario_cart [4213%N; 77%N; 2%N])
              (customer scenario_cart) "addr1" home_address
              "ORD04213" "INV00077"
              (sample_world scenario_cart [77%N; 2%N])
              (sample_world scenario_cart [2%N]) 2%N
              (sample_world scenario_cart [])
              (sample_reaches_validation scenario_cart _
                 ltac:(discriminate))
              ltac:(vm_compute; reflexivity)
              ltac:(apply NoDup_singleton)
              ltac:(vm_compute; reflexivity) ltac:(vm_compute; reflexivity)
              ltac:(vm_compute; reflexivity))
    as (w' & Hrun & _ & Hrest).
  exists w'. split; [exact Hrun | exact Hrest].
Defined.

Lemma waiting_db_keys_without_dot email name :
  keys_without_dot (stock_notifications (waiting_db email name)).
Proof.
  intros product_id safe_key Hin.
  unfold waiting_keys, waiting_db in Hin. cbn [stock_notifications] in Hin.
  destruct (decide (product_id = "item008")) as [->|Hne].
  - rewrite lookup_insert_eq, insert_empty, map_to_list_singleton in Hin.
    cbn in Hin. apply list_elem_of_singleton in Hin. subst safe_key.
    apply safe_email_key_no_dot.
  - rewrite lookup_insert_ne, lookup_empty in Hin by congruence.
    now apply elem_of_nil in Hin.
Defined.

Lemma handle_stock_notifications_by_key_witness :
  exists w',
    handle_stock_notifications [restocked_item008]
      (waiting_world "alice@example.com" "Alice")
    = Ret tt w'
    /\ waitlist (w_db w') "item008" = ∅.
Proof.
  destruct (handle_stock_notifications_by_key [restocked_item008]
              (waiting_world "alice@example.com" "Alice")
              (waiting_db_keys_without_dot "alice@example.com" "Alice")
              ltac:(apply insert_non_empty))
    as (batches & w' & Hrun & _ & _ & _ & _ & _ & Hempty & _).
  exists w'. split; [exact Hrun|].
  apply (Hempty restocked_item008). apply list_elem_of_singleton. reflexivity.
Defined.

(** ** The runs of [request_return], case by case *)

(** The first checks either answer, with nothing written, or let an
    exception of [json.loads] escape, or hand over to the status check. *)
Lemma request_return_first_checks env session form w :
  (exists r,
      In r request_return_rejections
      /\ request_return env session form w = Ret r w)
  \/ request_return env session form w = Raise RecursionError w
  \/ (exists user_data ai ci order_data,
         reaches_status_check session form (w_db w) user_data ai ci
           order_data).
Proof.
  unfold request_return, request_return_rejections.
  destruct (logged_in session) eqn:Hlog; cbn [negb].
  2:{ left. eexists. split; [|reflexivity]. simpl. auto 10. }
  destruct (form_addressInfo form) as [| | |ai] eqn:Hai;
    destruct (form_contactInfo form) as [| | |ci] eqn:Hci;
    try (right; left; reflexivity);
    try (left; eexists; split; [|reflexivity]; simpl; auto 10).
  destruct (String.eqb (form_orderId form) "") eqn:Hid; cbn [negb andb].
  { left. eexists. split; [|reflexivity]. simpl. auto 10. }
  destruct (String.eqb (form_reason form) "") eqn:Hreason; cbn [negb andb].
  { left. eexists. split; [|reflexivity]. simpl. auto 10. }
  destruct (form_videoFile form) eqn:Hvideo; cbn [negb].
  2:{ left. eexists. split; [|reflexivity]. simpl. auto 10. }
  unfold try_except, bind, get_db.
  destruct (users (w_db w) !! safe_email_key (user_email session))
    as [user_data|] eqn:Huser.
  2:{ left. eexists. split; [|reflexivity]. simpl. auto 10. }
  destruct (user_order_history user_data !! form_orderId form)
    as [order_data|] eqn:Horder.
  2:{ left. eexists. split; [|reflexivity]. simpl. auto 10. }
  right. right. exists user_data, ai, ci, order_data.
  apply String.eqb_neq in Hid, Hreason. constructor; auto.
Qed.

(** From the status check on: an answer 400 with nothing written, a
    delivery date that does not parse, or the end of the handler for an
    order delivered within the window. *)
Lemma process_return_cases env email safe_key name form ai ci order_data w :
  (exists r,
      status_code r = 400
      /\ process_return env email safe_key name form ai ci order_data w
         = Ret r w)
  \/ process_return env email safe_key name form ai ci order_data w
     = Raise ValueError w
  \/ (exists T,
         delivered_on order_data T
         /\ datetime_sub (env_now env) T <= timedelta_days return_window_days
         /\ process_return env email safe_key name form ai ci order_data w
            = finish_return env email safe_key name form
                (pickup_address ai order_data) (pickup_contact ci order_data)
                order_data w).
Proof.
  unfold process_return.
  destruct (bool_decide (ord_status order_data = Some "Return Requested")
            || bool_decide (ord_status order_data = Some "Returned")).
  { left. eexists. split; [|reflexivity]. reflexivity. }
  destruct (bool_decide (ord_status order_data = Some "Delivered")) eqn:Hs;
    cbn [negb].
  2:{ left. eexists. split; [|reflexivity]. reflexivity. }
  apply bool_decide_eq_true_1 in Hs.
  destruct (ord_deliveryDate order_data) as [[|c s]|] eqn:Hd.
  1,3: left; eexists; split; [|reflexivity]; reflexivity.
  destruct (strptime_d_b_Y (String c s)) as [T|] eqn:HT.
  2:{ right. left. reflexivity. }
  destruct (datetime_sub (env_now env) T >? timedelta_days return_window_days)
    eqn:Hgt.
  { left. eexists. split; [|reflexivity]. reflexivity. }
  right. right. exists T. split; [|split; [|reflexivity]].
  - split; [exact Hs|]. exists (String c s). split; [exact Hd|].
    split; [discriminate | exact HT].
  - rewrite Z.gtb_ltb in Hgt. now apply Z.ltb_ge in Hgt.
Qed.

(** The end of the handler: a free identifier is found, and then the upload
    fails, with nothing written, or the return is recorded. *)
Lemma finish_return_cases env email safe_key name form addr contact order_data
    w :
  finish_return env email safe_key name form addr contact order_data w = Loops
  \/ exists return_invoice_id w1,
       generate_unique_id "RET" "returns" w = Ret return_invoice_id w1
       /\ ((exists message,
               finish_return env email safe_key name form addr contact
                 order_data w
               = Ret (upload_failed message) w1)
           \/ (exists video_url,
                  finish_return env email safe_key name form addr contact
                    order_data w
                  = Ret (return_requested return_invoice_id)
                      (returned_world email safe_key name form
                         return_invoice_id
                         (return_details_of env form video_url addr contact)
                         order_data w w1))).
Proof.
  unfold finish_return, bind.
  destruct (generate_unique_id "RET" "returns" w) as [rid w1|e w1|] eqn:Hgen;
    [|now apply generate_unique_id_no_raise in Hgen | now left].
  right. exists rid, w1. split; [reflexivity|].
  destruct (generate_unique_id_keeps _ _ _ _ _ Hgen) as [Hdb Hout].
  pose proof (generate_unique_id_writes _ _ _ _ _ Hgen) as Hlog.
  destruct (upload_video_to_r2 env (form_videoFile form) name rid)
    as [video_url [[|c e]|]].
  - right. exists (default "" video_url).
    unfold update, set_ref, update, send, ret, returned_world, return_writes,
      return_details_of, return_requested.
    cbn [w_db w_draws w_outbox w_writes]. rewrite Hdb, Hout, Hlog.
    rewrite <- app_assoc. reflexivity.
  - left. exists (String c e). reflexivity.
  - right. exists (default "" video_url).
    unfold update, set_ref, update, send, ret, returned_world, return_writes,
      return_details_of, return_requested.
    cbn [w_db w_draws w_outbox w_writes]. rewrite Hdb, Hout, Hlog.
    rewrite <- app_assoc. reflexivity.
Qed.

(** Past the first checks there are five runs: an answer 400 or the answer
    500 to a delivery date that does not parse, with nothing written; an
    identifier loop that finds no free identifier; an upload that fails; a
    recorded return. *)
Lemma request_return_cases env session form w user_data ai ci order_data :
  reaches_status_check session form (w_db w) user_data ai ci order_data ->
  (exists r,
      (status_code r = 400 \/ r = request_return_failed)
      /\ request_return env session form w = Ret r w)
  \/ request_return env session form w = Loops
  \/ exists T return_invoice_id w1,
       delivered_on order_data T
       /\ datetime_sub (env_now env) T <= timedelta_days return_window_days
       /\ generate_unique_id "RET" "returns" w = Ret return_invoice_id w1
       /\ ((exists message,
               request_return env session form w
               = Ret (upload_failed message) w1)
           \/ (exists video_url,
                  request_return env session form w
                  = Ret (return_requested return_invoice_id)
                      (returned_world (user_email session)
                         (safe_email_key (user_email session))
                         (default "AnonymousUser" (user_name user_data))
                         form return_invoice_id
                         (return_details_of env form video_url
                            (pickup_address ai order_data)
                            (pickup_contact ci order_data))
                         order_data w w1))).
Proof.
  intros Hreach. rewrite (request_return_reaches _ _ _ _ _ _ _ _ Hreach).
  unfold try_except.
  destruct (process_return_cases env (user_email session)
              (safe_email_key (user_email session))
              (default "AnonymousUser" (user_name user_data)) form ai ci
              order_data w)
    as [(r & Hcode & ->) | [-> | (T & Hon & Hin & ->)]].
  - left. exists r. auto.
  - left. exists request_return_failed. auto.
  - destruct (finish_return_cases env (user_email session)
                (safe_email_key (user_email session))
                (default "AnonymousUser" (user_name user_data)) form
                (pickup_address ai order_data) (pickup_contact ci order_data)
                order_data w)
      as [-> | (rid & w1 & Hgen & [(message & ->) | (video_url & ->)])].
    + right. left. reflexivity.
    + right. right. exists T, rid, w1. eauto 10.
    + right. right. exists T, rid, w1. eauto 10.
Qed.

Lemma request_return_rejections_status r :
  In r request_return_rejections -> In (status_code r) [400; 401; 404].
Proof.
  unfold request_return_rejections. simpl.
  intros [<-|[<-|[<-|[<-|[<-|[]]]]]]; simpl; auto.
Qed.

(** X14.  Whenever [request_return] answers, the code is one of 200, 400,
    401, 404 and 500; and when the code is 400, 401 or 404, the database,
    the random generator, the mail log and the log of write calls are as
    before. *)
Theorem request_return_answers env session form w r w' :
  request_return env session form w = Ret r w' ->
  In (status_code r) [200; 400; 401; 404; 500]
  /\ (In (status_code r) [400; 401; 404] -> w' = w).
Proof.
  intros Hrun.
  destruct (request_return_first_checks env session form w)
    as [(r0 & Hr & Hrun0)
       | [Hraise | (user_data & ai & ci & order_data & Hreach)]];
    [| rewrite Hraise in Hrun; discriminate Hrun |].
  - rewrite Hrun0 in Hrun. injection Hrun as <- <-.
    apply request_return_rejections_status in Hr. split; [|auto].
    simpl in Hr. simpl. intuition.
  - destruct (request_return_cases env _ _ _ _ _ _ _ Hreach)
      as [(r0 & Hr & H) | [H | (T & rid & w1 & _ & _ & _ & H)]].
    + rewrite H in Hrun. injection Hrun as <- <-.
      split; [|auto]. destruct Hr as [-> | ->]; simpl; auto 10.
    + rewrite H in Hrun. discriminate Hrun.
    + destruct H as [(message & H) | (video_url & H)]; rewrite H in Hrun;
        injection Hrun as <- _; simpl.
      * split; [auto 10|]. intros [H'|[H'|[H'|[]]]]; discriminate H'.
      * split; [auto|]. intros [H'|[H'|[H'|[]]]]; discriminate H'.
Qed.

Lemma request_return_answers_witness :
  In (status_code window_expired) [200; 400; 401; 404; 500]
  /\ (In (status_code window_expired) [400; 401; 404] ->
      return_world delivered_19_oct [555%N]
      = return_world delivered_19_oct [555%N]).
Proof.
  apply (request_return_answers (env_on 4 true) alice_session return_form
           (return_world delivered_19_oct [555%N])).
  vm_compute. reflexivity.
Defined.

(** ** A recorded return *)

(** The database after the two writes of a return request. *)
Lemma return_writes_effect db safe_key form return_invoice_id return_details
    user_data :
  users db !! safe_key = Some user_data ->
  users
    (apply_update
       (return_writes safe_key form return_invoice_id return_details) db)
    !! safe_key
  = Some (mkUser (user_name user_data) (user_orders user_data)
            (user_cart_items user_data) (user_shipping_address user_data)
            (alter (set_return "Return Requested" return_invoice_id
                      return_details)
               (form_orderId form) (user_order_history user_data)))
  /\ id_reserved
       (apply_update
          (return_writes safe_key form return_invoice_id return_details) db)
       "returns" return_invoice_id
     = true.
Proof.
  intros Hu. unfold return_writes, apply_update. cbn [fold_left].
  split; [|apply id_reserved_set].
  cbn [apply_write users]. unfold with_user, with_users, user_at.
  cbn [users]. rewrite lookup_insert_eq, Hu. reflexivity.
Qed.

Lemma return_writes_checkout safe_key form return_invoice_id return_details :
  Forall (checkout_write safe_key)
    (return_writes safe_key form return_invoice_id return_details).
Proof.
  unfold return_writes, checkout_write.
  repeat constructor; cbn; try congruence; intros; congruence.
Qed.

(** X15.  When [request_return] answers 200, the order was delivered within
    the return window and the identifier of the return was free; afterwards
    the identifier is reserved, the order holds the status
    [Return Requested], the identifier of the return and the details of the
    request (the reason, the pickup address and contact chosen in the form),
    the other orders of the user, the other users, the catalog and the
    waitlists are as before, and one mail about the order went to the
    address of the session. *)
Theorem request_return_success env session form w r w' :
  request_return env session form w = Ret r w' ->
  status_code r = 200 ->
  let safe_key := safe_email_key (user_email session) in
  exists user_data order_data ai ci T return_invoice_id return_details,
    r = return_requested return_invoice_id
    /\ reaches_status_check session form (w_db w) user_data ai ci order_data
    /\ delivered_on order_data T
    /\ datetime_sub (env_now env) T <= timedelta_days return_window_days
    /\ id_reserved (w_db w) "returns" return_invoice_id = false
    /\ id_reserved (w_db w') "returns" return_invoice_id = true
    /\ rd_reason return_details = form_reason form
    /\ rd_pickupAddress return_details = pickup_address ai order_data
    /\ rd_pickupContact return_details = pickup_contact ci order_data
    /\ user_order_history (user_at (w_db w') safe_key) !! form_orderId form
       = Some (set_return "Return Requested" return_invoice_id return_details
                 order_data)
    /\ (forall order_id,
           order_id <> form_orderId form ->
           user_order_history (user_at (w_db w') safe_key) !! order_id
           = user_order_history user_data !! order_id)
    /\ (forall k, k <> safe_key -> users (w_db w') !! k = users (w_db w) !! k)
    /\ stockitems (w_db w') = stockitems (w_db w)
    /\ stock_notifications (w_db w') = stock_notifications (w_db w)
    /\ w_outbox w'
       = (w_outbox w ++
            [ReturnRequestMail (user_email session)
               (default "AnonymousUser" (user_name user_data))
               (set_return "Return Requested" return_invoice_id return_details
                  order_data)])%list.
Proof.
  intros Hrun Hcode safe_key.
  destruct (request_return_first_checks env session form w)
    as [(r0 & Hr & Hrun0)
       | [Hraise | (user_data & ai & ci & order_data & Hreach)]];
    [| rewrite Hraise in Hrun; discriminate Hrun |].
  { rewrite Hrun0 in Hrun. injection Hrun as <- _.
    apply request_return_rejections_status in Hr.
    rewrite Hcode in Hr. simpl in Hr. intuition discriminate. }
  destruct (request_return_cases env _ _ _ _ _ _ _ Hreach)
    as [(r0 & Hr & H) | [H | (T & rid & w1 & Hon & Hin & Hgen & H)]].
  - rewrite H in Hrun. injection Hrun as <- _.
    destruct Hr as [Hr | ->]; [congruence | discriminate Hcode].
  - rewrite H in Hrun. discriminate Hrun.
  - destruct H as [(message & H) | (video_url & H)]; rewrite H in Hrun.
    { injection Hrun as <- _. discriminate Hcode. }
    set (details := return_details_of env form video_url
                      (pickup_address ai order_data)
                      (pickup_contact ci order_data)) in *.
    assert (Hw : w' = returned_world (user_email session) safe_key
                        (default "AnonymousUser" (user_name user_data)) form
                        rid details order_data w w1)
      by (injection Hrun as _ <-; reflexivity).
    assert (Hr : r = return_requested rid)
      by (injection Hrun as <- _; reflexivity).
    clear Hrun H. subst w' r.
    exists user_data, order_data, ai, ci, T, rid, details.
    pose proof (ret_user _ _ _ _ _ _ _ Hreach) as Huser.
    pose proof (ret_order _ _ _ _ _ _ _ Hreach) as Horder.
    fold safe_key in Huser.
    unfold generate_unique_id in Hgen.
    apply generate_loop_ret in Hgen as (_ & Hfree & _ & _).
    destruct (return_writes_effect (w_db w) safe_key form rid details
                user_data Huser) as [Huser' Hres].
    destruct (checkout_writes_frame safe_key
                (return_writes safe_key form rid details) (w_db w)
                (return_writes_checkout safe_key form rid details))
      as (Hothers & Hnotif & _).
    unfold returned_world. cbn [w_db w_outbox].
    split; [reflexivity|]. split; [exact Hreach|]. split; [exact Hon|].
    split; [exact Hin|]. split; [exact Hfree|]. split; [exact Hres|].
    split; [reflexivity|]. split; [reflexivity|]. split; [reflexivity|].
    unfold user_at. rewrite Huser'.
    cbn [default from_option]. unfold id. cbn [user_order_history].
    split; [now rewrite lookup_alter_eq, Horder|].
    split; [intros order_id Hne; now rewrite lookup_alter_ne by congruence|].
    split; [exact Hothers|]. split; [reflexivity|].
    split; [exact Hnotif | reflexivity].
Qed.

Lemma request_return_success_witness :
  exists w',
    request_return (env_on 3 true) alice_session return_form
      (return_world delivered_19_oct [555%N])
    = Ret (return_requested "RET00555") w'
    /\ stockitems (w_db w')
       = stockitems (w_db (return_world delivered_19_oct [555%N])).
Proof.
  eexists. split; [vm_compute; reflexivity|].
  match goal with
  | |- stockitems (w_db ?w1) = _ =>
      destruct (request_return_success (env_on 3 true) alice_session
                  return_form (return_world delivered_19_oct [555%N])
                  (return_requested "RET00555") w1
                  ltac:(vm_compute; reflexivity) ltac:(reflexivity))
        as (u & o & ai & ci & T & rid & details & H);
      decompose [and] H; assumption
  end.
Defined.

(** X16.  A return is requested once.  After [request_return] answered 200
    for an order, every complete request of the same session for that order
    is answered with the error [Return already processed. Status: Return
    Requested], and nothing is written. *)
Theorem request_return_once env session form w r w' :
  request_return env session form w = Ret r w' ->
  status_code r = 200 ->
  forall env' form' ai' ci',
    form_addressInfo form' = JsonObject ai' ->
    form_contactInfo form' = JsonObject ci' ->
    form_orderId form' = form_orderId form ->
    form_reason form' <> "" ->
    form_videoFile form' = true ->
    request_return env' session form' w'
    = Ret (already_processed "Return Requested") w'.
Proof.
  intros Hrun Hcode env' form' ai' ci' Hai Hci Hid Hreason Hvideo.
  destruct (request_return_first_checks env session form w)
    as [(r0 & Hr & Hrun0)
       | [Hraise | (user_data & ai & ci & order_data & Hreach)]];
    [| rewrite Hraise in Hrun; discriminate Hrun |].
  { rewrite Hrun0 in Hrun. injection Hrun as <- _.
    apply request_return_rejections_status in Hr.
    rewrite Hcode in Hr. simpl in Hr. intuition discriminate. }
  destruct (request_return_cases env _ _ _ _ _ _ _ Hreach)
    as [(r0 & Hr & H) | [H | (T & rid & w1 & Hon & Hin & Hgen & H)]].
  - rewrite H in Hrun. injection Hrun as <- _.
    destruct Hr as [Hr | ->]; [congruence | discriminate Hcode].
  - rewrite H in Hrun. discriminate Hrun.
  - destruct H as [(message & H) | (video_url & H)]; rewrite H in Hrun.
    { injection Hrun as <- _. discriminate Hcode. }
    set (safe_key := safe_email_key (user_email session)) in *.
    set (details := return_details_of env form video_url
                      (pickup_address ai order_data)
                      (pickup_contact ci order_data)) in *.
    assert (Hw : w' = returned_world (user_email session) safe_key
                        (default "AnonymousUser" (user_name user_data)) form
                        rid details order_data w w1)
      by (injection Hrun as _ <-; reflexivity).
    clear Hrun H. subst w'.
    pose proof (ret_user _ _ _ _ _ _ _ Hreach) as Huser.
    pose proof (ret_order _ _ _ _ _ _ _ Hreach) as Horder.
    fold safe_key in Huser.
    destruct (return_writes_effect (w_db w) safe_key form rid details
                user_data Huser) as [Huser' _].
    set (w' := returned_world (user_email session) safe_key
                 (default "AnonymousUser" (user_name user_data)) form rid
                 details order_data w w1) in *.
    assert (Hreach' :
      reaches_status_check session form' (w_db w')
        (mkUser (user_name user_data) (user_orders user_data)
           (user_cart_items user_data) (user_shipping_address user_data)
           (alter (set_return "Return Requested" rid details)
              (form_orderId form) (user_order_history user_data)))
        ai' ci' (set_return "Return Requested" rid details order_data)).
    { constructor; auto.
      - exact (ret_logged_in _ _ _ _ _ _ _ Hreach).
      - rewrite Hid. exact (ret_order_id _ _ _ _ _ _ _ Hreach).
      - cbn [user_order_history]. rewrite Hid, lookup_alter_eq, Horder.
        reflexivity. }
    rewrite (request_return_reaches _ _ _ _ _ _ _ _ Hreach').
    unfold try_except.
    erewrite process_return_status_processed;
      [reflexivity | reflexivity | left; reflexivity].
Qed.

Lemma request_return_once_witness :
  exists w',
    request_return (env_on 3 true) alice_session return_form
      (return_world delivered_19_oct [555%N])
    = Ret (return_requested "RET00555") w'
    /\ request_return (env_on 4 true) alice_session return_form w'
       = Ret (already_processed "Return Requested") w'.
Proof.
  eexists. split; [vm_compute; reflexivity|].
  eapply (request_return_once (env_on 3 true) alice_session return_form
            (return_world delivered_19_oct [555%N])
            (return_requested "RET00555") _ _ eq_refl
            (env_on 4 true) return_form same_address same_contact);
    try reflexivity; discriminate.
  Unshelve. vm_compute. reflexivity.
Defined.

(** ** The folder of a return video *)

(** X17.  The folder name that [upload_video_to_r2] makes of a user name has
    the length of the name and holds only letters, digits, underscores and
    hyphens, so no slash: a user name cannot lead into another folder.
    Names that hold only such characters are kept as they are, and making
    the folder name of a folder name changes nothing. *)
Theorem sanitize_user_name_safe name :
  Str.forallb safe_name_char (sanitize_user_name name) = true
  /\ String.length (sanitize_user_name name) = String.length name
  /\ Str.contains "/" (sanitize_user_name name) = false
  /\ (Str.forallb safe_name_char name = true -> sanitize_user_name name = name)
  /\ sanitize_user_name (sanitize_user_name name) = sanitize_user_name name.
Proof.
  assert (Hsafe : forall s,
             Str.forallb safe_name_char (sanitize_user_name s) = true).
  { induction s as [|c s IH]; [reflexivity|].
    cbn [sanitize_user_name Str.forallb]. rewrite IH, andb_true_r.
    fold (safe_name_char c). destruct (safe_name_char c) eqn:Hc;
      [exact Hc | reflexivity]. }
  assert (Hid : forall s,
             Str.forallb safe_name_char s = true -> sanitize_user_name s = s).
  { induction s as [|c s IH]; [reflexivity|].
    cbn [sanitize_user_name Str.forallb]. intros H.
    apply andb_true_iff in H as [Hc Hs]. fold (safe_name_char c).
    now rewrite Hc, (IH Hs). }
  split; [apply Hsafe|]. split; [|split; [|split]].
  - induction name as [|c s IH]; [reflexivity|].
    cbn [sanitize_user_name String.length]. now rewrite IH.
  - apply (forallb_not_contains safe_name_char); [apply Hsafe | reflexivity].
  - apply Hid.
  - apply Hid, Hsafe.
Qed.
